(** * sitemap-item: validation and assembly of one sitemap entry

    A shallow embedding of [lib/sitemap-item.ts]: the validator registry,
    [safeDuration], [attrBuilder], the [SitemapItem] constructor,
    [buildVideoElement] and [buildXML], followed by the properties of the
    specification that are stated about them.

    Conventions of the embedding.
    - JavaScript values are the inductive [JsVal]; objects are keyed lists
      in insertion order, arrays are lists.
    - A Number is [JsNum]: NaN, the two infinities, or a finite value given
      by the rational it denotes exactly (every double is such a rational;
      the sign of zero is not distinguished).
    - Strings are [string]; [length] counts its characters.
    - A [throw] is the [Throw] case of [Result]; code that mutates [this]
      and may throw is a function from the state to a result and the state
      the throw leaves behind.
    - The file system, [Date] and the conversions between strings and
      numbers are services of the host ([Host]).
    - The XML tree is built by [xmlbuilder].  A node of the tree records
      what the code hands to the builder; the builder throws a plain
      Error for an attribute whose value is [undefined] or [null] and for
      a text that holds the character U+0000, it takes every truthy
      number and boolean and every non-empty string of printable ASCII
      characters other than [>], tabs and line breaks, and what it makes
      of any other value is a service of the host as well. *)

From Stdlib Require Import String Ascii List Bool Arith ZArith QArith Qabs Qround Lia.
From Stdlib Require Import DecimalString Lqa.
Import ListNotations.
Local Open Scope string_scope.
Local Open Scope list_scope.

Set Implicit Arguments.
#[local] Set Warnings "-register-all".

(* ================================================================== *)
(** ** Regular expressions of the validator registry *)
(* ================================================================== *)

Module RegExp.

(** The fragment of the pattern language that the source uses: the two
    assertions, literal characters, a character range, sequence,
    alternation and a counted repetition. *)
Inductive Regex : Type :=
| AssertStart                      (* ^ *)
| AssertEnd                        (* $ *)
| Literal (w : string)             (* a run of literal characters *)
| Range (lo hi : ascii)            (* [lo-hi] *)
| Seq (r1 r2 : Regex)
| Alt (r1 r2 : Regex)
| Count (r : Regex) (n : nat).     (* r{n} *)

(** [strip w s] removes the prefix [w] from [s]. *)
Fixpoint strip (w s : string) : option string :=
  match w with
  | EmptyString => Some s
  | String a w' =>
      match s with
      | EmptyString => None
      | String b s' => if Ascii.eqb a b then strip w' s' else None
      end
  end.

Definition in_range (lo hi c : ascii) : bool :=
  (nat_of_ascii lo <=? nat_of_ascii c)%nat && (nat_of_ascii c <=? nat_of_ascii hi)%nat.

(** Backtracking matcher: [pos] is the index of the current position in
    the subject, [s] what is left of the subject from there, and [k] the
    continuation that decides the rest of the match. *)
Fixpoint matches (r : Regex) (pos : nat) (s : string)
         (k : nat -> string -> bool) {struct r} : bool :=
  match r with
  | AssertStart => Nat.eqb pos 0 && k pos s
  | AssertEnd => match s with EmptyString => k pos s | String _ _ => false end
  | Literal w =>
      match strip w s with
      | Some s' => k (pos + String.length w)%nat s'
      | None => false
      end
  | Range lo hi =>
      match s with
      | EmptyString => false
      | String c s' => in_range lo hi c && k (S pos) s'
      end
  | Seq r1 r2 => matches r1 pos s (fun pos' s' => matches r2 pos' s' k)
  | Alt r1 r2 => matches r1 pos s k || matches r2 pos s k
  | Count r1 n =>
      (fix rep (n : nat) (pos : nat) (s : string) : bool :=
         match n with
         | O => k pos s
         | S n' => matches r1 pos s (fun pos' s' => rep n' pos' s')
         end) n pos s
  end.

(** A match may start at any index of the subject. *)
Fixpoint search (r : Regex) (pos : nat) (s : string) : bool :=
  matches r pos s (fun _ _ => true)
  || match s with
     | EmptyString => false
     | String _ s' => search r (S pos) s'
     end.

(** [RegExp.prototype.test] on a subject that is already a string. *)
Definition test (r : Regex) (s : string) : bool := search r 0 s.

End RegExp.

Import RegExp.

(* ================================================================== *)
(** ** JavaScript values *)
(* ================================================================== *)

Inductive JsNum : Type :=
| NaN
| PosInf
| NegInf
| Fin (q : Q).

Inductive JsVal : Type :=
| JUndefined
| JNull
| JBool (b : bool)
| JNum (n : JsNum)
| JStr (s : string)
| JArr (items : list JsVal)
| JObj (props : list (string * JsVal))
| JBuiltin (name : string).   (* a member inherited from Object.prototype *)

Definition Props : Type := list (string * JsVal).

(** Errors of [lib/errors] that this file throws, and the errors of the
    run time and of the host that can surface through it. *)
Inductive Error : Type :=
| NoURLError
| ChangeFreqInvalidError
| PriorityInvalidError
| InvalidVideoFormat
| InvalidVideoDescription
| InvalidVideoDuration
| InvalidAttr (key : string)
| InvalidAttrValue (key : string) (val : JsVal) (validator : Regex)
| InvalidNewsFormat
| InvalidNewsAccessValue
| TypeError
| HostError
| MissingAttributeValue    (* Error of the tree builder: missing attribute value *)
| InvalidCharacter.        (* Error of the tree builder: invalid character in string *)

Inductive Result (A : Type) : Type :=
| Ok (a : A)
| Throw (e : Error).

Arguments Ok {A} a.
Arguments Throw {A} e.

Definition bindR {A B : Type} (r : Result A) (f : A -> Result B) : Result B :=
  match r with
  | Ok a => f a
  | Throw e => Throw e
  end.

(** *** Numbers *)

Definition num_lt (a b : JsNum) : bool :=
  match a, b with
  | NaN, _ | _, NaN => false
  | PosInf, _ => false
  | _, NegInf => false
  | NegInf, _ => true
  | _, PosInf => true
  | Fin x, Fin y => negb (Qle_bool y x)
  end.

Definition num_le (a b : JsNum) : bool :=
  match a, b with
  | NaN, _ | _, NaN => false
  | NegInf, _ => true
  | _, PosInf => true
  | PosInf, _ => false
  | _, NegInf => false
  | Fin x, Fin y => Qle_bool x y
  end.

Definition num_gt (a b : JsNum) : bool := num_lt b a.
Definition num_ge (a b : JsNum) : bool := num_le b a.

Definition num_truthy (n : JsNum) : bool :=
  match n with
  | NaN => false
  | PosInf | NegInf => true
  | Fin q => negb (Qeq_bool q 0)
  end.

Definition string_of_N (n : N) : string := NilZero.string_of_uint (N.to_uint n).
Definition string_of_nat (n : nat) : string := string_of_N (N.of_nat n).

(** *** The host *)

(** The places in which the tree builder is handed a value. *)
Inductive Place : Type :=
| AsText          (* the text of an element *)
| AsCData         (* the text of a CDATA section *)
| AsRaw           (* raw markup *)
| AsAttribute.    (* the value of an attribute *)

Class Host : Type := {
  (** ToNumber applied to a String *)
  StringToNumber : string -> JsNum;
  (** [parseFloat] applied to a String *)
  parseFloatString : string -> JsNum;
  (** ToString applied to a Number *)
  NumberToString : JsNum -> string;
  (** ToString applied to a built-in member *)
  BuiltinToString : string -> string;
  (** [ut.getTimestampFromDate(new Date(fs.statSync(file).mtime), realtime)] *)
  timestampOfFile : JsVal -> JsVal -> Result JsVal;
  (** [ut.getTimestampFromDate(new Date(lastmod + ' ' + timezoneOffset), realtime)] *)
  timestampOfString : JsVal -> JsVal -> Result JsVal;
  (** [new Date(v).toISOString()] *)
  dateToISOString : JsVal -> Result JsVal;
  (** What the tree builder does with a value in the cases that are not
      settled here (an object, an array or a function; a falsy value other
      than a missing attribute value; a string with [>] or with a
      character outside printable ASCII, tabs and line breaks, other than
      U+0000 in the text of an element): [None] when it takes the value,
      the error that it throws otherwise. *)
  builderRefusal : Place -> JsVal -> option Error
}.

Section WithHost.

Context {host : Host}.

(** *** Coercions and operators *)

Definition truthy (v : JsVal) : bool :=
  match v with
  | JUndefined | JNull => false
  | JBool b => b
  | JNum n => num_truthy n
  | JStr s => negb (String.eqb s "")
  | JArr _ | JObj _ | JBuiltin _ => true
  end.

Definition typeof (v : JsVal) : string :=
  match v with
  | JUndefined => "undefined"
  | JNull => "object"
  | JBool _ => "boolean"
  | JNum _ => "number"
  | JStr _ => "string"
  | JArr _ | JObj _ => "object"
  | JBuiltin name => if String.eqb name "__proto__" then "object" else "function"
  end.

Definition is_undefined (v : JsVal) : bool :=
  match v with JUndefined => true | _ => false end.

(** [a || b] *)
Definition js_or (a b : JsVal) : JsVal := if truthy a then a else b.

Fixpoint join (sep : string) (l : list string) : string :=
  match l with
  | [] => ""
  | [x] => x
  | x :: l' => x ++ sep ++ join sep l'
  end.

Fixpoint ToString (v : JsVal) : string :=
  match v with
  | JUndefined => "undefined"
  | JNull => "null"
  | JBool b => if b then "true" else "false"
  | JNum n => NumberToString n
  | JStr s => s
  | JArr items =>
      join "," ((fix each (l : list JsVal) : list string :=
                   match l with
                   | [] => []
                   | JUndefined :: l' | JNull :: l' => "" :: each l'
                   | x :: l' => ToString x :: each l'
                   end) items)
  | JObj _ => "[object Object]"
  | JBuiltin name => BuiltinToString name
  end.

Definition ToNumber (v : JsVal) : JsNum :=
  match v with
  | JUndefined => NaN
  | JNull => Fin 0
  | JBool b => if b then Fin 1 else Fin 0
  | JNum n => n
  | JStr s => StringToNumber s
  | JArr _ | JObj _ | JBuiltin _ => StringToNumber (ToString v)
  end.

(** [parseFloat(v)]: the argument is converted to a string and a decimal
    prefix of it is read; on a Number this gives the Number back. *)
Definition parseFloat (v : JsVal) : JsNum :=
  match v with
  | JNum n => n
  | _ => parseFloatString (ToString v)
  end.

(** [v < n], [v > n], [v >= n] and [v <= n] for a Number [n]. *)
Definition js_lt (v : JsVal) (n : JsNum) : bool := num_lt (ToNumber v) n.
Definition js_gt (v : JsVal) (n : JsNum) : bool := num_gt (ToNumber v) n.
Definition js_ge (v : JsVal) (n : JsNum) : bool := num_ge (ToNumber v) n.
Definition js_le (v : JsVal) (n : JsNum) : bool := num_le (ToNumber v) n.

(** [Number.prototype.toFixed(1)]: the integer [n] for which [n / 10] is
    nearest to the value, the larger one on a tie, printed with one digit
    after the point. *)
Definition toFixed1 (x : JsNum) : string :=
  match x with
  | NaN => "NaN"
  | PosInf => "Infinity"
  | NegInf => "-Infinity"
  | Fin q =>
      let s := if Qle_bool 0 q then "" else "-" in
      let a := Qabs q in
      if Qle_bool (inject_Z (10 ^ 21)) a then s ++ NumberToString (Fin a)
      else
        let n := Qfloor (a * inject_Z 10 + (1 # 2)) in
        s ++ string_of_N (Z.to_N (n / 10)) ++ "." ++ string_of_N (Z.to_N (n mod 10))
  end.

(** *** Property access *)

Fixpoint lookup {A : Type} (k : string) (ps : list (string * A)) : option A :=
  match ps with
  | [] => None
  | (k', v) :: ps' => if String.eqb k k' then Some v else lookup k ps'
  end.

(** Names that every object inherits from [Object.prototype]. *)
Definition objectPrototype : list string :=
  [ "constructor"; "__proto__"; "hasOwnProperty"; "isPrototypeOf";
    "propertyIsEnumerable"; "toLocaleString"; "toString"; "valueOf";
    "__defineGetter__"; "__defineSetter__"; "__lookupGetter__";
    "__lookupSetter__" ].

Definition inherited (k : string) : JsVal :=
  if existsb (String.eqb k) objectPrototype then JBuiltin k else JUndefined.

(** The index that the property name [k] denotes, below [n]. *)
Definition index_of_key (k : string) (n : nat) : option nat :=
  find (fun i => String.eqb k (string_of_nat i)) (seq 0 n).

(** [o[k]] on an object given by its own properties. *)
Definition prop (o : Props) (k : string) : JsVal :=
  match lookup k o with
  | Some v => v
  | None => inherited k
  end.

(** [v[k]] on any value.  Besides own properties, the length and the
    indices of arrays and strings and the members inherited from
    [Object.prototype] are found; reading a property of [undefined] or
    [null] throws. *)
Definition get (v : JsVal) (k : string) : Result JsVal :=
  match v with
  | JUndefined | JNull => Throw TypeError
  | JObj o => Ok (prop o k)
  | JArr items =>
      if String.eqb k "length" then Ok (JNum (Fin (inject_Z (Z.of_nat (List.length items)))))
      else match index_of_key k (List.length items) with
           | Some i => Ok (nth i items JUndefined)
           | None => Ok (inherited k)
           end
  | JStr s =>
      if String.eqb k "length" then Ok (JNum (Fin (inject_Z (Z.of_nat (String.length s)))))
      else match index_of_key k (String.length s) with
           | Some i => Ok (JStr (String.substring i 1 s))
           | None => Ok (inherited k)
           end
  | JBool _ | JNum _ | JBuiltin _ => Ok (inherited k)
  end.

(** [o[k] = v] on an object given by its own properties: an existing
    property keeps its place, a new one goes last; assigning to
    [__proto__] creates no own property. *)
Fixpoint assign (k : string) (v : JsVal) (o : Props) : Props :=
  match o with
  | [] => [(k, v)]
  | (k', v') :: o' =>
      if String.eqb k k' then (k, v) :: o' else (k', v') :: assign k v o'
  end.

Definition set_prop (k : string) (v : JsVal) (o : Props) : Props :=
  if String.eqb k "__proto__" then o else assign k v o.

(** [s.split(':')] *)
Fixpoint split_colon (s : string) : list string :=
  match s with
  | EmptyString => [""]
  | String c s' =>
      if Ascii.eqb c ":" then "" :: split_colon s'
      else match split_colon s' with
           | [] => [String c ""]
           | seg :: segs => String c seg :: segs
           end
  end.

(* ================================================================== *)
(** ** The XML tree handed to the tree builder *)
(* ================================================================== *)

(** A node records what the code passes to the builder: the element
    name, the attribute object and, for a leaf, the value given as
    escaped text, as CDATA or as raw markup. *)
Inductive XMLNode : Type :=
| Element (name : string) (attributes : Props) (children : list XMLNode)
| Text (v : JsVal)
| CData (v : JsVal)
| Raw (v : JsVal).

(** An element that the code holds on to, such as [this.url]. *)
Record XMLElement : Type := {
  name : string;
  attributes : Props;
  children : list XMLNode
}.

Definition set_children (c : list XMLNode) (e : XMLElement) : XMLElement :=
  {| name := name e; attributes := attributes e; children := c |}.

Definition set_attributes (a : Props) (e : XMLElement) : XMLElement :=
  {| name := name e; attributes := a; children := children e |}.

(** *** Mutation and exceptions

    [Build S A] is a computation over the mutable state [S] that returns
    an [A] or throws; the state it has reached is kept in both cases. *)
Definition Build (S A : Type) : Type := S -> Result A * S.

Definition ret {S A : Type} (a : A) : Build S A := fun s => (Ok a, s).

Definition throw {S A : Type} (e : Error) : Build S A := fun s => (Throw e, s).

Definition bind {S A B : Type} (m : Build S A) (f : A -> Build S B) : Build S B :=
  fun s =>
    match m s with
    | (Ok a, s') => f a s'
    | (Throw e, s') => (Throw e, s')
    end.

Definition lift {S A : Type} (r : Result A) : Build S A := fun s => (r, s).

Definition modify {S : Type} (f : S -> S) : Build S unit := fun s => (Ok tt, f s).

Definition state {S : Type} : Build S S := fun s => (Ok s, s).

Notation "x <- m ;; k" := (bind m (fun x => k))
  (at level 61, m at next level, right associativity).
Notation "m ;;; k" := (bind m (fun _ => k))
  (at level 61, right associativity).

(** [l.forEach(f)] and [for (const x of l) f(x)] *)
Fixpoint forEach {S : Type} (f : JsVal -> Build S unit) (l : list JsVal) : Build S unit :=
  match l with
  | [] => ret tt
  | x :: l' => f x ;;; forEach f l'
  end.

(** *** The checks of the tree builder *)

(** The character U+0000 occurs in [s]. *)
Fixpoint hasNul (s : string) : bool :=
  match s with
  | EmptyString => false
  | String c s' => Ascii.eqb c zero || hasNul s'
  end.

(** A character that is taken in every place: a printable ASCII
    character other than [>] (which, after two closing brackets, would
    end a CDATA section), a tab, a line feed or a carriage return. *)
Definition cleanChar (c : ascii) : bool :=
  let n := nat_of_ascii c in
  (32 <=? n)%nat && (n <=? 126)%nat && negb (n =? 62)%nat
  || (n =? 9)%nat || (n =? 10)%nat || (n =? 13)%nat.

Fixpoint clean (s : string) : bool :=
  match s with
  | EmptyString => true
  | String c s' => cleanChar c && clean s'
  end.

(** [plain v]: a value that the builder takes wherever it is handed it:
    a truthy number or boolean, or a non-empty string of such
    characters. *)
Definition plain (v : JsVal) : bool :=
  truthy v
  && match v with
     | JStr s => clean s
     | JNum _ | JBool _ => true
     | _ => false
     end.

(** [refusal place v]: the error that the builder throws when it is
    handed [v] in [place], if it throws.  A plain value is taken; an
    attribute value that is [undefined] or [null] and a text with U+0000
    are refused; the host tells the rest. *)
Definition refusal (place : Place) (v : JsVal) : option Error :=
  if plain v then None
  else
    match place, v with
    | AsAttribute, (JUndefined | JNull) => Some MissingAttributeValue
    | AsText, JStr s => if hasNul s then Some InvalidCharacter else builderRefusal place v
    | _, _ => builderRefusal place v
    end.

Definition contentRefusal (n : XMLNode) : option Error :=
  match n with
  | Text v => refusal AsText v
  | CData v => refusal AsCData v
  | Raw v => refusal AsRaw v
  | Element _ _ _ => None
  end.

(** The first refusal among the entries of a list, in their order. *)
Fixpoint firstRefusal {A : Type} (f : A -> option Error) (l : list A) : option Error :=
  match l with
  | [] => None
  | x :: l' =>
      match f x with
      | Some e => Some e
      | None => firstRefusal f l'
      end
  end.

Definition append (n : XMLNode) : Build (list XMLNode) unit :=
  modify (fun kids => kids ++ [n]).

(** [node.element(name, attributes, text)]: the builder creates the
    child, sets its attributes, then its text, and appends it to the
    element whose children are the state; when it refuses an attribute
    or the text, nothing has been appended. *)
Definition element (name : string) (attrs : Props) (content : list XMLNode)
  : Build (list XMLNode) unit :=
  match firstRefusal (fun kv => refusal AsAttribute (snd kv)) attrs with
  | Some e => throw e
  | None =>
      match firstRefusal contentRefusal content with
      | Some e => throw e
      | None => append (Element name attrs content)
      end
  end.

(** [node.element(name).cdata(v)], and an entry [name: {'#raw': v}] of
    an object handed to the builder: the child is appended first and
    then given its content, so a refused content leaves the child in the
    tree, empty. *)
Definition elementWith (name : string) (inner : XMLNode) : Build (list XMLNode) unit :=
  match contentRefusal inner with
  | Some e => append (Element name [] []) ;;; throw e
  | None => append (Element name [] [inner])
  end.

(** The attributes are set one after the other; [done] are those set. *)
Fixpoint setAttributes (attrs done : Props) : Result unit * Props :=
  match attrs with
  | [] => (Ok tt, done)
  | (k, v) :: attrs' =>
      match refusal AsAttribute v with
      | Some e => (Throw e, done)
      | None => setAttributes attrs' (done ++ [(k, v)])
      end
  end.

(** [node.element(name).att(k, v)], and an entry [name: {'@k': v, ...}]
    of an object handed to the builder: the child is appended first and
    the attributes are then set on it in their order, so a refused
    attribute leaves the child in the tree with the attributes before
    it. *)
Definition elementAtts (name : string) (attrs : Props) : Build (list XMLNode) unit :=
  fun kids =>
    let (r, done) := setAttributes attrs [] in
    (r, kids ++ [Element name done []]).

(** [const child = node.element(name)] followed by code that fills
    [child]: the child belongs to the tree from the start, so what has
    been put into it when the code throws stays in the tree. *)
Definition child {A : Type} (name : string) (fill : Build (list XMLNode) A)
  : Build (list XMLNode) A :=
  fun kids =>
    let (r, inner) := fill [] in
    (r, kids ++ [Element name [] inner]).

(** [if (o.k) { emit(o.k) }] *)
Definition whenPresent {S : Type} (o : JsVal) (k : string)
           (emit : JsVal -> Build S unit) : Build S unit :=
  v <- lift (get o k) ;;
  if truthy v then emit v else ret tt.

(* ================================================================== *)
(** ** Validators and the attribute extractor *)
(* ================================================================== *)

Definition safeDuration (duration : JsVal) : Result JsVal :=
  if js_lt duration (Fin 0) || js_gt duration (Fin (inject_Z 28800))
  then Throw InvalidVideoDuration
  else Ok duration.

(** [/^allow|deny$/] *)
Definition allowDeny : Regex :=
  Alt (Seq AssertStart (Literal "allow")) (Seq (Literal "deny") AssertEnd).

Definition validators : list (string * Regex) :=
  [ (* /^[A-Z]{3}$/ *)
    ("price:currency", Seq AssertStart (Seq (Count (Range "A" "Z") 3) AssertEnd));
    (* /^rent|purchase|RENT|PURCHASE$/ *)
    ("price:type",
     Alt (Seq AssertStart (Literal "rent"))
         (Alt (Literal "purchase")
              (Alt (Literal "RENT") (Seq (Literal "PURCHASE") AssertEnd))));
    (* /^HD|hd|sd|SD$/ *)
    ("price:resolution",
     Alt (Seq AssertStart (Literal "HD"))
         (Alt (Literal "hd")
              (Alt (Literal "sd") (Seq (Literal "SD") AssertEnd))));
    ("platform:relationship", allowDeny);
    ("restriction:relationship", allowDeny) ].

(** The [keys] argument of [attrBuilder]: one key or an array of keys. *)
Inductive Keys : Type :=
| OneKey (key : string)
| ManyKeys (keys : list string).

(** The callback of [keys.reduce] in [attrBuilder]. *)
Definition attrStep (conf : JsVal) (attrs : Props) (key : string) : Result Props :=
  bindR (get conf key) (fun v =>
    if negb (is_undefined v) then
      let keyAr := split_colon key in
      if negb (Nat.eqb (List.length keyAr) 2) then Throw (InvalidAttr key)
      else
        match lookup key validators with
        | Some validator =>
            if negb (test validator (ToString v))
            then Throw (InvalidAttrValue key v validator)
            else Ok (set_prop (nth 1 keyAr "") v attrs)
        | None => Ok (set_prop (nth 1 keyAr "") v attrs)
        end
    else Ok attrs).

Fixpoint reduce (conf : JsVal) (keys : list string) (attrs : Props) : Result Props :=
  match keys with
  | [] => Ok attrs
  | key :: keys' => bindR (attrStep conf attrs key) (reduce conf keys')
  end.

Definition attrBuilder (conf : JsVal) (keys : Keys) : Result Props :=
  let keys := match keys with OneKey key => [key] | ManyKeys keys => keys end in
  reduce conf keys [].

(* ================================================================== *)
(** ** SitemapItem *)
(* ================================================================== *)

Record SitemapItem : Type := {
  conf : Props;
  loc : JsVal;
  lastmod : JsVal;
  changefreq : JsVal;
  priority : JsVal;
  news : JsVal;
  img : JsVal;
  links : JsVal;
  expires : JsVal;
  androidLink : JsVal;
  mobile : JsVal;
  video : JsVal;
  ampLink : JsVal;
  url : XMLElement
}.

(** Modelled from the spec: the constant [CHANGEFREQ] of [lib/types], which
    is not part of the sources at hand; the spec enumerates its members. *)
Definition CHANGEFREQ : list string :=
  [ "always"; "hourly"; "daily"; "weekly"; "monthly"; "yearly"; "never" ].

(** [CHANGEFREQ.indexOf(v) === -1] *)
Definition notInCHANGEFREQ (v : JsVal) : bool :=
  match v with
  | JStr s => negb (existsb (String.eqb s) CHANGEFREQ)
  | _ => true
  end.

(** The three sources of [this.lastmod], in the order the constructor
    tries them. *)
Definition lastmodOf (conf : Props) : Result JsVal :=
  if truthy (prop conf "lastmodfile") then
    timestampOfFile (prop conf "lastmodfile") (prop conf "lastmodrealtime")
  else if truthy (prop conf "lastmod") then
    timestampOfString (prop conf "lastmod") (prop conf "lastmodrealtime")
  else if truthy (prop conf "lastmodISO") then Ok (prop conf "lastmodISO")
  else Ok JUndefined.

(** The guard in front of the priority domain check. *)
Definition priorityChecked (conf : Props) : bool :=
  negb (truthy (prop conf "safe")) && truthy (prop conf "priority").

(** [!(priority >= 0.0 && priority <= 1.0) || typeof priority !== 'number'] *)
Definition priorityInvalid (priority : JsVal) : bool :=
  negb (js_ge priority (Fin 0) && js_le priority (Fin 1))
  || negb (String.eqb (typeof priority) "number").

Definition SitemapItem_constructor (conf : Props) : Result SitemapItem :=
  let isSafeUrl := prop conf "safe" in
  if negb (truthy (prop conf "url")) then Throw NoURLError
  else
    bindR (lastmodOf conf) (fun lastmod =>
      let changefreq := prop conf "changefreq" in
      if negb (truthy isSafeUrl) && truthy changefreq && notInCHANGEFREQ changefreq
      then Throw ChangeFreqInvalidError
      else
        let priority := prop conf "priority" in
        if priorityChecked conf && priorityInvalid priority
        then Throw PriorityInvalidError
        else
          Ok {| conf := conf;
                loc := prop conf "url";
                lastmod := lastmod;
                changefreq := changefreq;
                priority := priority;
                news := js_or (prop conf "news") JNull;
                img := js_or (prop conf "img") JNull;
                links := js_or (prop conf "links") JNull;
                expires := js_or (prop conf "expires") JNull;
                androidLink := js_or (prop conf "androidLink") JNull;
                mobile := js_or (prop conf "mobile") JNull;
                video := js_or (prop conf "video") JNull;
                ampLink := js_or (prop conf "ampLink") JNull;
                (* this.root.element('url') *)
                url := {| name := "url"; attributes := []; children := [] |} |}).

(** *** Access to [this] *)

(** [this[p]] for the property names of [buildXML]. *)
Definition this (p : string) (it : SitemapItem) : JsVal :=
  if String.eqb p "loc" then loc it
  else if String.eqb p "lastmod" then lastmod it
  else if String.eqb p "changefreq" then changefreq it
  else if String.eqb p "priority" then priority it
  else if String.eqb p "img" then img it
  else if String.eqb p "video" then video it
  else if String.eqb p "links" then links it
  else if String.eqb p "expires" then expires it
  else if String.eqb p "androidLink" then androidLink it
  else if String.eqb p "mobile" then mobile it
  else if String.eqb p "news" then news it
  else if String.eqb p "ampLink" then ampLink it
  else JUndefined.

Definition set_url (n : XMLElement) (it : SitemapItem) : SitemapItem :=
  {| conf := conf it; loc := loc it; lastmod := lastmod it;
     changefreq := changefreq it; priority := priority it; news := news it;
     img := img it; links := links it; expires := expires it;
     androidLink := androidLink it; mobile := mobile it; video := video it;
     ampLink := ampLink it; url := n |}.

Definition set_img (v : JsVal) (it : SitemapItem) : SitemapItem :=
  {| conf := conf it; loc := loc it; lastmod := lastmod it;
     changefreq := changefreq it; priority := priority it; news := news it;
     img := v; links := links it; expires := expires it;
     androidLink := androidLink it; mobile := mobile it; video := video it;
     ampLink := ampLink it; url := url it |}.

Definition set_video (v : JsVal) (it : SitemapItem) : SitemapItem :=
  {| conf := conf it; loc := loc it; lastmod := lastmod it;
     changefreq := changefreq it; priority := priority it; news := news it;
     img := img it; links := links it; expires := expires it;
     androidLink := androidLink it; mobile := mobile it; video := v;
     ampLink := ampLink it; url := url it |}.

(** [this.url.element(...)] and the like: a call of the builder on the
    item node. *)
Definition onUrl {A : Type} (call : Build (list XMLNode) A) : Build SitemapItem A :=
  fun it =>
    let (r, kids) := call (children (url it)) in
    (r, set_url (set_children kids (url it)) it).

(** [const child = this.url.element(name)] followed by code that fills
    [child]. *)
Definition withChild {A : Type} (name : string) (fill : Build (list XMLNode) A)
  : Build SitemapItem A :=
  onUrl (child name fill).

(** *** Video *)

Definition videoElements (video : JsVal) : Build (list XMLNode) unit :=
  invalid <-
    (if negb (String.eqb (typeof video) "object") then ret true
     else
       thumbnail_loc <- lift (get video "thumbnail_loc") ;;
       if negb (truthy thumbnail_loc) then ret true
       else
         title <- lift (get video "title") ;;
         if negb (truthy title) then ret true
         else
           description <- lift (get video "description") ;;
           ret (negb (truthy description))) ;;
  if invalid then throw InvalidVideoFormat
  else
    description <- lift (get video "description") ;;
    len <- lift (get description "length") ;;
    if js_gt len (Fin (inject_Z 2048)) then throw InvalidVideoDescription
    else
      thumbnail_loc <- lift (get video "thumbnail_loc") ;;
      title <- lift (get video "title") ;;
      element "video:thumbnail_loc" [] [Text thumbnail_loc] ;;;
      elementWith "video:title" (CData title) ;;;
      elementWith "video:description" (CData description) ;;;
      whenPresent video "content_loc" (fun v =>
        element "video:content_loc" [] [Text v]) ;;;
      whenPresent video "player_loc" (fun v =>
        attrs <- lift (attrBuilder video (OneKey "player_loc:autoplay")) ;;
        element "video:player_loc" attrs [Text v]) ;;;
      whenPresent video "duration" (fun v =>
        duration <- lift (safeDuration v) ;;
        element "video:duration" [] [Text duration]) ;;;
      whenPresent video "expiration_date" (fun v =>
        element "video:expiration_date" [] [Text v]) ;;;
      whenPresent video "rating" (fun v =>
        element "video:rating" [] [Text v]) ;;;
      whenPresent video "view_count" (fun v =>
        element "video:view_count" [] [Text v]) ;;;
      whenPresent video "publication_date" (fun v =>
        element "video:publication_date" [] [Text v]) ;;;
      whenPresent video "family_friendly" (fun v =>
        element "video:family_friendly" [] [Text v]) ;;;
      whenPresent video "tag" (fun tag =>
        match tag with
        | JArr tags => forEach (fun tag => element "video:tag" [] [Text tag]) tags
        | _ => element "video:tag" [] [Text tag]
        end) ;;;
      whenPresent video "category" (fun v =>
        element "video:category" [] [Text v]) ;;;
      whenPresent video "restriction" (fun v =>
        attrs <- lift (attrBuilder video (OneKey "restriction:relationship")) ;;
        element "video:restriction" attrs [Text v]) ;;;
      whenPresent video "gallery_loc" (fun v =>
        title <- lift (get video "gallery_loc:title") ;;
        element "video:gallery_loc" [("title", title)] [Text v]) ;;;
      whenPresent video "price" (fun v =>
        attrs <- lift (attrBuilder video
                         (ManyKeys ["price:resolution"; "price:currency"; "price:type"])) ;;
        element "video:price" attrs [Text v]) ;;;
      whenPresent video "requires_subscription" (fun v =>
        element "video:requires_subscription" [] [Text v]) ;;;
      whenPresent video "uploader" (fun v =>
        element "video:uploader" [] [Text v]) ;;;
      whenPresent video "platform" (fun v =>
        attrs <- lift (attrBuilder video (OneKey "platform:relationship")) ;;
        element "video:platform" attrs [Text v]) ;;;
      whenPresent video "live" (fun v =>
        element "video:live" [] [Text v]).

Definition buildVideoElement (video : JsVal) : Build SitemapItem unit :=
  withChild "video:video" (videoElements video).

(** *** News *)

(** [v !== s] for a string literal [s] *)
Definition differs (v : JsVal) (s : string) : bool :=
  match v with
  | JStr s' => negb (String.eqb s' s)
  | _ => true
  end.

Definition newsElements (news : JsVal) : Build (list XMLNode) unit :=
  invalid <-
    (publication <- lift (get news "publication") ;;
     if negb (truthy publication) then ret true
     else
       name <- lift (get publication "name") ;;
       if negb (truthy name) then ret true
       else
         language <- lift (get publication "language") ;;
         if negb (truthy language) then ret true
         else
           publication_date <- lift (get news "publication_date") ;;
           if negb (truthy publication_date) then ret true
           else
             title <- lift (get news "title") ;;
             ret (negb (truthy title))) ;;
  if invalid then throw InvalidNewsFormat
  else
    whenPresent news "publication" (fun publication =>
      child "news:publication"
        (whenPresent publication "name" (fun name =>
           elementWith "news:name" (CData name)) ;;;
         whenPresent publication "language" (fun language =>
           element "news:language" [] [Text language]))) ;;;
    whenPresent news "access" (fun access =>
      if differs access "Registration" && differs access "Subscription"
      then throw InvalidNewsAccessValue
      else element "news:access" [] [Text access]) ;;;
    whenPresent news "genres" (fun v =>
      element "news:genres" [] [Text v]) ;;;
    publication_date <- lift (get news "publication_date") ;;
    element "news:publication_date" [] [Text publication_date] ;;;
    title <- lift (get news "title") ;;
    elementWith "news:title" (CData title) ;;;
    whenPresent news "keywords" (fun v =>
      element "news:keywords" [] [Text v]) ;;;
    whenPresent news "stock_tickers" (fun v =>
      element "news:stock_tickers" [] [Text v]).

Definition buildNewsElement (news : JsVal) : Build SitemapItem unit :=
  withChild "news:news" (newsElements news).

(** *** Images and links *)

(** The callback of [forEach] in the image branch.  The entries of
    [xmlObj] are collected first; handed [{'image:image': xmlObj}], the
    builder opens the element and adds one child for each entry, in the
    order in which the entries were made. *)
Definition imageElement (image : JsVal) : Build SitemapItem unit :=
  imageLoc <-
    (if negb (String.eqb (typeof image) "object")
     then ret (Some image)
     else
       u <- lift (get image "url") ;;
       ret (if truthy u then Some u else None)) ;;
  caption <- lift (get image "caption") ;;
  geoLocation <- lift (get image "geoLocation") ;;
  title <- lift (get image "title") ;;
  license <- lift (get image "license") ;;
  withChild "image:image"
    (match imageLoc with
     | Some v => element "image:loc" [] [Text v]
     | None => ret tt
     end ;;;
     (if truthy caption then elementWith "image:caption" (CData caption) else ret tt) ;;;
     (if truthy geoLocation
      then element "image:geo_location" [] [Text geoLocation] else ret tt) ;;;
     (if truthy title then elementWith "image:title" (CData title) else ret tt) ;;;
     (if truthy license then element "image:license" [] [Text license] else ret tt)).

(** The callback of [forEach] in the links branch. *)
Definition linkElement (link : JsVal) : Build SitemapItem unit :=
  lang <- lift (get link "lang") ;;
  href <- lift (get link "url") ;;
  onUrl (elementAtts "xhtml:link"
           [("rel", JStr "alternate"); ("hreflang", lang); ("href", href)]).

(** [if (typeof v !== 'object' || v.length === undefined) v = [v]] *)
Definition asArray (v : JsVal) : Result JsVal :=
  if negb (String.eqb (typeof v) "object") then Ok (JArr [v])
  else bindR (get v "length") (fun len =>
         if is_undefined len then Ok (JArr [v]) else Ok v).

(** [v.forEach(f)]: only an array has the method. *)
Definition forEachOf {S : Type} (v : JsVal) (f : JsVal -> Build S unit) : Build S unit :=
  match v with
  | JArr items => forEach f items
  | _ => throw TypeError
  end.

(** *** buildXML *)

Definition props : list string :=
  [ "loc"; "lastmod"; "changefreq"; "priority"; "img"; "video"; "links";
    "expires"; "androidLink"; "mobile"; "news"; "ampLink" ].

(** The body of the [while] loop for the property [p]. *)
Definition buildProp (p : string) : Build SitemapItem unit :=
  it <- state ;;
  let v := this p it in
  if truthy v && String.eqb p "img" then
    images <- lift (asArray v) ;;
    modify (set_img images) ;;;
    forEachOf images imageElement
  else if truthy v && String.eqb p "video" then
    videos <- lift (asArray v) ;;
    modify (set_video videos) ;;;
    forEachOf videos buildVideoElement
  else if truthy v && String.eqb p "links" then
    forEachOf v linkElement
  else if truthy v && String.eqb p "expires" then
    iso <- lift (dateToISOString v) ;;
    onUrl (element "expires" [] [Text iso])
  else if truthy v && String.eqb p "androidLink" then
    onUrl (element "xhtml:link" [("rel", JStr "alternate"); ("href", v)] [])
  else if truthy v && String.eqb p "mobile" then
    onUrl (elementAtts "mobile:mobile"
             (if String.eqb (typeof v) "string" then [("type", v)] else []))
  else if String.eqb p "priority" && (js_ge v (Fin 0) && js_le v (Fin 1)) then
    onUrl (element p [] [Text (JStr (toFixed1 (parseFloat v)))])
  else if truthy v && String.eqb p "ampLink" then
    onUrl (element "xhtml:link" [("rel", JStr "amphtml"); ("href", v)] [])
  else if truthy v && String.eqb p "news" then
    buildNewsElement v
  else if truthy v then
    if String.eqb p "loc" && truthy (prop (conf it) "cdata")
    then onUrl (elementWith p (Raw v))
    else onUrl (element p [] [Text v])
  else ret tt.

Fixpoint loop (ps : list string) : Build SitemapItem unit :=
  match ps with
  | [] => ret tt
  | p :: ps' => buildProp p ;;; loop ps'
  end.

(** [this.url.children = []; this.url.attributes = {}] *)
Definition resetUrl (it : SitemapItem) : SitemapItem :=
  set_url (set_attributes [] (set_children [] (url it))) it.

Definition buildXML : Build SitemapItem XMLElement :=
  modify resetUrl ;;;
  loop props ;;;
  it <- state ;;
  ret (url it).

(** What the step for [priority] appends to the item node: the branch of
    its own when the value lies in [0, 1], the branch shared by the
    scalar fields when it does not and is truthy. *)
Definition priorityNodes (v : JsVal) : list XMLNode :=
  if js_ge v (Fin 0) && js_le v (Fin 1)
  then [Element "priority" [] [Text (JStr (toFixed1 (parseFloat v)))]]
  else if truthy v then [Element "priority" [] [Text v]]
  else [].

(** The video passes the two checks at the head of [buildVideoElement]:
    it is an object with a thumbnail, a title and a description, and the
    description is not longer than 2048. *)
Definition videoFormatOk (video : JsVal) : Prop :=
  typeof video = "object"
  /\ exists thumbnail_loc title description len,
      get video "thumbnail_loc" = Ok thumbnail_loc /\ truthy thumbnail_loc = true
      /\ get video "title" = Ok title /\ truthy title = true
      /\ get video "description" = Ok description /\ truthy description = true
      /\ get description "length" = Ok len
      /\ js_gt len (Fin (inject_Z 2048)) = false.

(** The namespaced attributes of the video pass the attribute extractor. *)
Definition videoAttrsOk (video : JsVal) : Prop :=
  (exists attrs, attrBuilder video (OneKey "restriction:relationship") = Ok attrs)
  /\ (exists attrs,
        attrBuilder video
          (ManyKeys ["price:resolution"; "price:currency"; "price:type"]) = Ok attrs)
  /\ (exists attrs, attrBuilder video (OneKey "platform:relationship") = Ok attrs).

(** The value that the image or video step leaves in its field: a truthy
    value that is not array-like is wrapped into an array. *)
Definition arrayed (v : JsVal) : JsVal :=
  if truthy v
  then match asArray v with Ok a => a | Throw _ => v end
  else v.

End WithHost.

Arguments buildXML {host}.

(* ================================================================== *)
(** ** A host for concrete runs *)
(* ================================================================== *)

Module PlainHost.

(** A host without a file system, whose conversions between strings and
    numbers cover the unsigned decimal integers, whose dates are passed
    on as they are given and whose builder throws nothing but its two
    known errors. *)

Definition digit (c : ascii) : option Z :=
  let n := nat_of_ascii c in
  if (48 <=? n)%nat && (n <=? 57)%nat then Some (Z.of_nat (n - 48)) else None.

Fixpoint digits (acc : Z) (s : string) : option Z :=
  match s with
  | EmptyString => Some acc
  | String c s' =>
      match digit c with
      | Some d => digits (10 * acc + d) s'
      | None => None
      end
  end.

Fixpoint digitPrefix (acc : option Z) (s : string) : option Z :=
  match s with
  | EmptyString => acc
  | String c s' =>
      match digit c with
      | Some d => digitPrefix (Some (10 * match acc with Some a => a | None => 0 end + d)%Z) s'
      | None => acc
      end
  end.

Definition toNumber (s : string) : JsNum :=
  match digits 0 s with
  | Some z => Fin (inject_Z z)
  | None => NaN
  end.

Definition toFloat (s : string) : JsNum :=
  match digitPrefix None s with
  | Some z => Fin (inject_Z z)
  | None => NaN
  end.

Definition toString (n : JsNum) : string :=
  match n with
  | NaN => "NaN"
  | PosInf => "Infinity"
  | NegInf => "-Infinity"
  | Fin q =>
      (if Qle_bool 0 q then "" else "-")
      ++ string_of_N (Z.to_N (Qfloor (Qabs q)))
  end.

#[export] Instance host : Host :=
  {| StringToNumber := toNumber;
     parseFloatString := toFloat;
     NumberToString := toString;
     BuiltinToString := fun name => ("function " ++ name ++ "() { [native code] }")%string;
     timestampOfFile := fun _ _ => Throw HostError;
     timestampOfString := fun v _ => Ok v;
     dateToISOString := fun v => Ok v;
     builderRefusal := fun _ _ => None |}.

End PlainHost.


(* ================================================================== *)
(** ** Words of the specification *)
(* ================================================================== *)

(** [hasColon s]: the character [:] occurs in [s]. *)
Fixpoint hasColon (s : string) : bool :=
  match s with
  | EmptyString => false
  | String c s' => Ascii.eqb c ":" || hasColon s'
  end.

(** [contains w s]: [w] occurs in [s] as a run of consecutive characters. *)
Fixpoint contains (w s : string) : bool :=
  match strip w s with
  | Some _ => true
  | None =>
      match s with
      | EmptyString => false
      | String _ s' => contains w s'
      end
  end.

Definition lowerChar (c : ascii) : ascii :=
  let n := nat_of_ascii c in
  if (65 <=? n)%nat && (n <=? 90)%nat then ascii_of_nat (n + 32) else c.

Fixpoint lowercase (s : string) : string :=
  match s with
  | EmptyString => EmptyString
  | String c s' => String (lowerChar c) (lowercase s')
  end.

(** The reading of the specification for [price:type]: the value is
    [rent] or [purchase], compared without regard to case. *)
Definition specPriceType (s : string) : bool :=
  String.eqb (lowercase s) "rent" || String.eqb (lowercase s) "purchase".

(** The double nearest to the decimal [0.7], as the rational it is. *)
Definition double_0_7 : Q := 3152519739159347 # 4503599627370496.

(** *** What a build step may do to the item

    [named p n]: the node [n] is an element called [p]. *)
Definition named (p : string) (n : XMLNode) : bool :=
  match n with
  | Element nm _ _ => String.eqb nm p
  | _ => false
  end.

Definition notPriority (n : XMLNode) : Prop := named "priority" n = false.

(** The fields that no build step assigns. *)
Definition sameFields (it it' : SitemapItem) : Prop :=
  conf it' = conf it /\ loc it' = loc it /\ lastmod it' = lastmod it
  /\ changefreq it' = changefreq it /\ priority it' = priority it
  /\ news it' = news it /\ links it' = links it /\ expires it' = expires it
  /\ androidLink it' = androidLink it /\ mobile it' = mobile it
  /\ ampLink it' = ampLink it.

(** [extends P it it']: [it'] is [it] with more children at the end of
    the item node, each of them satisfying [P]. *)
Definition extends (P : XMLNode -> Prop) (it it' : SitemapItem) : Prop :=
  sameFields it it'
  /\ name (url it') = name (url it)
  /\ attributes (url it') = attributes (url it)
  /\ exists extra, children (url it') = children (url it) ++ extra /\ Forall P extra.

Definition Extends {A : Type} (P : XMLNode -> Prop) (m : Build SitemapItem A) : Prop :=
  forall it, extends P it (snd (m it)).

(** A computation on the children of an element that only appends, and
    appends only nodes that satisfy [P]. *)
Definition Appends {A : Type} (P : XMLNode -> Prop) (m : Build (list XMLNode) A) : Prop :=
  forall s, exists extra, snd (m s) = s ++ extra /\ Forall P extra.

(** A computation that succeeds and appends exactly the nodes [l]. *)
Definition Emits (m : Build (list XMLNode) unit) (l : list XMLNode) : Prop :=
  forall s, m s = (Ok tt, s ++ l).

(** [alike s t]: the items differ at most in that an image or video
    field already holds the array that the build would make of it. *)
Definition alike (s t : SitemapItem) : Prop :=
  sameFields s t /\ url t = url s
  /\ arrayed (img t) = arrayed (img s)
  /\ arrayed (video t) = arrayed (video s).

(** A computation that does not tell such items apart. *)
Definition Alike {A : Type} (m : Build SitemapItem A) : Prop :=
  forall s t, alike s t -> fst (m t) = fst (m s) /\ alike (snd (m s)) (snd (m t)).

(** A computation that leaves the field [f] of the item as it is. *)
Definition Keeps {A : Type} (f : SitemapItem -> JsVal) (m : Build SitemapItem A) : Prop :=
  forall s, f (snd (m s)) = f s.

(** *** Values that the tree builder takes *)

(** A field that is emitted only when truthy: unset, or plain. *)
Definition falsyOrPlain (v : JsVal) : bool := negb (truthy v) || plain v.

Definition plainAttributes (attrs : Props) : bool :=
  forallb (fun kv => plain (snd kv)) attrs.

Definition plainContent (content : list XMLNode) : bool :=
  forallb (fun n => match n with
                    | Text v | CData v | Raw v => plain v
                    | Element _ _ _ => true
                    end) content.

(** The scalar fields of the item hold values that the builder takes:
    location, last modification, change frequency and the two links are
    unset or plain, so is a mobile type that is a string, and the
    priority is unset or a number. *)
Definition plainScalars (it : SitemapItem) : bool :=
  forallb falsyOrPlain [loc it; lastmod it; changefreq it; androidLink it; ampLink it]
  && (negb (String.eqb (typeof (mobile it)) "string") || falsyOrPlain (mobile it))
  && match priority it with
     | JUndefined | JNum _ => true
     | _ => false
     end.

(** An item that has plain scalar fields and nothing else: no images,
    videos, links, expiry date or news. *)
Definition plainItem (it : SitemapItem) : bool :=
  forallb (fun v => negb (truthy v)) [img it; video it; links it; expires it; news it]
  && plainScalars it.

(** A number that is not NaN and lies outside the interval from 0 to 1. *)
Definition outside01 (n : JsNum) : Prop :=
  match n with
  | NaN => False
  | PosInf | NegInf => True
  | Fin q => (q < 0 \/ 1 < q)%Q
  end.

(** The item with the nodes [l] added at the end of its item node. *)
Definition withNodes (l : list XMLNode) (it : SitemapItem) : SitemapItem :=
  set_url (set_children (children (url it) ++ l) (url it)) it.

(** *** Closed forms for the further properties *)

(** [startsWith w s]: [s] begins with [w]. *)
Definition startsWith (w s : string) : bool :=
  match strip w s with
  | Some _ => true
  | None => false
  end.

(** [endsWith w s]: [s] ends with [w]. *)
Fixpoint endsWith (w s : string) : bool :=
  match strip w s with
  | Some EmptyString => true
  | _ =>
      match s with
      | EmptyString => false
      | String _ s' => endsWith w s'
      end
  end.

(** Exactly three characters, each of them one of [A] to [Z]. *)
Definition threeCapitals (s : string) : bool :=
  match s with
  | String a (String b (String c EmptyString)) =>
      in_range "A" "Z" a && in_range "A" "Z" b && in_range "A" "Z" c
  | _ => false
  end.

(** The texts that [toFixed(1)] gives on the interval from 0 to 1. *)
Definition tenths : list string :=
  [ "0.0"; "0.1"; "0.2"; "0.3"; "0.4"; "0.5"; "0.6"; "0.7"; "0.8"; "0.9"; "1.0" ].

(** What the step for a scalar field appends: the value as text, or as
    raw markup for the location when the configuration asks for it. *)
Definition scalarNodes (p : string) (it : SitemapItem) : list XMLNode :=
  let v := this p it in
  if truthy v
  then [Element p []
          [if String.eqb p "loc" && truthy (prop (conf it) "cdata")
           then Raw v else Text v]]
  else [].

Definition androidNodes (it : SitemapItem) : list XMLNode :=
  if truthy (androidLink it)
  then [Element "xhtml:link" [("rel", JStr "alternate"); ("href", androidLink it)] []]
  else [].

Definition mobileNodes (it : SitemapItem) : list XMLNode :=
  if truthy (mobile it)
  then [Element "mobile:mobile"
          (if String.eqb (typeof (mobile it)) "string" then [("type", mobile it)] else [])
          []]
  else [].

Definition ampNodes (it : SitemapItem) : list XMLNode :=
  if truthy (ampLink it)
  then [Element "xhtml:link" [("rel", JStr "amphtml"); ("href", ampLink it)] []]
  else [].

(** [v[k]] where the access cannot throw. *)
Definition field (v : JsVal) (k : string) : JsVal :=
  match get v k with
  | Ok x => x
  | Throw _ => JUndefined
  end.

(** [whenTruthy v l]: the nodes [l] when [v] is truthy, none otherwise. *)
Definition whenTruthy (v : JsVal) (l : list XMLNode) : list XMLNode :=
  if truthy v then l else [].

(** The node of one alternate link. *)
Definition linkNode (link : JsVal) : XMLNode :=
  Element "xhtml:link"
    [("rel", JStr "alternate"); ("hreflang", field link "lang");
     ("href", field link "url")] [].

(** The node of one image. *)
Definition imageNode (image : JsVal) : XMLNode :=
  Element "image:image" []
    ((if negb (String.eqb (typeof image) "object")
      then [Element "image:loc" [] [Text image]]
      else whenTruthy (field image "url")
             [Element "image:loc" [] [Text (field image "url")]])
     ++ whenTruthy (field image "caption")
          [Element "image:caption" [] [CData (field image "caption")]]
     ++ whenTruthy (field image "geoLocation")
          [Element "image:geo_location" [] [Text (field image "geoLocation")]]
     ++ whenTruthy (field image "title")
          [Element "image:title" [] [CData (field image "title")]]
     ++ whenTruthy (field image "license")
          [Element "image:license" [] [Text (field image "license")]]).

(** The fields of a video that become the text of an element, and the
    keys that become attributes. *)
Definition videoTexts : list string :=
  [ "thumbnail_loc"; "title"; "description"; "content_loc"; "player_loc";
    "duration"; "expiration_date"; "rating"; "view_count"; "publication_date";
    "family_friendly"; "category"; "restriction"; "gallery_loc"; "price";
    "requires_subscription"; "uploader"; "platform"; "live" ].

Definition videoAttributes : list string :=
  [ "player_loc:autoplay"; "restriction:relationship"; "price:resolution";
    "price:currency"; "price:type"; "platform:relationship" ].

(** A tag is unset or plain, or it is an array of plain entries. *)
Definition plainTags (tag : JsVal) : bool :=
  match tag with
  | JArr tags => forallb plain tags
  | _ => falsyOrPlain tag
  end.

(** The video holds only values that the builder takes: each text field
    is unset or plain, so are the tags, each attribute key is absent or
    plain, and a gallery location comes with a plain title. *)
Definition videoTakes (video : JsVal) : bool :=
  forallb (fun k => falsyOrPlain (field video k)) videoTexts
  && plainTags (field video "tag")
  && forallb (fun k => is_undefined (field video k) || plain (field video k))
       videoAttributes
  && (negb (truthy (field video "gallery_loc")) || plain (field video "gallery_loc:title")).

(** The image holds only values that the builder takes: it is itself
    plain, or it is an object whose [url] is unset or plain; and the four
    other fields that are read from it are unset or plain. *)
Definition imageTakes (image : JsVal) : bool :=
  (if negb (String.eqb (typeof image) "object") then plain image
   else
     match image with
     | JNull => false
     | _ => falsyOrPlain (field image "url")
     end)
  && forallb (fun k => falsyOrPlain (field image k))
       ["caption"; "geoLocation"; "title"; "license"].

(** The language and the target of the link are plain. *)
Definition linkTakes (link : JsVal) : bool :=
  plain (field link "lang") && plain (field link "url").

(** The tag elements of a video: one for a scalar tag, one for each
    entry of an array. *)
Definition tagNodes (tag : JsVal) : list XMLNode :=
  whenTruthy tag
    (match tag with
     | JArr tags => map (fun t => Element "video:tag" [] [Text t]) tags
     | _ => [Element "video:tag" [] [Text tag]]
     end).

(** A computation that throws only errors in [P]. *)
Definition Raises {S A : Type} (P : Error -> Prop) (m : Build S A) : Prop :=
  forall s e, fst (m s) = Throw e -> P e.

Section BuildErrors.

Context {host : Host}.

(** The errors that a build can end in: those of the video and news
    checks, a value that fails its registered pattern, an access to a
    property of [undefined] or [null] or a missing [forEach], the two
    errors of the tree builder, and what the host's date conversion or
    the host's part of the builder throws. *)
Definition buildError (e : Error) : Prop :=
  In e [ InvalidVideoFormat; InvalidVideoDescription; InvalidVideoDuration;
         InvalidNewsFormat; InvalidNewsAccessValue; TypeError;
         MissingAttributeValue; InvalidCharacter ]
  \/ (exists key v pattern,
        e = InvalidAttrValue key v pattern /\ lookup key validators = Some pattern)
  \/ (exists v, dateToISOString v = Throw e)
  \/ (exists place v, builderRefusal place v = Some e).

End BuildErrors.

Section PlainSteps.

Context {host : Host}.

(** What the step for [p] appends, when it succeeds, for the seven
    properties that are emitted as one element. *)
Definition stepNodes (p : string) (it : SitemapItem) : list XMLNode :=
  if String.eqb p "priority" then priorityNodes (priority it)
  else if String.eqb p "androidLink" then androidNodes it
  else if String.eqb p "mobile" then mobileNodes it
  else if String.eqb p "ampLink" then ampNodes it
  else if String.eqb p "loc" || String.eqb p "lastmod" || String.eqb p "changefreq"
       then scalarNodes p it
  else [].

End PlainSteps.

(* ================================================================== *)
(** ** Properties *)
(* ================================================================== *)

Section Properties.

Context {host : Host}.

(** *** Values and property access *)

Lemma is_undefined_false (v : JsVal) : v <> JUndefined -> is_undefined v = false.
Proof. destruct v; simpl; congruence. Qed.

Lemma get_throw_inv (v : JsVal) (k : string) (e : Error) :
  get v k = Throw e -> truthy v = false /\ e = TypeError.
Proof.
  destruct v; simpl; try discriminate; try (intros H; inversion H; auto).
  - destruct (String.eqb k "length"); [discriminate|].
    destruct (index_of_key k (String.length s)); discriminate.
  - destruct (String.eqb k "length"); [discriminate|].
    destruct (index_of_key k (List.length items)); discriminate.
Qed.

Lemma get_truthy (v : JsVal) (k : string) :
  truthy v = true -> exists x, get v k = Ok x.
Proof.
  intros Hv. destruct (get v k) as [x|e] eqn:E; [eauto|].
  apply get_throw_inv in E. destruct E as [E _]. congruence.
Qed.

(** *** The attribute extractor *)

Lemma split_colon_no_colon (key : string) :
  hasColon key = false -> split_colon key = [key].
Proof.
  induction key as [|c key IH]; simpl; [reflexivity|].
  intros H. apply orb_false_iff in H. destruct H as [Hc Hk].
  rewrite Hc, (IH Hk). reflexivity.
Qed.

Lemma attrStep_no_colon (conf : JsVal) (attrs : Props) (key : string) (v : JsVal) :
  get conf key = Ok v -> v <> JUndefined -> hasColon key = false ->
  attrStep conf attrs key = Throw (InvalidAttr key).
Proof.
  intros Hget Hv Hc. unfold attrStep. rewrite Hget. simpl.
  rewrite (is_undefined_false Hv). simpl.
  rewrite (split_colon_no_colon _ Hc). reflexivity.
Qed.

(** C4.  A key that is present in the source mapping and has no colon
    makes the attribute extractor fail with the invalid-attribute-key
    error, for every source mapping (the extractor takes no [safe] flag
    and whatever the mapping holds under [safe] changes nothing); the
    value [usd] under [price:currency] fails with the
    invalid-attribute-value error, which carries the key, the value and
    the registered pattern; the value [USD] is accepted and the mapping
    gains [currency -> USD]. *)
Theorem attrBuilder_key_shape_and_currency (conf : JsVal) :
  (forall key v rest,
      get conf key = Ok v -> v <> JUndefined -> hasColon key = false ->
      attrBuilder conf (OneKey key) = Throw (InvalidAttr key)
      /\ attrBuilder conf (ManyKeys (key :: rest)) = Throw (InvalidAttr key))
  /\ (get conf "price:currency" = Ok (JStr "usd") ->
      exists pattern,
        lookup "price:currency" validators = Some pattern
        /\ attrBuilder conf (OneKey "price:currency")
           = Throw (InvalidAttrValue "price:currency" (JStr "usd") pattern))
  /\ (get conf "price:currency" = Ok (JStr "USD") ->
      attrBuilder conf (OneKey "price:currency") = Ok [("currency", JStr "USD")]).
Proof.
  split; [|split].
  - intros key v rest Hget Hv Hc. unfold attrBuilder. simpl.
    rewrite (attrStep_no_colon conf [] key Hget Hv Hc). auto.
  - intros Hget. eexists. split; [reflexivity|].
    unfold attrBuilder. simpl. unfold attrStep. rewrite Hget. reflexivity.
  - intros Hget. unfold attrBuilder. simpl. unfold attrStep. rewrite Hget.
    reflexivity.
Qed.

(** *** The pattern of [price:type] *)

Lemma strip_contains (w s s' : string) : strip w s = Some s' -> contains w s = true.
Proof. intros H. destruct s; simpl; rewrite H; reflexivity. Qed.

Lemma contains_tail (w : string) (c : ascii) (s : string) :
  contains w s = true -> contains w (String c s) = true.
Proof.
  intros H. change (contains w (String c s))
    with (match strip w (String c s) with Some _ => true | None => contains w s end).
  destruct (strip w (String c s)); auto.
Qed.

Lemma matches_Literal_contains (w : string) (pos : nat) (s : string)
      (k : nat -> string -> bool) :
  matches (Literal w) pos s k = true -> contains w s = true.
Proof.
  simpl. destruct (strip w s) as [s'|] eqn:E; [|discriminate].
  intros _. exact (strip_contains _ _ E).
Qed.

(** A match of the pattern of [price:type] at any index shows one of its
    four words inside the subject. *)
Lemma price_type_match_contains (pattern : Regex) (s : string) :
  lookup "price:type" validators = Some pattern ->
  forall pos,
    search pattern pos s = true ->
    contains "rent" s = true \/ contains "purchase" s = true
    \/ contains "RENT" s = true \/ contains "PURCHASE" s = true.
Proof.
  intros Hp. inversion Hp; subst pattern; clear Hp.
  induction s as [|c s IH]; intros pos H.
  - destruct pos; simpl in H; discriminate.
  - change (search ?r pos (String c s))
      with (matches r pos (String c s) (fun _ _ => true) || search r (S pos) s) in H.
    apply orb_true_iff in H. destruct H as [H|H].
    + change (matches (Alt ?a ?b) pos ?t ?k)
        with (matches a pos t k || matches b pos t k) in H.
      apply orb_true_iff in H. destruct H as [H|H].
      { change (matches (Seq AssertStart ?b) pos ?t ?k)
          with (Nat.eqb pos 0 && matches b pos t k) in H.
        apply andb_true_iff in H. destruct H as [_ H].
        left. exact (matches_Literal_contains _ _ _ _ H). }
      change (matches (Alt ?a ?b) pos ?t ?k)
        with (matches a pos t k || matches b pos t k) in H.
      apply orb_true_iff in H. destruct H as [H|H].
      { right; left. exact (matches_Literal_contains _ _ _ _ H). }
      change (matches (Alt ?a ?b) pos ?t ?k)
        with (matches a pos t k || matches b pos t k) in H.
      apply orb_true_iff in H. destruct H as [H|H].
      { right; right; left. exact (matches_Literal_contains _ _ _ _ H). }
      change (matches (Seq (Literal ?w) ?b) pos ?t ?k)
        with (matches (Literal w) pos t (fun pos' s' => matches b pos' s' k)) in H.
      right; right; right. exact (matches_Literal_contains _ _ _ _ H).
    + destruct (IH _ H) as [G|[G|[G|G]]];
        [left|right; left|right; right; left|right; right; right];
        apply contains_tail; exact G.
Qed.

(** C5, as the code has it.  For a string under [price:type]: each of
    the four spellings [rent], [purchase], [RENT] and [PURCHASE] is
    accepted and the mapping gains [type]; a string in which none of
    these four words occurs fails with the invalid-attribute-value
    error.  Spellings in another mix of cases, such as [Rent], are among
    the rejected ones. *)
Theorem price_type_spellings (conf : JsVal) (s : string) :
  get conf "price:type" = Ok (JStr s) ->
  (In s ["rent"; "purchase"; "RENT"; "PURCHASE"] ->
   attrBuilder conf (OneKey "price:type") = Ok [("type", JStr s)])
  /\ (contains "rent" s = false -> contains "purchase" s = false ->
      contains "RENT" s = false -> contains "PURCHASE" s = false ->
      exists pattern,
        lookup "price:type" validators = Some pattern
        /\ attrBuilder conf (OneKey "price:type")
           = Throw (InvalidAttrValue "price:type" (JStr s) pattern)).
Proof.
  intros Hget. split.
  - intros Hin. unfold attrBuilder. simpl. unfold attrStep. rewrite Hget.
    simpl in Hin.
    destruct Hin as [<-|[<-|[<-|[<-|[]]]]]; reflexivity.
  - intros H1 H2 H3 H4.
    destruct (lookup "price:type" validators) as [pattern|] eqn:Hp; [|discriminate].
    exists pattern. split; [reflexivity|].
    assert (Ht : test pattern s = false).
    { destruct (test pattern s) eqn:Ht; [|reflexivity].
      destruct (price_type_match_contains s Hp 0 Ht) as [G|[G|[G|G]]]; congruence. }
    unfold attrBuilder. cbn [reduce]. unfold attrStep. rewrite Hget.
    cbn [bindR is_undefined negb].
    change (split_colon "price:type") with ["price"; "type"].
    cbn [List.length Nat.eqb negb nth].
    rewrite Hp. cbn [ToString]. rewrite Ht. reflexivity.
Qed.

(** *** The constructor *)

(** C8.  A configuration that lacks [url] (or holds a falsy value under
    it) is refused with the missing-URL error, before anything else is
    looked at; so no item comes into being without a url. *)
Theorem constructor_requires_url (conf : Props) :
  truthy (prop conf "url") = false ->
  SitemapItem_constructor conf = Throw NoURLError
  /\ (forall it, SitemapItem_constructor conf <> Ok it).
Proof.
  intros H. unfold SitemapItem_constructor. rewrite H. simpl.
  split; [reflexivity|discriminate].
Qed.

(** An item that exists carries the url of its configuration. *)
Lemma constructor_loc (conf : Props) (it : SitemapItem) :
  SitemapItem_constructor conf = Ok it ->
  truthy (loc it) = true /\ loc it = prop conf "url".
Proof.
  unfold SitemapItem_constructor.
  destruct (truthy (prop conf "url")) eqn:Hu; simpl; [|discriminate].
  destruct (lastmodOf conf); simpl; [|discriminate].
  destruct (_ && _ && _); [discriminate|].
  destruct (_ && _); [discriminate|].
  intros H. inversion H; subst; simpl. auto.
Qed.

(** What the constructor returns once the url, the timestamp and the
    change frequency are in order and the priority check does not fire. *)
Lemma constructor_ok (options : Props) (lm : JsVal) :
  truthy (prop options "url") = true ->
  lastmodOf options = Ok lm ->
  truthy (prop options "safe") || negb (truthy (prop options "changefreq"))
  || negb (notInCHANGEFREQ (prop options "changefreq")) = true ->
  priorityChecked options && priorityInvalid (prop options "priority") = false ->
  exists it,
    SitemapItem_constructor options = Ok it
    /\ conf it = options /\ loc it = prop options "url"
    /\ priority it = prop options "priority"
    /\ url it = {| name := "url"; attributes := []; children := [] |}.
Proof.
  intros Hu Hl Hc Hp. unfold SitemapItem_constructor.
  rewrite Hu, Hl. simpl.
  replace (negb (truthy (prop options "safe")) && truthy (prop options "changefreq")
           && notInCHANGEFREQ (prop options "changefreq")) with false.
  2:{ destruct (truthy (prop options "safe")), (truthy (prop options "changefreq")),
        (notInCHANGEFREQ (prop options "changefreq")); simpl in *; congruence. }
  rewrite Hp. eexists. split; [reflexivity|]. simpl. auto.
Qed.

(** *** Sequencing *)

Lemma bind_ok_inv {S A B : Type} (m : Build S A) (f : A -> Build S B)
      (s s2 : S) (b : B) :
  bind m f s = (Ok b, s2) ->
  exists a s1, m s = (Ok a, s1) /\ f a s1 = (Ok b, s2).
Proof.
  unfold bind. destruct (m s) as [[a|e] s1]; [eauto|discriminate].
Qed.

Lemma bind_ok {S A B : Type} (m : Build S A) (f : A -> Build S B)
      (s s1 : S) (a : A) :
  m s = (Ok a, s1) -> bind m f s = f a s1.
Proof. intros H. unfold bind. rewrite H. reflexivity. Qed.


Lemma whenPresent_ok_inv {S : Type} (o : JsVal) (k : string)
      (emit : JsVal -> Build S unit) (s s' : S) :
  whenPresent o k emit s = (Ok tt, s') ->
  exists v, get o k = Ok v
            /\ (truthy v = true /\ emit v s = (Ok tt, s')
                \/ truthy v = false /\ s' = s).
Proof.
  unfold whenPresent, bind, lift. destruct (get o k) as [v|e]; [|discriminate].
  exists v. split; [reflexivity|].
  destruct (truthy v); [left; auto|right].
  unfold ret in H. inversion H. auto.
Qed.

Lemma whenPresent_absent {S : Type} (o : JsVal) (k : string)
      (emit : JsVal -> Build S unit) (v : JsVal) (s : S) :
  get o k = Ok v -> truthy v = false -> whenPresent o k emit s = (Ok tt, s).
Proof.
  intros Hg Hv. unfold whenPresent, bind, lift. rewrite Hg, Hv. reflexivity.
Qed.

Lemma whenPresent_present {S : Type} (o : JsVal) (k : string)
      (emit : JsVal -> Build S unit) (v : JsVal) (s : S) :
  get o k = Ok v -> truthy v = true -> whenPresent o k emit s = emit v s.
Proof.
  intros Hg Hv. unfold whenPresent, bind, lift. rewrite Hg, Hv. reflexivity.
Qed.


(** *** The checks of the tree builder *)

Arguments plain : simpl never.
Arguments refusal : simpl never.

Lemma plain_refusal (place : Place) (v : JsVal) :
  plain v = true -> refusal place v = None.
Proof. intros H. unfold refusal. rewrite H. reflexivity. Qed.

Lemma plainAttributes_refusal (attrs : Props) :
  plainAttributes attrs = true ->
  firstRefusal (fun kv => refusal AsAttribute (snd kv)) attrs = None.
Proof.
  induction attrs as [|[k v] attrs IH]; simpl; [reflexivity|].
  intros H. apply andb_true_iff in H. destruct H as [Hv Ha].
  rewrite (plain_refusal AsAttribute v Hv). exact (IH Ha).
Qed.

Lemma plainContent_refusal (content : list XMLNode) :
  plainContent content = true -> firstRefusal contentRefusal content = None.
Proof.
  induction content as [|n content IH]; simpl; [reflexivity|].
  intros H. apply andb_true_iff in H. destruct H as [Hn Hc].
  destruct n as [nm a c|v|v|v]; simpl;
    try rewrite (plain_refusal _ _ Hn); exact (IH Hc).
Qed.

(** A call that hands over plain values only is taken. *)
Lemma element_plain (nm : string) (attrs : Props) (content : list XMLNode) :
  plainAttributes attrs = true -> plainContent content = true ->
  Emits (element nm attrs content) [Element nm attrs content].
Proof.
  intros Ha Hc s. unfold element.
  rewrite (plainAttributes_refusal _ Ha), (plainContent_refusal _ Hc). reflexivity.
Qed.

(** A call either appends its element or throws and appends nothing. *)
Lemma element_run (nm : string) (attrs : Props) (content : list XMLNode)
      (s : list XMLNode) :
  element nm attrs content s = (Ok tt, s ++ [Element nm attrs content])
  \/ exists e,
      element nm attrs content s = (Throw e, s)
      /\ (firstRefusal (fun kv => refusal AsAttribute (snd kv)) attrs = Some e
          \/ firstRefusal contentRefusal content = Some e).
Proof.
  unfold element.
  destruct (firstRefusal (fun kv => refusal AsAttribute (snd kv)) attrs) as [e|];
    [right; exists e; auto|].
  destruct (firstRefusal contentRefusal content) as [e|];
    [right; exists e; auto|].
  left. reflexivity.
Qed.

Lemma elementWith_plain (nm : string) (inner : XMLNode) :
  plainContent [inner] = true ->
  Emits (elementWith nm inner) [Element nm [] [inner]].
Proof.
  intros H s. unfold elementWith.
  pose proof (plainContent_refusal _ H) as R. simpl in R.
  destruct (contentRefusal inner); [discriminate|]. reflexivity.
Qed.

Lemma elementWith_run (nm : string) (inner : XMLNode) (s : list XMLNode) :
  elementWith nm inner s = (Ok tt, s ++ [Element nm [] [inner]])
  \/ exists e,
      elementWith nm inner s = (Throw e, s ++ [Element nm [] []])
      /\ contentRefusal inner = Some e.
Proof.
  unfold elementWith. destruct (contentRefusal inner) as [e|].
  - right. exists e. split; reflexivity.
  - left. reflexivity.
Qed.

Lemma setAttributes_plain (attrs done : Props) :
  plainAttributes attrs = true -> setAttributes attrs done = (Ok tt, done ++ attrs).
Proof.
  revert done. induction attrs as [|[k v] attrs IH]; intros done; simpl.
  - intros _. now rewrite app_nil_r.
  - intros H. apply andb_true_iff in H. destruct H as [Hv Ha].
    rewrite (plain_refusal AsAttribute v Hv), (IH _ Ha), <- app_assoc. reflexivity.
Qed.

Lemma setAttributes_ok (attrs done set : Props) :
  setAttributes attrs done = (Ok tt, set) -> set = done ++ attrs.
Proof.
  revert done. induction attrs as [|[k v] attrs IH]; intros done; simpl.
  - intros H. inversion H. now rewrite app_nil_r.
  - destruct (refusal AsAttribute v); [discriminate|].
    intros H. rewrite (IH _ H), <- app_assoc. reflexivity.
Qed.

Lemma setAttributes_throw (attrs done set : Props) (e : Error) :
  setAttributes attrs done = (Throw e, set) ->
  exists v, In v (map snd attrs) /\ refusal AsAttribute v = Some e.
Proof.
  revert done. induction attrs as [|[k v] attrs IH]; intros done; simpl.
  - discriminate.
  - destruct (refusal AsAttribute v) as [e'|] eqn:R.
    + intros H. inversion H. subst. exists v. auto.
    + intros H. destruct (IH _ H) as (w & Hw & Rw). exists w. auto.
Qed.

Lemma elementAtts_plain (nm : string) (attrs : Props) :
  plainAttributes attrs = true -> Emits (elementAtts nm attrs) [Element nm attrs []].
Proof.
  intros H s. unfold elementAtts. rewrite (setAttributes_plain attrs [] H). reflexivity.
Qed.

Lemma elementAtts_run (nm : string) (attrs : Props) (s : list XMLNode) :
  elementAtts nm attrs s
  = (fst (setAttributes attrs []), s ++ [Element nm (snd (setAttributes attrs [])) []]).
Proof. unfold elementAtts. destruct (setAttributes attrs []); reflexivity. Qed.

Lemma child_run {A : Type} (nm : string) (fill : Build (list XMLNode) A)
      (s : list XMLNode) :
  child nm fill s = (fst (fill []), s ++ [Element nm [] (snd (fill []))]).
Proof. unfold child. destruct (fill []); reflexivity. Qed.

Lemma onUrl_run {A : Type} (call : Build (list XMLNode) A) (it : SitemapItem) :
  onUrl call it
  = (fst (call (children (url it))),
     set_url (set_children (snd (call (children (url it)))) (url it)) it).
Proof. unfold onUrl. destruct (call (children (url it))); reflexivity. Qed.

Lemma withChild_run {A : Type} (nm : string) (fill : Build (list XMLNode) A)
      (it : SitemapItem) :
  withChild nm fill it
  = (fst (fill []),
     set_url (set_children (children (url it) ++ [Element nm [] (snd (fill []))])
                           (url it)) it).
Proof. unfold withChild. rewrite onUrl_run, child_run. reflexivity. Qed.

(** *** Computations that succeed and append given nodes *)

Lemma Emits_ret : Emits (ret tt) [].
Proof. intros s. unfold ret. now rewrite app_nil_r. Qed.

Lemma Emits_bind (m : Build (list XMLNode) unit) (f : unit -> Build (list XMLNode) unit)
      (l1 l2 : list XMLNode) :
  Emits m l1 -> Emits (f tt) l2 -> Emits (bind m f) (l1 ++ l2).
Proof.
  intros H1 H2 s. unfold bind. rewrite (H1 s), (H2 (s ++ l1)), app_assoc. reflexivity.
Qed.

Lemma Emits_run {B : Type} (m : Build (list XMLNode) unit) (l : list XMLNode)
      (f : unit -> Build (list XMLNode) B) (s : list XMLNode) :
  Emits m l -> bind m f s = f tt (s ++ l).
Proof. intros H. unfold bind. rewrite (H s). reflexivity. Qed.

Lemma Emits_when (v : JsVal) (m : Build (list XMLNode) unit) (l : list XMLNode) :
  (truthy v = true -> Emits m l) ->
  Emits (if truthy v then m else ret tt) (whenTruthy v l).
Proof.
  intros H. unfold whenTruthy. destruct (truthy v); [apply H; reflexivity|apply Emits_ret].
Qed.

Lemma Emits_whenPresent (o : JsVal) (k : string)
      (emit : JsVal -> Build (list XMLNode) unit) (v : JsVal) (l : list XMLNode) :
  get o k = Ok v -> (truthy v = true -> Emits (emit v) l) ->
  Emits (whenPresent o k emit) (whenTruthy v l).
Proof.
  intros Hg H s. unfold whenPresent, bind, lift. rewrite Hg.
  exact (Emits_when v H s).
Qed.

Lemma Emits_forEach (f : JsVal -> Build (list XMLNode) unit) (node : JsVal -> XMLNode)
      (l : list JsVal) :
  (forall x, In x l -> Emits (f x) [node x]) -> Emits (forEach f l) (map node l).
Proof.
  induction l as [|x l IH]; intros H; cbn [forEach map]; [apply Emits_ret|].
  change (node x :: map node l) with ([node x] ++ map node l).
  apply Emits_bind; [apply H; left; reflexivity|].
  apply IH. intros y Hy. apply H. right. exact Hy.
Qed.

Lemma Emits_child (nm : string) (fill : Build (list XMLNode) unit) (l : list XMLNode) :
  Emits fill l -> Emits (child nm fill) [Element nm [] l].
Proof. intros H s. rewrite child_run, (H []). reflexivity. Qed.

Lemma onUrl_emits (call : Build (list XMLNode) unit) (l : list XMLNode)
      (it : SitemapItem) :
  Emits call l -> onUrl call it = (Ok tt, withNodes l it).
Proof. intros H. rewrite onUrl_run, (H (children (url it))). reflexivity. Qed.

Lemma withChild_emits (nm : string) (fill : Build (list XMLNode) unit)
      (l : list XMLNode) (it : SitemapItem) :
  Emits fill l -> withChild nm fill it = (Ok tt, withNodes [Element nm [] l] it).
Proof. intros H. unfold withChild. apply onUrl_emits. apply Emits_child. exact H. Qed.

(** *** Computations that only append children *)

Lemma Appends_ret {A : Type} (P : XMLNode -> Prop) (a : A) : Appends P (ret a).
Proof. intros s. exists []. simpl. split; [now rewrite app_nil_r|constructor]. Qed.

Lemma Appends_throw {A : Type} (P : XMLNode -> Prop) (e : Error) :
  Appends P (@throw _ A e).
Proof. intros s. exists []. simpl. split; [now rewrite app_nil_r|constructor]. Qed.

Lemma Appends_lift {A : Type} (P : XMLNode -> Prop) (r : Result A) : Appends P (lift r).
Proof. intros s. exists []. simpl. split; [now rewrite app_nil_r|constructor]. Qed.

Lemma Appends_bind {A B : Type} (P : XMLNode -> Prop) (m : Build (list XMLNode) A)
      (f : A -> Build (list XMLNode) B) :
  Appends P m -> (forall a, Appends P (f a)) -> Appends P (bind m f).
Proof.
  intros Hm Hf s. unfold bind. destruct (Hm s) as (e1 & H1 & P1).
  destruct (m s) as [[a|e] s1]; simpl in H1; subst s1.
  - destruct (Hf a (s ++ e1)) as (e2 & H2 & P2). exists (e1 ++ e2).
    rewrite H2. split; [now rewrite app_assoc|]. apply Forall_app. auto.
  - exists e1. auto.
Qed.

Lemma Appends_element (P : XMLNode -> Prop) (nm : string) (attrs : Props)
      (content : list XMLNode) :
  (forall a c, P (Element nm a c)) -> Appends P (element nm attrs content).
Proof.
  intros H s. destruct (element_run nm attrs content s) as [R|(e & R & _)]; rewrite R.
  - eexists. split; [reflexivity|]. constructor; [apply H|constructor].
  - exists []. simpl. split; [now rewrite app_nil_r|constructor].
Qed.

Lemma Appends_elementWith (P : XMLNode -> Prop) (nm : string) (inner : XMLNode) :
  (forall a c, P (Element nm a c)) -> Appends P (elementWith nm inner).
Proof.
  intros H s. destruct (elementWith_run nm inner s) as [R|(e & R & _)]; rewrite R;
    (eexists; split; [reflexivity|]; constructor; [apply H|constructor]).
Qed.

Lemma Appends_elementAtts (P : XMLNode -> Prop) (nm : string) (attrs : Props) :
  (forall a c, P (Element nm a c)) -> Appends P (elementAtts nm attrs).
Proof.
  intros H s. rewrite elementAtts_run.
  eexists. split; [reflexivity|]. constructor; [apply H|constructor].
Qed.

Lemma Appends_child {A : Type} (P : XMLNode -> Prop) (nm : string)
      (fill : Build (list XMLNode) A) :
  (forall a c, P (Element nm a c)) -> Appends P (child nm fill).
Proof.
  intros H s. rewrite child_run.
  eexists. split; [reflexivity|]. constructor; [apply H|constructor].
Qed.

Lemma Appends_whenPresent (P : XMLNode -> Prop) (o : JsVal) (k : string)
      (emit : JsVal -> Build (list XMLNode) unit) :
  (forall v, Appends P (emit v)) -> Appends P (whenPresent o k emit).
Proof.
  intros H. unfold whenPresent. apply Appends_bind; [apply Appends_lift|].
  intros v. destruct (truthy v); [apply H|apply Appends_ret].
Qed.

Lemma Appends_forEach (P : XMLNode -> Prop) (f : JsVal -> Build (list XMLNode) unit)
      (l : list JsVal) :
  (forall v, Appends P (f v)) -> Appends P (forEach f l).
Proof.
  intros H. induction l as [|x l IH]; simpl; [apply Appends_ret|].
  apply Appends_bind; auto.
Qed.

Ltac appends :=
  repeat lazymatch goal with
    | |- Appends _ (if ?b then _ else _) => destruct b
    | |- Appends _ (match ?v with _ => _ end) => destruct v
    | |- Appends _ (ret _) => apply Appends_ret
    | |- Appends _ (throw _) => apply Appends_throw
    | |- Appends _ (lift _) => apply Appends_lift
    | |- Appends _ (element _ _ _) => apply Appends_element; intros
    | |- Appends _ (elementWith _ _) => apply Appends_elementWith; intros
    | |- Appends _ (elementAtts _ _) => apply Appends_elementAtts; intros
    | |- Appends _ (child _ _) => apply Appends_child; intros
    | |- Appends _ (whenPresent _ _ _) => apply Appends_whenPresent; intros
    | |- Appends _ (forEach _ _) => apply Appends_forEach; intros
    | |- Appends _ (bind _ _) => apply Appends_bind; [|intros]
    end.

Lemma Appends_videoElements (video : JsVal) :
  Appends (fun _ => True) (videoElements video).
Proof. unfold videoElements. appends; exact I. Qed.

(** *** Steps that only append to the item node *)

Lemma sameFields_refl (it : SitemapItem) : sameFields it it.
Proof. unfold sameFields. repeat split. Qed.

Lemma sameFields_trans (a b c : SitemapItem) :
  sameFields a b -> sameFields b c -> sameFields a c.
Proof.
  unfold sameFields. intros H1 H2. decompose [and] H1. decompose [and] H2.
  repeat split; congruence.
Qed.

Lemma extends_refl (P : XMLNode -> Prop) (it : SitemapItem) : extends P it it.
Proof.
  split; [apply sameFields_refl|]. split; [reflexivity|]. split; [reflexivity|].
  exists []. split; [now rewrite app_nil_r|constructor].
Qed.

Lemma extends_trans (P : XMLNode -> Prop) (a b c : SitemapItem) :
  extends P a b -> extends P b c -> extends P a c.
Proof.
  intros (F1 & N1 & A1 & e1 & C1 & P1) (F2 & N2 & A2 & e2 & C2 & P2).
  split; [exact (sameFields_trans F1 F2)|].
  split; [congruence|]. split; [congruence|].
  exists (e1 ++ e2). split.
  - rewrite C2, C1. now rewrite app_assoc.
  - apply Forall_app. auto.
Qed.

Lemma Extends_ret {A : Type} (P : XMLNode -> Prop) (a : A) : Extends P (ret a).
Proof. intros it. apply extends_refl. Qed.

Lemma Extends_throw {A : Type} (P : XMLNode -> Prop) (e : Error) :
  Extends P (@throw _ A e).
Proof. intros it. apply extends_refl. Qed.

Lemma Extends_lift {A : Type} (P : XMLNode -> Prop) (r : Result A) :
  Extends P (lift r).
Proof. intros it. apply extends_refl. Qed.

Lemma Extends_bind {A B : Type} (P : XMLNode -> Prop) (m : Build SitemapItem A)
      (f : A -> Build SitemapItem B) :
  Extends P m -> (forall a, Extends P (f a)) -> Extends P (bind m f).
Proof.
  intros Hm Hf it. unfold bind. specialize (Hm it).
  destruct (m it) as [[a|e] it1]; simpl in Hm.
  - eapply extends_trans; [exact Hm|apply Hf].
  - exact Hm.
Qed.

Lemma Extends_state {B : Type} (P : XMLNode -> Prop)
      (f : SitemapItem -> Build SitemapItem B) :
  (forall it0, Extends P (f it0)) -> Extends P (bind state f).
Proof. intros H it. unfold bind, state. apply H. Qed.

Lemma Extends_set_img (P : XMLNode -> Prop) (v : JsVal) :
  Extends P (modify (set_img v)).
Proof.
  intros it. simpl. split; [unfold sameFields; simpl; repeat split|].
  split; [reflexivity|]. split; [reflexivity|].
  exists []. split; [now rewrite app_nil_r|constructor].
Qed.

Lemma Extends_set_video (P : XMLNode -> Prop) (v : JsVal) :
  Extends P (modify (set_video v)).
Proof.
  intros it. simpl. split; [unfold sameFields; simpl; repeat split|].
  split; [reflexivity|]. split; [reflexivity|].
  exists []. split; [now rewrite app_nil_r|constructor].
Qed.

Lemma Extends_onUrl {A : Type} (P : XMLNode -> Prop) (call : Build (list XMLNode) A) :
  Appends P call -> Extends P (onUrl call).
Proof.
  intros H it. rewrite onUrl_run. cbn [snd].
  destruct (H (children (url it))) as (extra & E & Pe). rewrite E.
  split; [unfold sameFields; simpl; repeat split|].
  split; [reflexivity|]. split; [reflexivity|].
  exists extra. split; [reflexivity|exact Pe].
Qed.

Lemma Extends_withChild {A : Type} (P : XMLNode -> Prop) (nm : string)
      (fill : Build (list XMLNode) A) :
  (forall a c, P (Element nm a c)) -> Extends P (withChild nm fill).
Proof. intros H. apply Extends_onUrl. apply Appends_child. exact H. Qed.

Lemma Extends_forEach (P : XMLNode -> Prop) (f : JsVal -> Build SitemapItem unit)
      (l : list JsVal) :
  (forall v, Extends P (f v)) -> Extends P (forEach f l).
Proof.
  intros H. induction l as [|x l IH]; simpl; [apply Extends_ret|].
  apply Extends_bind; auto.
Qed.

Lemma Extends_forEachOf (P : XMLNode -> Prop) (v : JsVal)
      (f : JsVal -> Build SitemapItem unit) :
  (forall x, Extends P (f x)) -> Extends P (forEachOf v f).
Proof.
  intros H. destruct v; simpl; try apply Extends_throw.
  apply Extends_forEach. exact H.
Qed.

Ltac extends_step :=
  lazymatch goal with
  | |- Extends _ (if ?b then _ else _) => destruct b
  | |- Extends _ (ret _) => apply Extends_ret
  | |- Extends _ (throw _) => apply Extends_throw
  | |- Extends _ (lift _) => apply Extends_lift
  | |- Extends _ (modify (set_img _)) => apply Extends_set_img
  | |- Extends _ (modify (set_video _)) => apply Extends_set_video
  | |- Extends _ (bind state _) => apply Extends_state; intros
  | |- Extends _ (bind _ _) => apply Extends_bind; [|intros]
  | |- Extends _ (forEachOf _ _) => apply Extends_forEachOf; intros
  | |- Extends _ (withChild _ _) => apply Extends_withChild; intros
  | |- Extends _ (onUrl _) => apply Extends_onUrl; appends
  | |- Extends _ (imageElement _) => unfold imageElement
  | |- Extends _ (linkElement _) => unfold linkElement
  | |- Extends _ (buildVideoElement _) => unfold buildVideoElement
  | |- Extends _ (buildNewsElement _) => unfold buildNewsElement
  end.

(** Every step of the loop leaves the fields of the item alone and only
    appends to the item node. *)
Lemma Extends_buildProp (p : string) : Extends (fun _ => True) (buildProp p).
Proof. unfold buildProp. repeat extends_step; exact I. Qed.

(** A step for another property than [t] appends no element called [t]
    when [t] is one of the four scalar fields: the elements of the other
    steps have names of their own. *)
Lemma Extends_buildProp_unnamed (t p : string) :
  In t ["loc"; "lastmod"; "changefreq"; "priority"] ->
  String.eqb p t = false ->
  Extends (fun n => named t n = false) (buildProp p).
Proof.
  intros Ht Hp. unfold buildProp.
  simpl in Ht. destruct Ht as [<-|[<-|[<-|[<-|[]]]]];
    (repeat extends_step; first [ reflexivity | exact Hp ]).
Qed.

Lemma Extends_loop (P : XMLNode -> Prop) (ps : list string) :
  (forall p, In p ps -> Extends P (buildProp p)) -> Extends P (loop ps).
Proof.
  induction ps as [|p ps IH]; intros H; simpl; [apply Extends_ret|].
  apply Extends_bind; [apply H; left; reflexivity|].
  intros _. apply IH. intros q Hq. apply H. right. exact Hq.
Qed.

(** *** The loop of [buildXML] *)

Lemma loop_app (ps1 ps2 : list string) (it : SitemapItem) :
  loop (ps1 ++ ps2) it = bind (loop ps1) (fun _ => loop ps2) it.
Proof.
  revert it. induction ps1 as [|p ps1 IH]; intros it; simpl.
  - reflexivity.
  - unfold bind. destruct (buildProp p it) as [[[]|e] it1].
    + rewrite IH. reflexivity.
    + reflexivity.
Qed.

Lemma loop_cons (p : string) (ps : list string) (it : SitemapItem) :
  loop (p :: ps) it = bind (buildProp p) (fun _ => loop ps) it.
Proof. reflexivity. Qed.


(** A loop that succeeds has succeeded at each of its steps. *)
Lemma loop_split_ok (ps1 ps2 : list string) (p : string) (it it3 : SitemapItem) :
  loop (ps1 ++ p :: ps2) it = (Ok tt, it3) ->
  exists it1 it2,
    loop ps1 it = (Ok tt, it1)
    /\ buildProp p it1 = (Ok tt, it2)
    /\ loop ps2 it2 = (Ok tt, it3).
Proof.
  rewrite loop_app. intros H.
  apply bind_ok_inv in H. destruct H as ([] & it1 & H1 & H).
  rewrite loop_cons in H.
  apply bind_ok_inv in H. destruct H as ([] & it2 & H2 & H3).
  exists it1, it2. auto.
Qed.

Lemma buildXML_run (it : SitemapItem) :
  buildXML it
  = (match fst (loop props (resetUrl it)) with
     | Ok _ => Ok (url (snd (loop props (resetUrl it))))
     | Throw e => Throw e
     end,
     snd (loop props (resetUrl it))).
Proof.
  unfold buildXML, bind, modify, state, ret.
  destruct (loop props (resetUrl it)) as [[[]|e] it1]; reflexivity.
Qed.

(** The node that [buildXML] returns is the item node of the state, and
    the loop has run to its end. *)
Lemma buildXML_ok (it it' : SitemapItem) (node : XMLElement) :
  buildXML it = (Ok node, it') ->
  loop props (resetUrl it) = (Ok tt, it') /\ node = url it'.
Proof.
  rewrite buildXML_run.
  destruct (loop props (resetUrl it)) as [[[]|e] it1]; cbn [fst snd];
    intros H; inversion H; auto.
Qed.

Lemma buildXML_of_loop (it it' : SitemapItem) :
  loop props (resetUrl it) = (Ok tt, it') -> buildXML it = (Ok (url it'), it').
Proof. intros H. rewrite buildXML_run, H. reflexivity. Qed.

Lemma resetUrl_sameFields (it : SitemapItem) : sameFields it (resetUrl it).
Proof. unfold sameFields; simpl; repeat split. Qed.

Lemma buildXML_sameFields (it : SitemapItem) : sameFields it (snd (buildXML it)).
Proof.
  rewrite buildXML_run. cbn [snd].
  eapply sameFields_trans; [apply resetUrl_sameFields|].
  assert (E : Extends (fun _ => True) (loop props)).
  { apply Extends_loop. intros p _. apply Extends_buildProp. }
  destruct (E (resetUrl it)) as [F _]. exact F.
Qed.

(** A step whose field is falsy does nothing, the priority step apart. *)
Lemma buildProp_absent (p : string) (it : SitemapItem) :
  String.eqb p "priority" = false ->
  truthy (this p it) = false ->
  buildProp p it = (Ok tt, it).
Proof.
  intros Hp Hv. unfold buildProp, bind, state. rewrite Hv, Hp. reflexivity.
Qed.

(** *** The priority text *)

Lemma toFixed1_unit_interval (q : Q) :
  (0 <= q)%Q -> (q <= 1)%Q ->
  (0 <= Qfloor (q * inject_Z 10 + (1 # 2)) <= 10)%Z
  /\ toFixed1 (Fin q) = nth (Z.to_nat (Qfloor (q * inject_Z 10 + (1 # 2)))) tenths "".
Proof.
  intros H0 H1.
  assert (Ha : (Qabs q == q)%Q) by (apply Qabs_pos; exact H0).
  assert (Ez : Qfloor (Qabs q * inject_Z 10 + (1 # 2))
               = Qfloor (q * inject_Z 10 + (1 # 2))).
  { apply Qfloor_comp. rewrite Ha. reflexivity. }
  remember (Qfloor (q * inject_Z 10 + (1 # 2))) as z eqn:Hzdef.
  assert (Hz : (0 <= z <= 10)%Z).
  { subst z. split.
    - change 0%Z with (Qfloor (1 # 2)). apply Qfloor_resp_le.
      unfold inject_Z. lra.
    - apply Z.le_trans with (Qfloor (inject_Z 10 + (1 # 2))); [|discriminate].
      apply Qfloor_resp_le. unfold inject_Z. lra. }
  split; [exact Hz|].
  unfold toFixed1.
  assert (E0 : Qle_bool 0 q = true) by (apply Qle_bool_iff; exact H0).
  rewrite E0.
  assert (Eb : Qle_bool (inject_Z (10 ^ 21)) (Qabs q) = false).
  { destruct (Qle_bool (inject_Z (10 ^ 21)) (Qabs q)) eqn:E; [|reflexivity].
    apply Qle_bool_iff in E. rewrite Ha in E. exfalso.
    assert (X : (inject_Z (10 ^ 21) <= 1)%Q) by (eapply Qle_trans; eassumption).
    revert X. change (10 ^ 21)%Z with 1000000000000000000000%Z.
    unfold Qle, inject_Z. cbn [Qnum Qden]. lia. }
  rewrite Eb, Ez. clear Hzdef Ez.
  assert (C : (z = 0 \/ z = 1 \/ z = 2 \/ z = 3 \/ z = 4 \/ z = 5 \/ z = 6
               \/ z = 7 \/ z = 8 \/ z = 9 \/ z = 10)%Z) by lia.
  destruct C as [C|[C|[C|[C|[C|[C|[C|[C|[C|[C|C]]]]]]]]]]; subst z; reflexivity.
Qed.

Lemma tenths_plain (n : nat) : (n <= 10)%nat -> plain (JStr (nth n tenths "")) = true.
Proof. do 11 (destruct n as [|n]; [reflexivity|]). lia. Qed.

(** A Number that passes the range test of the priority step is a finite
    one between 0 and 1. *)
Lemma in_unit_interval (n : JsNum) :
  num_ge n (Fin 0) && num_le n (Fin 1) = true ->
  exists q, n = Fin q /\ (0 <= q)%Q /\ (q <= 1)%Q.
Proof.
  destruct n as [| | |q]; try discriminate.
  unfold num_ge, num_le. intros H. apply andb_true_iff in H. destruct H as [H0 H1].
  exists q. split; [reflexivity|]. split; apply Qle_bool_iff; assumption.
Qed.

Lemma priority_text_plain (n : JsNum) :
  num_ge n (Fin 0) && num_le n (Fin 1) = true -> plain (JStr (toFixed1 n)) = true.
Proof.
  intros H. destruct (in_unit_interval n H) as (q & -> & H0 & H1).
  destruct (toFixed1_unit_interval H0 H1) as [Hz E]. rewrite E. apply tenths_plain. lia.
Qed.

(** *** The steps for the scalar fields *)

Lemma set_url_same (it : SitemapItem) : set_url (url it) it = it.
Proof. destruct it; reflexivity. Qed.

Lemma withNodes_nil (it : SitemapItem) : withNodes [] it = it.
Proof.
  unfold withNodes. rewrite app_nil_r.
  replace (set_children (children (url it)) (url it)) with (url it)
    by (destruct (url it); reflexivity).
  apply set_url_same.
Qed.

Lemma withNodes_app (l1 l2 : list XMLNode) (it : SitemapItem) :
  withNodes l2 (withNodes l1 it) = withNodes (l1 ++ l2) it.
Proof.
  unfold withNodes. cbn [url set_url children set_children].
  rewrite <- app_assoc. reflexivity.
Qed.

Lemma onUrl_element_ok (nm : string) (attrs : Props) (content : list XMLNode)
      (it it' : SitemapItem) :
  onUrl (element nm attrs content) it = (Ok tt, it') ->
  it' = withNodes [Element nm attrs content] it.
Proof.
  rewrite onUrl_run.
  destruct (element_run nm attrs content (children (url it))) as [R|(e & R & _)];
    rewrite R; cbn [fst snd]; intros H; inversion H; reflexivity.
Qed.

Lemma onUrl_elementWith_ok (nm : string) (inner : XMLNode) (it it' : SitemapItem) :
  onUrl (elementWith nm inner) it = (Ok tt, it') ->
  it' = withNodes [Element nm [] [inner]] it.
Proof.
  rewrite onUrl_run.
  destruct (elementWith_run nm inner (children (url it))) as [R|(e & R & _)];
    rewrite R; cbn [fst snd]; intros H; inversion H; reflexivity.
Qed.

Lemma onUrl_elementAtts_ok (nm : string) (attrs : Props) (it it' : SitemapItem) :
  onUrl (elementAtts nm attrs) it = (Ok tt, it') ->
  it' = withNodes [Element nm attrs []] it.
Proof.
  rewrite onUrl_run, elementAtts_run. cbn [fst snd].
  destruct (setAttributes attrs []) as [[[]|e] set] eqn:E; cbn [fst snd];
    intros H; inversion H.
  rewrite (setAttributes_ok _ _ E). reflexivity.
Qed.

(** The step for [priority], by cases as the code has them. *)
Lemma buildProp_priority (it : SitemapItem) :
  buildProp "priority" it
  = if js_ge (priority it) (Fin 0) && js_le (priority it) (Fin 1)
    then onUrl (element "priority" []
                  [Text (JStr (toFixed1 (parseFloat (priority it))))]) it
    else if truthy (priority it)
         then onUrl (element "priority" [] [Text (priority it)]) it
         else (Ok tt, it).
Proof.
  unfold buildProp, bind, state.
  cbn [String.eqb Ascii.eqb Bool.eqb andb this].
  rewrite !andb_false_r.
  destruct (js_ge (priority it) (Fin 0) && js_le (priority it) (Fin 1));
    [reflexivity|].
  destruct (truthy (priority it)); reflexivity.
Qed.

(** When the step for [priority] succeeds it has added the nodes of
    [priorityNodes], and nothing else has changed. *)
Lemma buildProp_priority_ok (it it' : SitemapItem) :
  buildProp "priority" it = (Ok tt, it') ->
  it' = withNodes (priorityNodes (priority it)) it.
Proof.
  rewrite buildProp_priority. unfold priorityNodes.
  destruct (js_ge (priority it) (Fin 0) && js_le (priority it) (Fin 1)).
  - apply onUrl_element_ok.
  - destruct (truthy (priority it)).
    + apply onUrl_element_ok.
    + intros H. inversion H. symmetry. apply withNodes_nil.
Qed.

(** The step for one of the three text fields, by cases. *)
Lemma buildProp_scalar (t : string) (it : SitemapItem) :
  In t ["loc"; "lastmod"; "changefreq"] ->
  buildProp t it
  = if truthy (this t it)
    then if String.eqb t "loc" && truthy (prop (conf it) "cdata")
         then onUrl (elementWith t (Raw (this t it))) it
         else onUrl (element t [] [Text (this t it)]) it
    else (Ok tt, it).
Proof.
  intros Ht. simpl in Ht. destruct Ht as [<-|[<-|[<-|[]]]];
    unfold buildProp, bind, state;
    cbn [String.eqb Ascii.eqb Bool.eqb andb this];
    rewrite ?andb_false_r;
    repeat match goal with |- context [truthy ?v] => destruct (truthy v) end;
    reflexivity.
Qed.

Lemma buildProp_scalar_ok (t : string) (it it' : SitemapItem) :
  In t ["loc"; "lastmod"; "changefreq"] ->
  buildProp t it = (Ok tt, it') ->
  it' = withNodes (scalarNodes t it) it.
Proof.
  intros Ht. rewrite (buildProp_scalar it Ht). unfold scalarNodes.
  destruct (truthy (this t it)).
  - destruct (String.eqb t "loc" && truthy (prop (conf it) "cdata")).
    + apply onUrl_elementWith_ok.
    + apply onUrl_element_ok.
  - intros H. inversion H. symmetry. apply withNodes_nil.
Qed.

(** The steps for the two links and the mobile marker, by cases. *)
Lemma buildProp_androidLink (it : SitemapItem) :
  buildProp "androidLink" it
  = if truthy (androidLink it)
    then onUrl (element "xhtml:link"
                  [("rel", JStr "alternate"); ("href", androidLink it)] []) it
    else (Ok tt, it).
Proof.
  unfold buildProp, bind, state.
  cbn [String.eqb Ascii.eqb Bool.eqb andb this].
  rewrite ?andb_false_r, ?andb_true_r.
  destruct (truthy (androidLink it)); reflexivity.
Qed.

Lemma buildProp_ampLink (it : SitemapItem) :
  buildProp "ampLink" it
  = if truthy (ampLink it)
    then onUrl (element "xhtml:link"
                  [("rel", JStr "amphtml"); ("href", ampLink it)] []) it
    else (Ok tt, it).
Proof.
  unfold buildProp, bind, state.
  cbn [String.eqb Ascii.eqb Bool.eqb andb this].
  rewrite ?andb_false_r, ?andb_true_r.
  destruct (truthy (ampLink it)); reflexivity.
Qed.

Lemma buildProp_mobile (it : SitemapItem) :
  buildProp "mobile" it
  = if truthy (mobile it)
    then onUrl (elementAtts "mobile:mobile"
                  (if String.eqb (typeof (mobile it)) "string"
                   then [("type", mobile it)] else [])) it
    else (Ok tt, it).
Proof.
  unfold buildProp, bind, state.
  cbn [String.eqb Ascii.eqb Bool.eqb andb this].
  rewrite ?andb_false_r, ?andb_true_r.
  destruct (truthy (mobile it)); reflexivity.
Qed.

(** *** Items whose scalar fields are plain *)

Lemma falsyOrPlain_truthy (v : JsVal) :
  falsyOrPlain v = true -> truthy v = true -> plain v = true.
Proof. unfold falsyOrPlain. intros H T. rewrite T in H. exact H. Qed.

Lemma plainScalars_inv (it : SitemapItem) :
  plainScalars it = true ->
  (forall t, In t ["loc"; "lastmod"; "changefreq"] -> falsyOrPlain (this t it) = true)
  /\ falsyOrPlain (androidLink it) = true
  /\ falsyOrPlain (ampLink it) = true
  /\ (String.eqb (typeof (mobile it)) "string" = true -> truthy (mobile it) = true ->
      plain (mobile it) = true)
  /\ (priority it = JUndefined \/ exists n, priority it = JNum n).
Proof.
  unfold plainScalars. cbn [forallb]. intros H.
  repeat (apply andb_true_iff in H; destruct H as [H ?]).
  repeat match goal with
         | X : _ && _ = true |- _ => apply andb_true_iff in X; destruct X
         end.
  split; [|split; [|split; [|split]]]; try assumption.
  - intros t Ht. simpl in Ht. destruct Ht as [<-|[<-|[<-|[]]]]; assumption.
  - intros E T. rewrite E in *. apply falsyOrPlain_truthy; assumption.
  - destruct (priority it); try discriminate; eauto.
Qed.

(** The step for a scalar property of such an item succeeds and adds the
    nodes of [stepNodes]. *)
Lemma buildProp_plain (p : string) (s : SitemapItem) :
  plainScalars s = true ->
  In p ["loc"; "lastmod"; "changefreq"; "priority"; "androidLink"; "mobile"; "ampLink"] ->
  buildProp p s = (Ok tt, withNodes (stepNodes p s) s).
Proof.
  intros Hs Hin.
  destruct (plainScalars_inv s Hs) as (Ht & Ha & Hm & Hmo & Hp).
  assert (T : forall t, In t ["loc"; "lastmod"; "changefreq"] ->
                buildProp t s = (Ok tt, withNodes (scalarNodes t s) s)).
  { intros t Hin'. rewrite (buildProp_scalar s Hin'). unfold scalarNodes.
    specialize (Ht t Hin').
    destruct (truthy (this t s)) eqn:Tv; [|rewrite withNodes_nil; reflexivity].
    pose proof (falsyOrPlain_truthy _ Ht Tv) as Pv.
    destruct (String.eqb t "loc" && truthy (prop (conf s) "cdata")).
    - apply onUrl_emits. apply elementWith_plain. simpl. rewrite Pv. reflexivity.
    - apply onUrl_emits. apply element_plain; [reflexivity|].
      simpl. rewrite Pv. reflexivity. }
  simpl in Hin. destruct Hin as [<-|[<-|[<-|[<-|[<-|[<-|[<-|[]]]]]]]].
  - apply T. simpl. tauto.
  - apply T. simpl. tauto.
  - apply T. simpl. tauto.
  - rewrite buildProp_priority. unfold stepNodes. cbn [String.eqb Ascii.eqb Bool.eqb].
    unfold priorityNodes.
    destruct Hp as [Hp|[n Hp]]; rewrite Hp.
    + change (js_ge JUndefined (Fin 0) && js_le JUndefined (Fin 1)) with false.
      cbn [truthy]. rewrite withNodes_nil. reflexivity.
    + unfold js_ge, js_le. cbn [ToNumber parseFloat].
      destruct (num_ge n (Fin 0) && num_le n (Fin 1)) eqn:R.
      * apply onUrl_emits. apply element_plain; [reflexivity|].
        simpl. rewrite (priority_text_plain n R). reflexivity.
      * destruct (truthy (JNum n)) eqn:Tn; [|rewrite withNodes_nil; reflexivity].
        apply onUrl_emits. apply element_plain; [reflexivity|].
        unfold plainContent, plain. cbn [forallb]. rewrite Tn. reflexivity.
  - rewrite buildProp_androidLink. unfold stepNodes, androidNodes.
    cbn [String.eqb Ascii.eqb Bool.eqb].
    destruct (truthy (androidLink s)) eqn:Tv; [|rewrite withNodes_nil; reflexivity].
    apply onUrl_emits. apply element_plain; [|reflexivity].
    simpl. rewrite (falsyOrPlain_truthy _ Ha Tv). reflexivity.
  - rewrite buildProp_mobile. unfold stepNodes, mobileNodes.
    cbn [String.eqb Ascii.eqb Bool.eqb].
    destruct (truthy (mobile s)) eqn:Tv; [|rewrite withNodes_nil; reflexivity].
    apply onUrl_emits. apply elementAtts_plain.
    destruct (String.eqb (typeof (mobile s)) "string") eqn:E; [|reflexivity].
    simpl. rewrite (Hmo eq_refl eq_refl). reflexivity.
  - rewrite buildProp_ampLink. unfold stepNodes, ampNodes.
    cbn [String.eqb Ascii.eqb Bool.eqb].
    destruct (truthy (ampLink s)) eqn:Tv; [|rewrite withNodes_nil; reflexivity].
    apply onUrl_emits. apply element_plain; [|reflexivity].
    simpl. rewrite (falsyOrPlain_truthy _ Hm Tv). reflexivity.
Qed.

(** A run of steps each of which is a scalar step or finds its field
    falsy succeeds on such an item and adds the nodes of its steps. *)
Lemma loop_plain (ps : list string) (s : SitemapItem) :
  plainScalars s = true ->
  (forall p, In p ps ->
     In p ["loc"; "lastmod"; "changefreq"; "priority"; "androidLink"; "mobile"; "ampLink"]
     \/ (In p ["img"; "video"; "links"; "expires"; "news"]
         /\ truthy (this p s) = false)) ->
  loop ps s = (Ok tt, withNodes (flat_map (fun p => stepNodes p s) ps) s).
Proof.
  revert s. induction ps as [|p ps IH]; intros s Hs H.
  - cbn [flat_map loop]. rewrite withNodes_nil. reflexivity.
  - assert (Hp : buildProp p s = (Ok tt, withNodes (stepNodes p s) s)).
    { destruct (H p (or_introl eq_refl)) as [Hin|[Hi Hv]].
      - exact (buildProp_plain s Hs Hin).
      - assert (Hn : String.eqb p "priority" = false).
        { simpl in Hi. destruct Hi as [<-|[<-|[<-|[<-|[<-|[]]]]]]; reflexivity. }
        rewrite (@buildProp_absent p s Hn Hv).
        assert (E : stepNodes p s = []).
        { simpl in Hi. destruct Hi as [<-|[<-|[<-|[<-|[<-|[]]]]]]; reflexivity. }
        rewrite E, withNodes_nil. reflexivity. }
    rewrite loop_cons, (bind_ok _ _ _ Hp).
    rewrite (IH (withNodes (stepNodes p s) s)).
    + rewrite withNodes_app. reflexivity.
    + exact Hs.
    + intros q Hq. exact (H q (or_intror Hq)).
Qed.

Lemma plainItem_inv (it : SitemapItem) :
  plainItem it = true ->
  plainScalars it = true
  /\ forall p, In p ["img"; "video"; "links"; "expires"; "news"] ->
       truthy (this p it) = false.
Proof.
  unfold plainItem. cbn [forallb]. intros H.
  repeat (apply andb_true_iff in H; destruct H as [H ?]).
  repeat match goal with
         | X : _ && _ = true |- _ => apply andb_true_iff in X; destruct X
         | X : negb _ = true |- _ => apply negb_true_iff in X
         end.
  split; [assumption|].
  intros p Hp. simpl in Hp.
  destruct Hp as [<-|[<-|[<-|[<-|[<-|[]]]]]]; assumption.
Qed.

(** An item that has only plain scalar fields builds, and the node holds
    the nodes of its seven steps in their order. *)
Lemma buildXML_plain (it : SitemapItem) :
  plainItem it = true ->
  exists node it',
    buildXML it = (Ok node, it')
    /\ name node = name (url it) /\ attributes node = []
    /\ children node
       = scalarNodes "loc" it ++ scalarNodes "lastmod" it
         ++ scalarNodes "changefreq" it ++ priorityNodes (priority it)
         ++ androidNodes it ++ mobileNodes it ++ ampNodes it.
Proof.
  intros Hi. destruct (plainItem_inv it Hi) as [Hs Habs].
  assert (L : loop props (resetUrl it)
              = (Ok tt, withNodes (flat_map (fun p => stepNodes p (resetUrl it)) props)
                          (resetUrl it))).
  { apply loop_plain; [exact Hs|].
    intros p Hp. unfold props in Hp. simpl in Hp.
    repeat (destruct Hp as [<-|Hp];
            [first [ left; simpl; tauto
                   | right; split; [simpl; tauto|apply Habs; simpl; tauto] ]|]).
    destruct Hp. }
  eexists. eexists. split; [exact (buildXML_of_loop it L)|].
  split; [reflexivity|]. split; [reflexivity|].
  cbn [children url withNodes resetUrl set_url set_children set_attributes app].
  unfold props. cbn [flat_map]. unfold stepNodes.
  cbn [String.eqb Ascii.eqb Bool.eqb orb].
  rewrite !app_nil_r. cbn [app]. reflexivity.
Qed.

(** *** The priority element *)

Lemma filter_unnamed (t : string) (l : list XMLNode) :
  Forall (fun n => named t n = false) l -> filter (named t) l = [].
Proof.
  induction 1 as [|n l Hn _ IH]; simpl; [reflexivity|]. rewrite Hn. exact IH.
Qed.

Lemma filter_priorityNodes (v : JsVal) :
  filter (named "priority") (priorityNodes v) = priorityNodes v.
Proof.
  unfold priorityNodes. destruct (_ && _); [reflexivity|].
  destruct (truthy v); reflexivity.
Qed.

Lemma filter_scalarNodes (t : string) (s : SitemapItem) :
  filter (named t) (scalarNodes t s) = scalarNodes t s.
Proof.
  unfold scalarNodes. destruct (truthy (this t s)); [|reflexivity].
  cbn [filter named]. rewrite String.eqb_refl. reflexivity.
Qed.

(** The children of a node that [buildXML] returns: around the nodes of
    the step for [t], one of the four scalar fields, there are only
    nodes of other names; and there are none in front when [t] is the
    first property. *)
Lemma built_children_split (t : string) (pre post : list string)
      (it it' : SitemapItem) (node : XMLElement) (nodes : list XMLNode) :
  In t ["loc"; "lastmod"; "changefreq"; "priority"] ->
  props = pre ++ t :: post ->
  (forall p, In p pre \/ In p post -> String.eqb p t = false) ->
  (forall s s', sameFields it s -> buildProp t s = (Ok tt, s') ->
                s' = withNodes nodes s) ->
  buildXML it = (Ok node, it') ->
  exists before after,
    children node = before ++ nodes ++ after
    /\ Forall (fun n => named t n = false) before
    /\ Forall (fun n => named t n = false) after
    /\ (pre = [] -> before = []).
Proof.
  intros Ht Hprops Hother Hstep Hb.
  destruct (@buildXML_ok it it' node Hb) as [L ->]. rewrite Hprops in L.
  destruct (@loop_split_ok pre post t (resetUrl it) it' L) as (it1 & it2 & L1 & L2 & L3).
  assert (E1 : Extends (fun n => named t n = false) (loop pre)).
  { apply Extends_loop. intros p Hp. apply Extends_buildProp_unnamed; auto. }
  assert (E3 : Extends (fun n => named t n = false) (loop post)).
  { apply Extends_loop. intros p Hp. apply Extends_buildProp_unnamed; auto. }
  specialize (E1 (resetUrl it)). rewrite L1 in E1. cbn [snd] in E1.
  destruct E1 as (F1 & _ & _ & e1 & C1 & P1).
  specialize (E3 it2). rewrite L3 in E3. cbn [snd] in E3.
  destruct E3 as (_ & _ & _ & e3 & C3 & P3).
  assert (F : sameFields it it1).
  { eapply sameFields_trans; [apply resetUrl_sameFields|exact F1]. }
  rewrite (Hstep it1 it2 F L2) in C3. cbn [children url withNodes set_url set_children] in C3.
  exists e1, e3. rewrite C3, C1.
  cbn [children url resetUrl set_url set_children set_attributes app].
  rewrite <- app_assoc. split; [reflexivity|]. split; [exact P1|]. split; [exact P3|].
  intros ->. cbn in L1. inversion L1. subst it1.
  cbn in C1. destruct e1; [reflexivity|discriminate].
Qed.

(** The elements called [priority] in a node that [buildXML] returns are
    exactly those of the priority step. *)
Lemma buildXML_priority_children (it it' : SitemapItem) (node : XMLElement) :
  buildXML it = (Ok node, it') ->
  filter (named "priority") (children node) = priorityNodes (priority it).
Proof.
  intros Hb.
  destruct (@built_children_split "priority" ["loc"; "lastmod"; "changefreq"]
              ["img"; "video"; "links"; "expires"; "androidLink"; "mobile"; "news";
               "ampLink"] it it' node (priorityNodes (priority it)))
    as (before & after & Hc & Pb & Pa & _).
  - simpl. tauto.
  - reflexivity.
  - intros p [Hp|Hp]; simpl in Hp;
      repeat (destruct Hp as [<-|Hp]; [reflexivity|]); destruct Hp.
  - intros s s' F Hs. rewrite (@buildProp_priority_ok s s' Hs).
    destruct F as (_ & _ & _ & _ & F & _). rewrite F. reflexivity.
  - exact Hb.
  - rewrite Hc, !filter_app, (@filter_unnamed "priority" before Pb),
      (@filter_unnamed "priority" after Pa), filter_priorityNodes, app_nil_r.
    reflexivity.
Qed.

(** C10.  A configuration whose priority is exactly 0, with [safe]
    unset, a url, a timestamp the host can supply and a change frequency
    that is absent or listed: the value is falsy, so the guard in front
    of the priority domain check is false and construction succeeds;
    every node that [buildXML] returns for the item holds exactly one
    element called [priority], with the text [0.0]; and [buildXML] does
    return a node when the item has only plain scalar fields. *)
Theorem priority_zero_is_emitted (options : Props) (lm : JsVal) :
  truthy (prop options "url") = true ->
  lastmodOf options = Ok lm ->
  truthy (prop options "changefreq") = false
  \/ notInCHANGEFREQ (prop options "changefreq") = false ->
  truthy (prop options "safe") = false ->
  prop options "priority" = JNum (Fin 0) ->
  truthy (prop options "priority") = false
  /\ priorityChecked options = false
  /\ exists it,
      SitemapItem_constructor options = Ok it
      /\ (forall node it',
             buildXML it = (Ok node, it') ->
             filter (named "priority") (children node)
             = [Element "priority" [] [Text (JStr "0.0")]])
      /\ (plainItem it = true -> exists node it', buildXML it = (Ok node, it')).
Proof.
  intros Hu Hl Hc Hs Hp.
  assert (Hchk : priorityChecked options = false).
  { unfold priorityChecked. rewrite Hp. simpl. apply andb_false_r. }
  split; [rewrite Hp; reflexivity|]. split; [exact Hchk|].
  assert (Hc' : truthy (prop options "safe") || negb (truthy (prop options "changefreq"))
                || negb (notInCHANGEFREQ (prop options "changefreq")) = true).
  { rewrite Hs. destruct Hc as [Hc|Hc]; rewrite Hc; simpl; auto using orb_true_r. }
  assert (Hp' : priorityChecked options && priorityInvalid (prop options "priority") = false).
  { rewrite Hchk. reflexivity. }
  destruct (@constructor_ok options lm Hu Hl Hc' Hp') as (it & Hk & _ & _ & Hpr & _).
  exists it. split; [exact Hk|]. split.
  - intros node it' Hb. rewrite (@buildXML_priority_children it it' node Hb), Hpr, Hp.
    reflexivity.
  - intros Hi. destruct (@buildXML_plain it Hi) as (node & it' & Hb & _).
    exists node, it'. exact Hb.
Qed.

Lemma priorityNodes_outside (n : JsNum) :
  outside01 n -> priorityNodes (JNum n) = [Element "priority" [] [Text (JNum n)]].
Proof.
  intros H. unfold priorityNodes, js_ge, js_le. cbn [ToNumber truthy].
  destruct n as [| | |q]; simpl in H; try contradiction; try reflexivity.
  unfold num_ge, num_le.
  assert (R : Qle_bool 0 q && Qle_bool q 1 = false).
  { destruct (Qle_bool 0 q) eqn:E0; [|reflexivity].
    destruct (Qle_bool q 1) eqn:E1; [|reflexivity].
    apply Qle_bool_iff in E0. apply Qle_bool_iff in E1. exfalso.
    destruct H as [H|H]; lra. }
  rewrite R. cbn [num_truthy].
  assert (Z : Qeq_bool q 0 = false).
  { destruct (Qeq_bool q 0) eqn:E; [|reflexivity].
    apply Qeq_bool_iff in E. exfalso.
    destruct (Qle_bool 0 q) eqn:E0; destruct (Qle_bool q 1) eqn:E1;
      try discriminate;
      destruct H as [H|H]; rewrite E in H; revert H; unfold Qlt; simpl; lia. }
  rewrite Z. reflexivity.
Qed.

(** A number outside the interval from 0 to 1 fails the domain check of
    the constructor. *)
Lemma priorityInvalid_outside (n : JsNum) :
  outside01 n -> truthy (JNum n) = true /\ priorityInvalid (JNum n) = true.
Proof.
  intros H.
  pose proof (priorityNodes_outside n H) as N.
  unfold priorityNodes in N. unfold priorityInvalid.
  destruct (js_ge (JNum n) (Fin 0) && js_le (JNum n) (Fin 1)); [discriminate|].
  destruct (truthy (JNum n)); [|discriminate]. auto.
Qed.

(** C1, as the code has it.  For a configuration with a url, a
    timestamp the host can supply and a change frequency that passes.
    With [safe] unset: a number outside the interval from 0 to 1, and a
    truthy value that is not a number, make construction fail with the
    invalid-priority error, while a falsy priority (NaN, 0, the empty
    string, [false], [null], or none) is accepted without the check.
    With [safe] set: construction accepts any priority; for a numeric
    priority, every node that [buildXML] returns for the item holds the
    priority elements of [priorityNodes], which for a number outside the
    interval is one element that carries the number as it is, without
    the one-decimal formatting, and for NaN is none; and [buildXML] does
    return a node when the item has only plain scalar fields. *)
Theorem priority_validation (options : Props) (lm : JsVal) :
  truthy (prop options "url") = true ->
  lastmodOf options = Ok lm ->
  truthy (prop options "safe") || negb (truthy (prop options "changefreq"))
  || negb (notInCHANGEFREQ (prop options "changefreq")) = true ->
  (truthy (prop options "safe") = false ->
   (forall n, prop options "priority" = JNum n -> outside01 n ->
      SitemapItem_constructor options = Throw PriorityInvalidError)
   /\ (truthy (prop options "priority") = true ->
       typeof (prop options "priority") <> "number" ->
       SitemapItem_constructor options = Throw PriorityInvalidError)
   /\ (truthy (prop options "priority") = false ->
       exists it, SitemapItem_constructor options = Ok it
                  /\ priority it = prop options "priority"))
  /\ (truthy (prop options "safe") = true ->
      exists it,
        SitemapItem_constructor options = Ok it
        /\ priority it = prop options "priority"
        /\ (forall node it',
               buildXML it = (Ok node, it') ->
               (forall n, prop options "priority" = JNum n ->
                  filter (named "priority") (children node) = priorityNodes (JNum n))
               /\ (forall n, prop options "priority" = JNum n -> outside01 n ->
                     filter (named "priority") (children node)
                     = [Element "priority" [] [Text (JNum n)]])
               /\ (prop options "priority" = JNum NaN ->
                   filter (named "priority") (children node) = []))
        /\ (plainItem it = true -> exists node it', buildXML it = (Ok node, it'))).
Proof.
  intros Hu Hl Hc.
  assert (Hcf : negb (truthy (prop options "safe")) && truthy (prop options "changefreq")
                && notInCHANGEFREQ (prop options "changefreq") = false).
  { destruct (truthy (prop options "safe")), (truthy (prop options "changefreq")),
      (notInCHANGEFREQ (prop options "changefreq")); simpl in *; congruence. }
  assert (Hfail : truthy (prop options "safe") = false ->
                  truthy (prop options "priority") = true ->
                  priorityInvalid (prop options "priority") = true ->
                  SitemapItem_constructor options = Throw PriorityInvalidError).
  { intros Hs Hp Hi. unfold SitemapItem_constructor. rewrite Hu, Hl. simpl.
    rewrite Hcf. unfold priorityChecked. rewrite Hs, Hp, Hi. reflexivity. }
  split.
  - intros Hs. split; [|split].
    + intros n Hn Ho. destruct (priorityInvalid_outside n Ho) as [T I].
      apply Hfail; [exact Hs|rewrite Hn; exact T|rewrite Hn; exact I].
    + intros Hp Hty. apply Hfail; [exact Hs|exact Hp|].
      unfold priorityInvalid. apply orb_true_iff. right.
      apply negb_true_iff. apply String.eqb_neq. exact Hty.
    + intros Hp.
      assert (Hp' : priorityChecked options && priorityInvalid (prop options "priority")
                    = false).
      { unfold priorityChecked. rewrite Hp, andb_false_r. reflexivity. }
      destruct (@constructor_ok options lm Hu Hl Hc Hp') as (it & Hk & _ & _ & Hpr & _).
      exists it. auto.
  - intros Hs.
    assert (Hp' : priorityChecked options && priorityInvalid (prop options "priority") = false).
    { unfold priorityChecked. rewrite Hs. reflexivity. }
    destruct (@constructor_ok options lm Hu Hl Hc Hp') as (it & Hk & _ & _ & Hpr & _).
    exists it. split; [exact Hk|]. split; [exact Hpr|]. split.
    + intros node it' Hb.
      rewrite (@buildXML_priority_children it it' node Hb), Hpr.
      split; [intros n Hn; rewrite Hn; reflexivity|]. split.
      * intros n Hn Ho. rewrite Hn. apply priorityNodes_outside. exact Ho.
      * intros Hn. rewrite Hn. reflexivity.
    + intros Hi. destruct (@buildXML_plain it Hi) as (node & it' & Hb & _).
      exists node, it'. exact Hb.
Qed.

(** C7.  The configuration [{url: "https://example.com/a", changefreq:
    "daily", priority: 0.7}] is accepted and builds an item node whose
    children are [loc], [changefreq] and [priority], in that order, with
    the texts [https://example.com/a], [daily] and [0.7]; this for the
    double that the literal [0.7] denotes as well as for the rational
    7/10. *)
Theorem end_to_end_example :
  let options q :=
    [ ("url", JStr "https://example.com/a"); ("changefreq", JStr "daily");
      ("priority", JNum (Fin q)) ] in
  let expected :=
    {| name := "url"; attributes := [];
       children :=
         [ Element "loc" [] [Text (JStr "https://example.com/a")];
           Element "changefreq" [] [Text (JStr "daily")];
           Element "priority" [] [Text (JStr "0.7")] ] |} in
  (exists it, SitemapItem_constructor (options double_0_7) = Ok it
              /\ fst (buildXML it) = Ok expected)
  /\ (exists it, SitemapItem_constructor (options (7 # 10)) = Ok it
                 /\ fst (buildXML it) = Ok expected).
Proof.
  split; (eexists; split; [reflexivity|]); vm_compute; reflexivity.
Qed.

(** *** Running the video builder *)

Lemma bind_lift_Ok {S A B : Type} (a : A) (f : A -> Build S B) :
  bind (lift (Ok a)) f = f a.
Proof. reflexivity. Qed.

Lemma bind_lift_Throw {S A B : Type} (e : Error) (f : A -> Build S B) :
  bind (lift (Throw e)) f = throw e.
Proof. reflexivity. Qed.

Lemma bind_ret {S A B : Type} (a : A) (f : A -> Build S B) : bind (ret a) f = f a.
Proof. reflexivity. Qed.

Lemma bind_throw_fun {S A B : Type} (e : Error) (f : A -> Build S B) :
  bind (throw e) f = throw e.
Proof. reflexivity. Qed.

Lemma get_ok_any (v : JsVal) (k k' : string) (x : JsVal) :
  get v k = Ok x -> exists y, get v k' = Ok y.
Proof.
  intros H. destruct (get v k') as [y|e] eqn:E; [eauto|].
  destruct v; simpl in H, E; discriminate || (exfalso; revert E;
    repeat match goal with |- context [if ?b then _ else _] => destruct b
                      | |- context [match ?b with _ => _ end] => destruct b end;
    discriminate).
Qed.

Lemma get_throw_nullish (v : JsVal) (k : string) (e : Error) :
  get v k = Throw e -> v = JUndefined \/ v = JNull.
Proof.
  destruct v; simpl; auto; try discriminate.
  - destruct (String.eqb k "length"); [discriminate|].
    destruct (index_of_key k (String.length s)); discriminate.
  - destruct (String.eqb k "length"); [discriminate|].
    destruct (index_of_key k (Datatypes.length items)); discriminate.
Qed.

Lemma field_get (v : JsVal) (k : string) :
  v <> JUndefined -> v <> JNull -> get v k = Ok (field v k).
Proof.
  intros Hu Hn. unfold field. destruct (get v k) as [x|e] eqn:E; [reflexivity|].
  destruct (get_throw_nullish _ _ E); congruence.
Qed.

(** Where one property can be read, every property can, and [field]
    gives what is read. *)
Lemma get_field (v : JsVal) (k0 : string) (x : JsVal) (k : string) :
  get v k0 = Ok x -> get v k = Ok (field v k).
Proof.
  intros H. destruct (@get_ok_any v k0 k x H) as [y Hy].
  unfold field. rewrite Hy. reflexivity.
Qed.

Lemma get_object (v : JsVal) (k : string) :
  typeof v = "object" -> v <> JNull -> exists x, get v k = Ok x.
Proof.
  intros Ht Hn. destruct (get v k) as [x|e] eqn:E; [eauto|].
  destruct v; try discriminate; try contradiction.
  - simpl in E. destruct (String.eqb k "length"); [discriminate|].
    destruct (index_of_key k (Datatypes.length items)); discriminate.
Qed.

Lemma attrBuilder_autoplay (video x : JsVal) :
  get video "player_loc:autoplay" = Ok x ->
  exists attrs, attrBuilder video (OneKey "player_loc:autoplay") = Ok attrs.
Proof.
  intros H. unfold attrBuilder. cbn [reduce]. unfold attrStep. rewrite H.
  cbn [bindR]. destruct (is_undefined x); cbn [negb]; eexists; reflexivity.
Qed.

Lemma bind_whenPresent_true {S B : Type} (o : JsVal) (k : string)
      (emit : JsVal -> Build S unit) (f : unit -> Build S B) (v : JsVal) (s : S) :
  get o k = Ok v -> truthy v = true ->
  bind (whenPresent o k emit) f s = bind (emit v) f s.
Proof. intros Hg Hv. unfold whenPresent, bind at 1 2, lift. rewrite Hg, Hv. reflexivity. Qed.

Lemma bind_whenPresent_false {S B : Type} (o : JsVal) (k : string)
      (emit : JsVal -> Build S unit) (f : unit -> Build S B) (v : JsVal) (s : S) :
  get o k = Ok v -> truthy v = false ->
  bind (whenPresent o k emit) f s = f tt s.
Proof. intros Hg Hv. unfold whenPresent, bind, lift. rewrite Hg, Hv. reflexivity. Qed.

Ltac exec :=
  repeat (cbv beta;
          first
            [ rewrite bind_lift_Ok | rewrite bind_ret
            | rewrite bind_lift_Throw | rewrite bind_throw_fun
            | match goal with
              | H : get ?o ?k = Ok ?v, T : truthy ?v = true
                |- context [bind (whenPresent ?o ?k ?emit) ?f ?s] =>
                  rewrite (@bind_whenPresent_true _ _ o k emit f v s H T)
              | H : get ?o ?k = Ok ?v, T : truthy ?v = false
                |- context [bind (whenPresent ?o ?k ?emit) ?f ?s] =>
                  rewrite (@bind_whenPresent_false _ _ o k emit f v s H T)
              | H : get ?o ?k = _ |- context [lift (get ?o ?k)] => rewrite H
              | H : truthy ?v = _ |- context [truthy ?v] => rewrite H
              | H : js_gt ?v ?n = _ |- context [js_gt ?v ?n] => rewrite H
              | H : typeof ?v = _ |- context [typeof ?v] => rewrite H
              | H : attrBuilder ?v ?k = _ |- context [attrBuilder ?v ?k] => rewrite H
              | H : safeDuration ?v = _ |- context [safeDuration ?v] => rewrite H
              end
            | progress cbn [negb String.eqb Ascii.eqb Bool.eqb] ]).

(** [step E]: the computation at the head of the goal emits as [E] says. *)
Ltac step E := rewrite (@Emits_run _ _ _ _ _ E); cbv beta.

(** *** Videos that the builder takes *)

Lemma videoTakes_inv (video : JsVal) :
  videoTakes video = true ->
  (forall k, In k videoTexts -> truthy (field video k) = true ->
             plain (field video k) = true)
  /\ plainTags (field video "tag") = true
  /\ (forall k, In k videoAttributes ->
                is_undefined (field video k) || plain (field video k) = true)
  /\ (truthy (field video "gallery_loc") = true ->
      plain (field video "gallery_loc:title") = true).
Proof.
  unfold videoTakes. intros H.
  apply andb_true_iff in H. destruct H as [H Hg].
  apply andb_true_iff in H. destruct H as [H Ha].
  apply andb_true_iff in H. destruct H as [Ht Htag].
  split; [|split; [|split]].
  - intros k Hk T. rewrite forallb_forall in Ht.
    exact (falsyOrPlain_truthy _ (Ht k Hk) T).
  - exact Htag.
  - intros k Hk. rewrite forallb_forall in Ha. exact (Ha k Hk).
  - intros T. rewrite T in Hg. exact Hg.
Qed.

Lemma assign_plain (k : string) (v : JsVal) (o : Props) :
  plain v = true -> plainAttributes o = true -> plainAttributes (assign k v o) = true.
Proof.
  intros Hv. induction o as [|[k' v'] o IH]; simpl.
  - intros _. rewrite Hv. reflexivity.
  - intros H. apply andb_true_iff in H. destruct H as [H1 H2].
    destruct (String.eqb k k'); simpl.
    + rewrite Hv. exact H2.
    + rewrite H1. exact (IH H2).
Qed.

(** The attribute extractor hands on values of the source: when those
    under its keys are absent or plain, so is the mapping it returns. *)
Lemma reduce_plain (conf : JsVal) (keys : list string) :
  (forall k, In k keys -> is_undefined (field conf k) || plain (field conf k) = true) ->
  forall attrs attrs',
    plainAttributes attrs = true ->
    reduce conf keys attrs = Ok attrs' -> plainAttributes attrs' = true.
Proof.
  induction keys as [|key keys IH]; intros Hk attrs attrs' Ha; cbn [reduce].
  - intros H. inversion H. subst. exact Ha.
  - unfold attrStep at 1. pose proof (Hk key (or_introl eq_refl)) as Hv.
    unfold field in Hv.
    destruct (get conf key) as [v|e]; cbn [bindR]; [|discriminate].
    assert (Hrest : forall a, plainAttributes a = true ->
                      reduce conf keys a = Ok attrs' -> plainAttributes attrs' = true).
    { intros a Pa. apply IH; [|exact Pa]. intros k Hin. apply Hk. right. exact Hin. }
    destruct (is_undefined v) eqn:U; cbn [negb].
    + cbn [bindR]. apply Hrest. exact Ha.
    + cbn [orb] in Hv.
      assert (Pset : plainAttributes (set_prop (nth 1 (split_colon key) "") v attrs) = true).
      { unfold set_prop. destruct (String.eqb _ "__proto__"); [exact Ha|].
        apply assign_plain; assumption. }
      destruct (negb (Nat.eqb (List.length (split_colon key)) 2)); [discriminate|].
      destruct (lookup key validators) as [validator|].
      * destruct (negb (test validator (ToString v))); [discriminate|].
        cbn [bindR]. apply Hrest. exact Pset.
      * cbn [bindR]. apply Hrest. exact Pset.
Qed.

Lemma attrBuilder_plain (video : JsVal) (keys : Keys) (attrs : Props) :
  videoTakes video = true ->
  (forall k, In k (match keys with OneKey key => [key] | ManyKeys ks => ks end) ->
             In k videoAttributes) ->
  attrBuilder video keys = Ok attrs -> plainAttributes attrs = true.
Proof.
  intros Ht Hk. destruct (videoTakes_inv video Ht) as (_ & _ & Ha & _).
  unfold attrBuilder. apply reduce_plain; [|reflexivity].
  intros k Hin. apply Ha. apply Hk. exact Hin.
Qed.

(** The step for the tags. *)
Lemma Emits_tag (video : JsVal) :
  get video "tag" = Ok (field video "tag") ->
  plainTags (field video "tag") = true ->
  Emits (whenPresent video "tag" (fun tag =>
           match tag with
           | JArr tags => forEach (fun tag => element "video:tag" [] [Text tag]) tags
           | _ => element "video:tag" [] [Text tag]
           end))
        (tagNodes (field video "tag")).
Proof.
  intros G P. unfold tagNodes. eapply Emits_whenPresent; [exact G|]. intros T.
  assert (One : forall v, plain v = true -> Emits (element "video:tag" [] [Text v])
                                              [Element "video:tag" [] [Text v]]).
  { intros v Pv. apply element_plain; [reflexivity|]. simpl. rewrite Pv. reflexivity. }
  destruct (field video "tag") as [| | b | n | s | tags | o | nm];
    try (apply One; exact (falsyOrPlain_truthy _ P T)).
  apply Emits_forEach with (node := fun t => Element "video:tag" [] [Text t]).
  intros x Hx. apply One. simpl in P. rewrite forallb_forall in P. exact (P x Hx).
Qed.

(** The step for a field that becomes the text of an element. *)
Lemma Emits_text (video : JsVal) (k nm : string) :
  get video k = Ok (field video k) ->
  (truthy (field video k) = true -> plain (field video k) = true) ->
  Emits (whenPresent video k (fun v => element nm [] [Text v]))
        (whenTruthy (field video k) [Element nm [] [Text (field video k)]]).
Proof.
  intros G P. eapply Emits_whenPresent; [exact G|]. intros T.
  apply element_plain; [reflexivity|]. simpl. rewrite (P T). reflexivity.
Qed.

(** The step for a field that becomes the text of an element whose
    attributes the attribute extractor supplies. *)
Lemma Emits_attributed (video : JsVal) (k nm : string) (keys : Keys) (attrs : Props) :
  get video k = Ok (field video k) ->
  (truthy (field video k) = true -> plain (field video k) = true) ->
  attrBuilder video keys = Ok attrs -> plainAttributes attrs = true ->
  Emits (whenPresent video k (fun v =>
           bind (lift (attrBuilder video keys))
                (fun attrs => element nm attrs [Text v])))
        (whenTruthy (field video k) [Element nm attrs [Text (field video k)]]).
Proof.
  intros G P A Pa. eapply Emits_whenPresent; [exact G|]. intros T.
  rewrite A, bind_lift_Ok.
  apply element_plain; [exact Pa|]. simpl. rewrite (P T). reflexivity.
Qed.

(** What [buildVideoElement] does with a video that passes the checks at
    its head and that the builder takes: it puts the thumbnail, the
    title, the description and, when set, the content and player
    locations into the child, and then comes to the duration. *)
Lemma videoElements_run (video : JsVal) :
  videoFormatOk video -> videoTakes video = true ->
  exists (autoplay : Props) (rest : Build (list XMLNode) unit),
    Appends (fun _ => True) rest
    /\ (videoAttrsOk video -> exists l, Emits rest l)
    /\ videoElements video []
       = let head :=
           [ Element "video:thumbnail_loc" [] [Text (field video "thumbnail_loc")];
             Element "video:title" [] [CData (field video "title")];
             Element "video:description" [] [CData (field video "description")] ]
           ++ whenTruthy (field video "content_loc")
                [Element "video:content_loc" [] [Text (field video "content_loc")]]
           ++ whenTruthy (field video "player_loc")
                [Element "video:player_loc" autoplay [Text (field video "player_loc")]] in
         if truthy (field video "duration")
         then match safeDuration (field video "duration") with
              | Ok d => rest (head ++ [Element "video:duration" [] [Text d]])
              | Throw e => (Throw e, head)
              end
         else rest head.
Proof.
  intros (Hty & t & ti & de & len & Ht & Htt & Hti & Htit & Hde & Hdet & Hlen & Hgt) Htakes.
  assert (G : forall k, get video k = Ok (field video k)).
  { intros k. exact (@get_field video "thumbnail_loc" t k Ht). }
  destruct (videoTakes_inv video Htakes) as (Ptext & Ptag & Pattr & Pgal).
  assert (Et : t = field video "thumbnail_loc") by (pose proof (G "thumbnail_loc"); congruence).
  assert (Eti : ti = field video "title") by (pose proof (G "title"); congruence).
  assert (Ede : de = field video "description") by (pose proof (G "description"); congruence).
  subst t ti de.
  assert (P : forall k, In k videoTexts ->
                truthy (field video k) = true -> plain (field video k) = true)
    by exact Ptext.
  destruct (@attrBuilder_autoplay video _ (G "player_loc:autoplay")) as [autoplay Hauto].
  assert (Pauto : plainAttributes autoplay = true).
  { apply (@attrBuilder_plain video (OneKey "player_loc:autoplay") autoplay Htakes);
      [|exact Hauto].
    intros k [<-|[]]. simpl. tauto. }
  exists autoplay.
  revert Hauto. unfold videoElements. exec. intros Hauto.
  assert (E1 : Emits (element "video:thumbnail_loc" [] [Text (field video "thumbnail_loc")])
                 [Element "video:thumbnail_loc" [] [Text (field video "thumbnail_loc")]]).
  { apply element_plain; [reflexivity|]. simpl.
    rewrite (P "thumbnail_loc"); [reflexivity|simpl; tauto|exact Htt]. }
  assert (E2 : Emits (elementWith "video:title" (CData (field video "title")))
                 [Element "video:title" [] [CData (field video "title")]]).
  { apply elementWith_plain. simpl.
    rewrite (P "title"); [reflexivity|simpl; tauto|exact Htit]. }
  assert (E3 : Emits (elementWith "video:description" (CData (field video "description")))
                 [Element "video:description" [] [CData (field video "description")]]).
  { apply elementWith_plain. simpl.
    rewrite (P "description"); [reflexivity|simpl; tauto|exact Hdet]. }
  step E1. step E2. step E3.
  step (@Emits_text video "content_loc" "video:content_loc" (G _)
          (P "content_loc" ltac:(simpl; tauto))).
  step (@Emits_attributed video "player_loc" "video:player_loc" _ autoplay (G _)
          (P "player_loc" ltac:(simpl; tauto)) Hauto Pauto).
  match goal with
  | |- context [bind (whenPresent video "duration" _) ?k ?s] => exists (k tt)
  end.
  split; [appends; exact I|]. split.
  - intros ((ar & Hr) & (ap & Hp) & (apf & Hpf)).
    assert (Par : plainAttributes ar = true).
    { apply (@attrBuilder_plain video (OneKey "restriction:relationship") ar Htakes);
        [|exact Hr].
      intros k [<-|[]]. simpl. tauto. }
    assert (Pap : plainAttributes ap = true).
    { apply (@attrBuilder_plain video
               (ManyKeys ["price:resolution"; "price:currency"; "price:type"]) ap Htakes);
        [|exact Hp].
      intros k Hk. simpl in Hk |- *. tauto. }
    assert (Papf : plainAttributes apf = true).
    { apply (@attrBuilder_plain video (OneKey "platform:relationship") apf Htakes);
        [|exact Hpf].
      intros k [<-|[]]. simpl. tauto. }
    eexists. cbv beta.
    repeat lazymatch goal with
      | |- Emits (bind (whenPresent video "tag" _) _) _ =>
          eapply Emits_bind; [exact (Emits_tag video (G _) Ptag)|cbv beta]
      | |- Emits (bind (whenPresent video "gallery_loc" _) _) _ =>
          eapply Emits_bind;
          [ eapply Emits_whenPresent; [exact (G "gallery_loc")|]; intros T;
            rewrite (G "gallery_loc:title"), bind_lift_Ok;
            apply element_plain;
            [ simpl; rewrite (Pgal T); reflexivity
            | simpl; rewrite (P "gallery_loc" ltac:(simpl; tauto) T); reflexivity ]
          | cbv beta ]
      | |- Emits (bind (whenPresent video ?k (fun v => bind (lift (attrBuilder _ _)) _)) _) _ =>
          eapply Emits_bind;
          [ eapply (@Emits_attributed video k _ _ _ (G _) (P k ltac:(simpl; tauto)));
            eassumption
          | cbv beta ]
      | |- Emits (bind (whenPresent video ?k _) _) _ =>
          eapply Emits_bind;
          [ exact (@Emits_text video k _ (G _) (P k ltac:(simpl; tauto))) | cbv beta ]
      | |- Emits (whenPresent video ?k _) _ =>
          exact (@Emits_text video k _ (G _) (P k ltac:(simpl; tauto)))
      end.
  - unfold whenPresent at 1. rewrite (G "duration"), bind_lift_Ok. cbv beta zeta.
    destruct (truthy (field video "duration")) eqn:Td; [|reflexivity].
    destruct (safeDuration (field video "duration")) as [d|e] eqn:Sd.
    + rewrite bind_lift_Ok.
      assert (Ed : d = field video "duration").
      { revert Sd. unfold safeDuration. destruct (_ || _); [discriminate|].
        intros X. inversion X. reflexivity. }
      subst d.
      assert (E6 : Emits (element "video:duration" [] [Text (field video "duration")])
                     [Element "video:duration" [] [Text (field video "duration")]]).
      { apply element_plain; [reflexivity|]. simpl.
        rewrite (P "duration"); [reflexivity|simpl; tauto|exact Td]. }
      step E6. reflexivity.
    + reflexivity.
Qed.


Lemma field_of_get (v : JsVal) (k : string) (x : JsVal) :
  get v k = Ok x -> field v k = x.
Proof. intros H. unfold field. rewrite H. reflexivity. Qed.


(** *** News *)

Lemma newsElements_language_missing (news : JsVal) (s : list XMLNode) :
  truthy news = true ->
  truthy (field (field news "publication") "language") = false ->
  newsElements news s = (Throw InvalidNewsFormat, s).
Proof.
  intros Tn Hl.
  destruct (get_truthy news "publication" Tn) as [pub Hp].
  rewrite (field_of_get _ _ Hp) in Hl.
  unfold newsElements. rewrite Hp, bind_lift_Ok. cbv beta.
  destruct (truthy pub) eqn:Tp; cbn [negb]; [|reflexivity].
  destruct (get_truthy pub "name" Tp) as [nm Hnm].
  destruct (get_truthy pub "language" Tp) as [l Hlang].
  rewrite (field_of_get _ _ Hlang) in Hl.
  rewrite Hnm, bind_lift_Ok. cbv beta.
  destruct (truthy nm); cbn [negb]; [|reflexivity].
  rewrite Hlang, bind_lift_Ok. cbv beta. rewrite Hl. reflexivity.
Qed.

Lemma buildProp_news (it : SitemapItem) :
  truthy (news it) = true -> buildProp "news" it = buildNewsElement (news it) it.
Proof.
  intros Tn. unfold buildProp, bind, state.
  cbn [String.eqb Ascii.eqb Bool.eqb andb this].
  rewrite ?andb_false_r, ?andb_true_r, Tn. reflexivity.
Qed.

(** C6.  When the item has news in which the language of the publication
    is missing (the publication itself may be missing), the news step
    fails with the invalid-news-format error, whatever else the news
    holds (name, date, title, optional fields); and so does [buildXML]
    when the steps before the news step have nothing that could fail
    first: no images, videos, links or expiry date, and scalar fields
    that the builder takes. *)
Theorem news_requires_language (it : SitemapItem) :
  truthy (news it) = true ->
  truthy (field (field (news it) "publication") "language") = false ->
  fst (buildProp "news" it) = Throw InvalidNewsFormat
  /\ (truthy (img it) = false -> truthy (video it) = false ->
      truthy (links it) = false -> truthy (expires it) = false ->
      plainScalars it = true ->
      fst (buildXML it) = Throw InvalidNewsFormat).
Proof.
  intros Hn Hl.
  assert (Hstep : forall s, news s = news it ->
                    fst (buildProp "news" s) = Throw InvalidNewsFormat).
  { intros s Es. rewrite buildProp_news by (rewrite Es; exact Hn).
    unfold buildNewsElement. rewrite withChild_run, Es.
    rewrite (@newsElements_language_missing (news it) [] Hn Hl). reflexivity. }
  split; [apply Hstep; reflexivity|].
  intros Hi Hv Hk He Hs. rewrite buildXML_run.
  change props with (["loc"; "lastmod"; "changefreq"; "priority"; "img"; "video";
                      "links"; "expires"; "androidLink"; "mobile"]
                       ++ "news" :: ["ampLink"]).
  rewrite loop_app.
  rewrite (bind_ok _ _ _
             (@loop_plain ["loc"; "lastmod"; "changefreq"; "priority"; "img"; "video";
                           "links"; "expires"; "androidLink"; "mobile"]
                (resetUrl it) Hs
                ltac:(intros p Hin; simpl in Hin;
                      destruct Hin as [<-|[<-|[<-|[<-|[<-|[<-|[<-|[<-|[<-|[<-|[]]]]]]]]]]];
                      first [ left; simpl; tauto
                            | right; split; [simpl; tauto|assumption] ]))).
  rewrite loop_cons. unfold bind.
  match goal with
  | |- context [buildProp "news" ?s] =>
      pose proof (Hstep s eq_refl) as X; destruct (buildProp "news" s) as [[[]|e] s1]
  end; simpl in X; [discriminate|].
  inversion X. reflexivity.
Qed.

(** *** Failure *)


(** *** Building twice *)

Lemma asArray_truthy (v : JsVal) :
  truthy v = true ->
  exists a, asArray v = Ok a /\ truthy a = true /\ asArray a = Ok a.
Proof.
  intros Hv. unfold asArray at 1.
  destruct (String.eqb (typeof v) "object") eqn:Hty; cbn [negb].
  - destruct (get_truthy v "length" Hv) as [len Hlen]. rewrite Hlen. cbn [bindR].
    destruct (is_undefined len) eqn:Hu.
    + eexists. split; [reflexivity|]. split; reflexivity.
    + exists v. split; [reflexivity|]. split; [exact Hv|].
      unfold asArray. rewrite Hty, Hlen. cbn [negb bindR]. rewrite Hu. reflexivity.
  - eexists. split; [reflexivity|]. split; reflexivity.
Qed.

Lemma arrayed_truthy (v : JsVal) : truthy (arrayed v) = truthy v.
Proof.
  unfold arrayed. destruct (truthy v) eqn:Hv; [|exact Hv].
  destruct (asArray_truthy v Hv) as (a & Ha & Hta & _). rewrite Ha. exact Hta.
Qed.

Lemma arrayed_asArray (v : JsVal) : truthy v = true -> asArray v = Ok (arrayed v).
Proof.
  intros Hv. unfold arrayed. rewrite Hv.
  destruct (asArray_truthy v Hv) as (a & Ha & _). rewrite Ha. reflexivity.
Qed.

Lemma arrayed_idem (v : JsVal) : arrayed (arrayed v) = arrayed v.
Proof.
  destruct (truthy v) eqn:Hv.
  - destruct (asArray_truthy v Hv) as (a & Ha & Hta & Haa).
    unfold arrayed. rewrite Hv, Ha, Hta, Haa. reflexivity.
  - unfold arrayed. rewrite Hv, Hv. reflexivity.
Qed.

(** Computations that keep a field. *)

Section KeepsField.

Variable f : SitemapItem -> JsVal.
Hypothesis f_set_url : forall u s, f (set_url u s) = f s.

Lemma Keeps_ret {A : Type} (a : A) : Keeps f (ret a).
Proof. intros s. reflexivity. Qed.

Lemma Keeps_throw {A : Type} (e : Error) : Keeps f (@throw _ A e).
Proof. intros s. reflexivity. Qed.

Lemma Keeps_lift {A : Type} (r : Result A) : Keeps f (lift r).
Proof. intros s. reflexivity. Qed.

Lemma Keeps_bind {A B : Type} (m : Build SitemapItem A) (g : A -> Build SitemapItem B) :
  Keeps f m -> (forall a, Keeps f (g a)) -> Keeps f (bind m g).
Proof.
  intros Hm Hg s. unfold bind. specialize (Hm s).
  destruct (m s) as [[a|e] s1]; simpl in Hm |- *.
  - rewrite (Hg a s1). exact Hm.
  - exact Hm.
Qed.

Lemma Keeps_onUrl {A : Type} (call : Build (list XMLNode) A) : Keeps f (onUrl call).
Proof. intros s. rewrite onUrl_run. apply f_set_url. Qed.

Lemma Keeps_withChild {A : Type} (nm : string) (fill : Build (list XMLNode) A) :
  Keeps f (withChild nm fill).
Proof. intros s. rewrite withChild_run. apply f_set_url. Qed.

Lemma Keeps_forEach (g : JsVal -> Build SitemapItem unit) (l : list JsVal) :
  (forall v, Keeps f (g v)) -> Keeps f (forEach g l).
Proof.
  intros H. induction l as [|x l IH]; simpl; [apply Keeps_ret|].
  apply Keeps_bind; auto.
Qed.

Lemma Keeps_forEachOf (v : JsVal) (g : JsVal -> Build SitemapItem unit) :
  (forall x, Keeps f (g x)) -> Keeps f (forEachOf v g).
Proof.
  intros H. destruct v; simpl; try apply Keeps_throw. apply Keeps_forEach. exact H.
Qed.

Lemma Keeps_state {B : Type} (g : SitemapItem -> Build SitemapItem B) :
  (forall it0, Keeps f (g it0)) -> Keeps f (bind state g).
Proof. intros H s. unfold bind, state. apply H. Qed.

End KeepsField.

Lemma Keeps_img_set_video (v : JsVal) : Keeps img (modify (set_video v)).
Proof. intros s. reflexivity. Qed.

Lemma Keeps_video_set_img (v : JsVal) : Keeps video (modify (set_img v)).
Proof. intros s. reflexivity. Qed.

Ltac keeps_step :=
  lazymatch goal with
  | |- Keeps _ (if ?b then _ else _) => destruct b
  | |- Keeps _ (ret _) => apply Keeps_ret
  | |- Keeps _ (throw _) => apply Keeps_throw
  | |- Keeps _ (lift _) => apply Keeps_lift
  | |- Keeps img (modify (set_video _)) => apply Keeps_img_set_video
  | |- Keeps video (modify (set_img _)) => apply Keeps_video_set_img
  | |- Keeps _ (bind state _) => apply Keeps_state; intros
  | |- Keeps _ (bind _ _) => apply Keeps_bind; [|intros]
  | |- Keeps _ (forEachOf _ _) => apply Keeps_forEachOf; intros
  | |- Keeps _ (forEach _ _) => apply Keeps_forEach; intros
  | |- Keeps _ (withChild _ _) => apply Keeps_withChild; reflexivity
  | |- Keeps _ (onUrl _) => apply Keeps_onUrl; reflexivity
  | |- Keeps _ (imageElement _) => unfold imageElement
  | |- Keeps _ (linkElement _) => unfold linkElement
  | |- Keeps _ (buildVideoElement _) => unfold buildVideoElement
  | |- Keeps _ (buildNewsElement _) => unfold buildNewsElement
  end.

Lemma Keeps_img_buildProp (p : string) :
  String.eqb p "img" = false -> Keeps img (buildProp p).
Proof.
  intros Hp. unfold buildProp. rewrite Hp.
  apply Keeps_state. intros it0. cbv zeta.
  rewrite (andb_false_r (truthy (this p it0))).
  repeat keeps_step.
Qed.

Lemma Keeps_video_buildProp (p : string) :
  String.eqb p "video" = false -> Keeps video (buildProp p).
Proof.
  intros Hp. unfold buildProp. rewrite Hp.
  apply Keeps_state. intros it0. cbv zeta.
  rewrite (andb_false_r (truthy (this p it0))).
  repeat keeps_step.
Qed.


(** The image step leaves the arrayed images in the field; no other step
    assigns it.  Likewise for the videos. *)
Lemma buildProp_img_arrayed (s : SitemapItem) :
  img (snd (buildProp "img" s)) = arrayed (img s).
Proof.
  unfold buildProp, bind at 1, state.
  cbn [String.eqb Ascii.eqb Bool.eqb this].
  rewrite (andb_true_r (truthy (img s))).
  destruct (truthy (img s)) eqn:Hv.
  - rewrite (@arrayed_asArray _ Hv), bind_lift_Ok.
    unfold bind at 1, modify.
    assert (K : Keeps img (forEachOf (arrayed (img s)) imageElement)).
    { repeat keeps_step. }
    rewrite (K (set_img (arrayed (img s)) s)). reflexivity.
  - cbn [andb]. rewrite ?andb_false_r. unfold arrayed. rewrite Hv. reflexivity.
Qed.

Lemma buildProp_video_arrayed (s : SitemapItem) :
  video (snd (buildProp "video" s)) = arrayed (video s).
Proof.
  unfold buildProp, bind at 1, state.
  cbn [String.eqb Ascii.eqb Bool.eqb this].
  rewrite (andb_false_r (truthy (video s))), (andb_true_r (truthy (video s))).
  destruct (truthy (video s)) eqn:Hv.
  - rewrite (@arrayed_asArray _ Hv), bind_lift_Ok.
    unfold bind at 1, modify.
    assert (K : Keeps video (forEachOf (arrayed (video s)) buildVideoElement)).
    { repeat keeps_step. }
    rewrite (K (set_video (arrayed (video s)) s)). reflexivity.
  - cbn [andb]. rewrite ?andb_false_r. unfold arrayed. rewrite Hv. reflexivity.
Qed.

Lemma arrayed_img_loop (ps : list string) (s : SitemapItem) :
  arrayed (img (snd (loop ps s))) = arrayed (img s).
Proof.
  revert s. induction ps as [|p ps IH]; intros s; [reflexivity|].
  rewrite loop_cons. unfold bind.
  assert (Hp : arrayed (img (snd (buildProp p s))) = arrayed (img s)).
  { destruct (String.eqb p "img") eqn:E.
    - apply String.eqb_eq in E. subst p.
      rewrite buildProp_img_arrayed. apply arrayed_idem.
    - rewrite (@Keeps_img_buildProp p E s). reflexivity. }
  destruct (buildProp p s) as [[[]|e] s1]; simpl in Hp |- *.
  - rewrite IH. exact Hp.
  - exact Hp.
Qed.

Lemma arrayed_video_loop (ps : list string) (s : SitemapItem) :
  arrayed (video (snd (loop ps s))) = arrayed (video s).
Proof.
  revert s. induction ps as [|p ps IH]; intros s; [reflexivity|].
  rewrite loop_cons. unfold bind.
  assert (Hp : arrayed (video (snd (buildProp p s))) = arrayed (video s)).
  { destruct (String.eqb p "video") eqn:E.
    - apply String.eqb_eq in E. subst p.
      rewrite buildProp_video_arrayed. apply arrayed_idem.
    - rewrite (@Keeps_video_buildProp p E s). reflexivity. }
  destruct (buildProp p s) as [[[]|e] s1]; simpl in Hp |- *.
  - rewrite IH. exact Hp.
  - exact Hp.
Qed.

(** Computations that do not tell alike items apart. *)

Lemma Alike_ret {A : Type} (a : A) : Alike (ret a).
Proof. intros s t H. split; [reflexivity|exact H]. Qed.

Lemma Alike_throw {A : Type} (e : Error) : Alike (@throw _ A e).
Proof. intros s t H. split; [reflexivity|exact H]. Qed.

Lemma Alike_lift {A : Type} (r : Result A) : Alike (lift r).
Proof. intros s t H. split; [reflexivity|exact H]. Qed.

Lemma Alike_bind {A B : Type} (m : Build SitemapItem A) (g : A -> Build SitemapItem B) :
  Alike m -> (forall a, Alike (g a)) -> Alike (bind m g).
Proof.
  intros Hm Hg s t H. unfold bind. destruct (Hm s t H) as [Hr Ha].
  destruct (m s) as [rs s1]; destruct (m t) as [rt t1]. simpl in Hr, Ha. subst rt.
  destruct rs as [a|e].
  - apply Hg. exact Ha.
  - split; [reflexivity|exact Ha].
Qed.

Lemma Alike_set_img (v : JsVal) : Alike (modify (set_img v)).
Proof.
  intros s t (F & U & I & V). split; [reflexivity|]. simpl.
  split; [unfold sameFields in *; simpl; exact F|]. auto.
Qed.

Lemma Alike_set_video (v : JsVal) : Alike (modify (set_video v)).
Proof.
  intros s t (F & U & I & V). split; [reflexivity|]. simpl.
  split; [unfold sameFields in *; simpl; exact F|]. auto.
Qed.

Lemma Alike_onUrl {A : Type} (call : Build (list XMLNode) A) : Alike (onUrl call).
Proof.
  intros s t (F & U & I & V). rewrite !onUrl_run, U. split; [reflexivity|]. simpl.
  split; [unfold sameFields in *; simpl; exact F|]. auto.
Qed.

Lemma Alike_withChild {A : Type} (nm : string) (fill : Build (list XMLNode) A) :
  Alike (withChild nm fill).
Proof.
  intros s t (F & U & I & V). rewrite !withChild_run. split; [reflexivity|]. simpl.
  split; [unfold sameFields in *; simpl; exact F|]. rewrite U. auto.
Qed.

Lemma Alike_forEach (g : JsVal -> Build SitemapItem unit) (l : list JsVal) :
  (forall v, Alike (g v)) -> Alike (forEach g l).
Proof.
  intros H. induction l as [|x l IH]; simpl; [apply Alike_ret|].
  apply Alike_bind; auto.
Qed.

Lemma Alike_forEachOf (v : JsVal) (g : JsVal -> Build SitemapItem unit) :
  (forall x, Alike (g x)) -> Alike (forEachOf v g).
Proof.
  intros H. destruct v; simpl; try apply Alike_throw. apply Alike_forEach. exact H.
Qed.

Ltac alike_step :=
  lazymatch goal with
  | |- Alike (if ?b then _ else _) => destruct b
  | |- Alike (ret _) => apply Alike_ret
  | |- Alike (throw _) => apply Alike_throw
  | |- Alike (lift _) => apply Alike_lift
  | |- Alike (modify (set_img _)) => apply Alike_set_img
  | |- Alike (modify (set_video _)) => apply Alike_set_video
  | |- Alike (bind _ _) => apply Alike_bind; [|intros]
  | |- Alike (forEachOf _ _) => apply Alike_forEachOf; intros
  | |- Alike (forEach _ _) => apply Alike_forEach; intros
  | |- Alike (withChild _ _) => apply Alike_withChild
  | |- Alike (onUrl _) => apply Alike_onUrl
  | |- Alike (imageElement _) => unfold imageElement
  | |- Alike (linkElement _) => unfold linkElement
  | |- Alike (buildVideoElement _) => unfold buildVideoElement
  | |- Alike (buildNewsElement _) => unfold buildNewsElement
  end.

Lemma this_alike (p : string) (s t : SitemapItem) :
  sameFields s t ->
  String.eqb p "img" = false -> String.eqb p "video" = false ->
  this p t = this p s.
Proof.
  intros F Hi Hv. unfold sameFields in F. decompose [and] F.
  unfold this. rewrite Hi, Hv.
  repeat match goal with |- context [if ?b then _ else _] => destruct b end;
    congruence.
Qed.

Lemma bind_state_run {S B : Type} (g : S -> Build S B) (s : S) :
  bind state g s = g s s.
Proof. reflexivity. Qed.

Lemma Alike_buildProp (p : string) : Alike (buildProp p).
Proof.
  intros s t H. pose proof H as (F & U & I & V).
  unfold buildProp. rewrite !bind_state_run. cbv beta zeta.
  destruct (String.eqb p "img") eqn:Ei; [|destruct (String.eqb p "video") eqn:Ev].
  - apply String.eqb_eq in Ei. subst p.
    cbn [String.eqb Ascii.eqb Bool.eqb this].
    rewrite !andb_true_r.
    assert (Ht : truthy (img t) = truthy (img s)).
    { rewrite <- (arrayed_truthy (img t)), <- (arrayed_truthy (img s)), I. reflexivity. }
    rewrite Ht. destruct (truthy (img s)) eqn:Hs.
    + rewrite (@arrayed_asArray (img s) Hs), (@arrayed_asArray (img t) Ht), I.
      match goal with
      | |- fst (?M t) = fst (?M s) /\ _ => assert (HM : Alike M) by (repeat alike_step)
      end.
      apply HM. exact H.
    + cbn [andb]. rewrite ?andb_false_r. split; [reflexivity|exact H].
  - apply String.eqb_eq in Ev. subst p.
    cbn [String.eqb Ascii.eqb Bool.eqb this].
    rewrite !andb_true_r, !andb_false_r.
    assert (Ht : truthy (video t) = truthy (video s)).
    { rewrite <- (arrayed_truthy (video t)), <- (arrayed_truthy (video s)), V. reflexivity. }
    rewrite Ht. destruct (truthy (video s)) eqn:Hs.
    + rewrite (@arrayed_asArray (video s) Hs), (@arrayed_asArray (video t) Ht), V.
      match goal with
      | |- fst (?M t) = fst (?M s) /\ _ => assert (HM : Alike M) by (repeat alike_step)
      end.
      apply HM. exact H.
    + cbn [andb]. rewrite ?andb_false_r. split; [reflexivity|exact H].
  - rewrite (@this_alike p s t F Ei Ev).
    replace (conf t) with (conf s) by (symmetry; apply F).
    rewrite !andb_false_r.
    match goal with
    | |- fst (?M t) = fst (?M s) /\ _ => assert (HM : Alike M) by (repeat alike_step)
    end.
    apply HM. exact H.
Qed.

Lemma Alike_loop (ps : list string) : Alike (loop ps).
Proof.
  induction ps as [|p ps IH]; simpl; [apply Alike_ret|].
  apply Alike_bind; [apply Alike_buildProp|]. intros _. exact IH.
Qed.

Lemma url_resetUrl (it : SitemapItem) :
  url (resetUrl it) = {| name := name (url it); attributes := []; children := [] |}.
Proof. reflexivity. Qed.

(** A second build on the item that the first has left returns what the
    first returned and leaves the same item node. *)
Lemma buildXML_twice (it : SitemapItem) :
  fst (buildXML (snd (buildXML it))) = fst (buildXML it)
  /\ url (snd (buildXML (snd (buildXML it)))) = url (snd (buildXML it)).
Proof.
  assert (A : alike (resetUrl it) (resetUrl (snd (buildXML it)))).
  { pose proof (buildXML_sameFields it) as F.
    rewrite buildXML_run in F |- *. cbn [snd] in F |- *.
    split; [exact F|]. split; [|split].
    - assert (E : Extends (fun _ => True) (loop props)).
      { apply Extends_loop. intros p _. apply Extends_buildProp. }
      destruct (E (resetUrl it)) as (_ & N & _).
      rewrite (url_resetUrl (snd (loop props (resetUrl it)))), N. reflexivity.
    - change (img (resetUrl ?x)) with (img x).
      rewrite arrayed_img_loop. reflexivity.
    - change (video (resetUrl ?x)) with (video x).
      rewrite arrayed_video_loop. reflexivity. }
  destruct (Alike_loop props A) as [Hr (_ & U & _)].
  rewrite (buildXML_run (snd (buildXML it))). cbn [fst snd].
  rewrite Hr, U.
  rewrite (buildXML_run it). cbn [fst snd]. split; reflexivity.
Qed.


(** C9, as the code has it.  For a configuration with [safe] set to
    true and the priority 1.5: the item is constructed; every node that
    [buildXML] returns for it holds exactly one element called
    [priority], whose text is the number 1.5 as it was given (it is
    emitted by the branch shared by the scalar fields, not omitted and
    not formatted), and a second build on the item then returns that
    same node; in any case the second build returns what the first
    returned; and [buildXML] does return a node when the item has only
    plain scalar fields. *)
Theorem out_of_range_priority_on_every_build (options : Props) (lm : JsVal) :
  truthy (prop options "url") = true ->
  lastmodOf options = Ok lm ->
  prop options "safe" = JBool true ->
  prop options "priority" = JNum (Fin (3 # 2)) ->
  exists it,
    SitemapItem_constructor options = Ok it
    /\ (forall node it1,
          buildXML it = (Ok node, it1) ->
          filter (named "priority") (children node)
          = [Element "priority" [] [Text (JNum (Fin (3 # 2)))]]
          /\ exists it2, buildXML it1 = (Ok node, it2))
    /\ fst (buildXML (snd (buildXML it))) = fst (buildXML it)
    /\ (plainItem it = true -> exists node it1, buildXML it = (Ok node, it1)).
Proof.
  intros Hu Hl Hs Hp.
  assert (Hc : truthy (prop options "safe") || negb (truthy (prop options "changefreq"))
               || negb (notInCHANGEFREQ (prop options "changefreq")) = true).
  { rewrite Hs. reflexivity. }
  assert (Hp' : priorityChecked options && priorityInvalid (prop options "priority") = false).
  { unfold priorityChecked. rewrite Hs. reflexivity. }
  destruct (@constructor_ok options lm Hu Hl Hc Hp') as (it & Hk & _ & _ & Hpr & _).
  exists it. split; [exact Hk|].
  split; [|split; [apply buildXML_twice|]].
  - intros node it1 Hb. split.
    + rewrite (@buildXML_priority_children it it1 node Hb), Hpr, Hp. reflexivity.
    + destruct (buildXML_twice it) as [T _]. rewrite Hb in T. cbn [fst snd] in T.
      exists (snd (buildXML it1)).
      destruct (buildXML it1) as [r it2]. cbn [fst snd] in T |- *. rewrite T. reflexivity.
  - intros Hi. destruct (@buildXML_plain it Hi) as (node & it' & Hb & _).
    exists node, it'. exact Hb.
Qed.

(** *** The patterns of the registry, as sets of strings *)

Lemma contains_cons (w : string) (c : ascii) (s : string) :
  contains w (String c s) = startsWith w (String c s) || contains w s.
Proof.
  unfold startsWith.
  change (contains w (String c s))
    with (match strip w (String c s) with Some _ => true | None => contains w s end).
  destruct (strip w (String c s)); reflexivity.
Qed.

Lemma endsWith_cons (w : string) (c : ascii) (s : string) :
  endsWith w (String c s)
  = match strip w (String c s) with
    | Some EmptyString => true
    | _ => endsWith w s
    end.
Proof. reflexivity. Qed.

(** A pattern [^a|b|c|d$]: the first alternative is tied to the start,
    the last one to the end, the middle ones to nothing. *)
Lemma search_four_words (a b c d : string) (s : string) :
  forall pos,
    search (Alt (Seq AssertStart (Literal a))
                (Alt (Literal b) (Alt (Literal c) (Seq (Literal d) AssertEnd))))
           pos s
    = Nat.eqb pos 0 && startsWith a s
      || contains b s || contains c s || endsWith d s.
Proof.
  induction s as [|ch s IH]; intros pos.
  - unfold startsWith. cbn [search matches contains endsWith].
    destruct (Nat.eqb pos 0), (strip a ""), (strip b ""), (strip c ""),
      (strip d "") as [[|? ?]|]; reflexivity.
  - change (search ?r pos (String ch s))
      with (matches r pos (String ch s) (fun _ _ => true) || search r (S pos) s).
    rewrite IH. rewrite !contains_cons, endsWith_cons. unfold startsWith.
    cbn [matches Nat.eqb andb].
    destruct (Nat.eqb pos 0), (strip a (String ch s)), (strip b (String ch s)),
      (strip c (String ch s)), (strip d (String ch s)) as [[|? ?]|],
      (strip a s), (contains b s), (contains c s), (endsWith d s); reflexivity.
Qed.

(** A pattern [^a|d$]. *)
Lemma search_two_words (a d : string) (s : string) :
  forall pos,
    search (Alt (Seq AssertStart (Literal a)) (Seq (Literal d) AssertEnd)) pos s
    = Nat.eqb pos 0 && startsWith a s || endsWith d s.
Proof.
  induction s as [|ch s IH]; intros pos.
  - unfold startsWith. cbn [search matches endsWith].
    destruct (Nat.eqb pos 0), (strip a ""), (strip d "") as [[|? ?]|]; reflexivity.
  - change (search ?r pos (String ch s))
      with (matches r pos (String ch s) (fun _ _ => true) || search r (S pos) s).
    rewrite IH. rewrite endsWith_cons. unfold startsWith.
    cbn [matches Nat.eqb andb].
    destruct (Nat.eqb pos 0), (strip a (String ch s)),
      (strip d (String ch s)) as [[|? ?]|], (strip a s), (endsWith d s); reflexivity.
Qed.

Lemma search_currency_later (s : string) :
  forall pos,
    search (Seq AssertStart (Seq (Count (Range "A" "Z") 3) AssertEnd)) (S pos) s = false.
Proof.
  induction s as [|ch s IH]; intros pos.
  - reflexivity.
  - change (search ?r (S pos) (String ch s))
      with (matches r (S pos) (String ch s) (fun _ _ => true) || search r (S (S pos)) s).
    rewrite IH. reflexivity.
Qed.

Lemma test_currency (s : string) :
  test (Seq AssertStart (Seq (Count (Range "A" "Z") 3) AssertEnd)) s = threeCapitals s.
Proof.
  unfold test. destruct s as [|a s]; [reflexivity|].
  change (search ?r 0 (String a s))
    with (matches r 0 (String a s) (fun _ _ => true) || search r 1 s).
  rewrite search_currency_later, orb_false_r.
  destruct s as [|b s]; [cbn; now rewrite andb_false_r|].
  destruct s as [|c s]; [cbn; now rewrite !andb_false_r|].
  destruct s as [|d s]; cbn.
  - now rewrite andb_true_r, andb_assoc.
  - now rewrite !andb_false_r.
Qed.

(** What the extractor does with a present key of two segments that has
    a registered pattern. *)
Lemma attrBuilder_validated (conf : JsVal) (key category subkey : string)
      (v : JsVal) (pattern : Regex) :
  get conf key = Ok v -> is_undefined v = false ->
  split_colon key = [category; subkey] ->
  lookup key validators = Some pattern ->
  attrBuilder conf (OneKey key)
  = if test pattern (ToString v)
    then Ok (set_prop subkey v [])
    else Throw (InvalidAttrValue key v pattern).
Proof.
  intros Hg Hu Hs Hl. unfold attrBuilder. cbn [reduce]. unfold attrStep.
  rewrite Hg. cbn [bindR]. rewrite Hu, Hs, Hl. cbn [negb List.length Nat.eqb nth].
  destruct (test pattern (ToString v)); reflexivity.
Qed.

(** X1.  The value of [platform:relationship] or
    [restriction:relationship] is accepted exactly when it begins with
    [allow] or ends with [deny]: the two anchors of [/^allow|deny$/]
    bind to one alternative each. *)
Theorem relationship_values (conf : JsVal) (key s : string) :
  key = "platform:relationship" \/ key = "restriction:relationship" ->
  get conf key = Ok (JStr s) ->
  attrBuilder conf (OneKey key)
  = if startsWith "allow" s || endsWith "deny" s
    then Ok [("relationship", JStr s)]
    else Throw (InvalidAttrValue key (JStr s) allowDeny).
Proof.
  intros Hk Hg.
  rewrite (@attrBuilder_validated conf key
             (match split_colon key with c :: _ => c | [] => "" end)
             "relationship" (JStr s) allowDeny Hg eq_refl).
  - cbn [ToString]. unfold test, allowDeny. rewrite search_two_words.
    cbn [Nat.eqb andb]. reflexivity.
  - destruct Hk; subst key; reflexivity.
  - destruct Hk; subst key; reflexivity.
Qed.

(** X2.  The value of [price:currency] is accepted exactly when it
    consists of three capital letters. *)
Theorem currency_values (conf : JsVal) (s : string) :
  get conf "price:currency" = Ok (JStr s) ->
  exists pattern,
    lookup "price:currency" validators = Some pattern
    /\ attrBuilder conf (OneKey "price:currency")
       = if threeCapitals s
         then Ok [("currency", JStr s)]
         else Throw (InvalidAttrValue "price:currency" (JStr s) pattern).
Proof.
  intros Hg. eexists. split; [reflexivity|].
  rewrite (@attrBuilder_validated conf "price:currency" "price" "currency"
             (JStr s) _ Hg eq_refl eq_refl eq_refl).
  cbn [ToString]. rewrite test_currency. reflexivity.
Qed.

(** X3.  The value of [price:type] is accepted exactly when it begins
    with [rent], contains [purchase] or [RENT], or ends with
    [PURCHASE]. *)
Theorem price_type_language (conf : JsVal) (s : string) :
  get conf "price:type" = Ok (JStr s) ->
  exists pattern,
    lookup "price:type" validators = Some pattern
    /\ attrBuilder conf (OneKey "price:type")
       = if startsWith "rent" s || contains "purchase" s
            || contains "RENT" s || endsWith "PURCHASE" s
         then Ok [("type", JStr s)]
         else Throw (InvalidAttrValue "price:type" (JStr s) pattern).
Proof.
  intros Hg. eexists. split; [reflexivity|].
  rewrite (@attrBuilder_validated conf "price:type" "price" "type"
             (JStr s) _ Hg eq_refl eq_refl eq_refl).
  cbn [ToString]. unfold test. rewrite search_four_words.
  cbn [Nat.eqb andb]. reflexivity.
Qed.

(** X4.  The value of [price:resolution] is accepted exactly when it
    begins with [HD], contains [hd] or [sd], or ends with [SD]. *)
Theorem price_resolution_language (conf : JsVal) (s : string) :
  get conf "price:resolution" = Ok (JStr s) ->
  exists pattern,
    lookup "price:resolution" validators = Some pattern
    /\ attrBuilder conf (OneKey "price:resolution")
       = if startsWith "HD" s || contains "hd" s
            || contains "sd" s || endsWith "SD" s
         then Ok [("resolution", JStr s)]
         else Throw (InvalidAttrValue "price:resolution" (JStr s) pattern).
Proof.
  intros Hg. eexists. split; [reflexivity|].
  rewrite (@attrBuilder_validated conf "price:resolution" "price" "resolution"
             (JStr s) _ Hg eq_refl eq_refl eq_refl).
  cbn [ToString]. unfold test. rewrite search_four_words.
  cbn [Nat.eqb andb]. reflexivity.
Qed.

(** *** The attribute extractor on lists of keys *)

Lemma reduce_absent (conf : JsVal) (keys : list string) (attrs : Props) :
  (forall k, In k keys -> get conf k = Ok JUndefined) ->
  reduce conf keys attrs = Ok attrs.
Proof.
  induction keys as [|k keys IH]; intros H; [reflexivity|].
  cbn [reduce]. unfold attrStep at 1. rewrite (H k (or_introl eq_refl)).
  cbn [bindR is_undefined negb]. apply IH. intros k' Hk'. apply H. right. exact Hk'.
Qed.

Lemma reduce_app (conf : JsVal) (pre post : list string) (attrs : Props) :
  reduce conf (pre ++ post) attrs
  = bindR (reduce conf pre attrs) (reduce conf post).
Proof.
  revert attrs. induction pre as [|k pre IH]; intros attrs; [reflexivity|].
  cbn [app reduce]. destruct (attrStep conf attrs k); cbn [bindR]; [apply IH|reflexivity].
Qed.

(** X5.  Keys that the source does not hold are passed over, so a call
    in which none of the keys is present returns the empty mapping; and
    the first present key that does not split into exactly two segments
    at its colons makes the call fail with the invalid-attribute-key
    error that names it, whatever keys follow. *)
Theorem attrBuilder_absent_and_malformed (conf : JsVal) (pre post : list string) :
  (forall k, In k pre -> get conf k = Ok JUndefined) ->
  attrBuilder conf (ManyKeys pre) = Ok []
  /\ (forall key v,
        get conf key = Ok v -> v <> JUndefined ->
        List.length (split_colon key) <> 2%nat ->
        attrBuilder conf (ManyKeys (pre ++ key :: post)) = Throw (InvalidAttr key)).
Proof.
  intros H. unfold attrBuilder. split.
  - apply reduce_absent. exact H.
  - intros key v Hg Hv Hn. rewrite reduce_app, (@reduce_absent conf pre [] H).
    cbn [bindR reduce]. unfold attrStep at 1. rewrite Hg. cbn [bindR].
    rewrite (is_undefined_false Hv). cbn [negb].
    apply Nat.eqb_neq in Hn. rewrite Hn. reflexivity.
Qed.

(** X6.  The attributes of [video:price]: the three keys are looked at
    in the order resolution, currency, type; the first one that is
    present and fails its pattern decides the error; otherwise the
    mapping holds the present ones, in that order, under the names
    [resolution], [currency] and [type]. *)
Theorem price_attributes (video resolution currency type : JsVal) :
  get video "price:resolution" = Ok resolution ->
  get video "price:currency" = Ok currency ->
  get video "price:type" = Ok type ->
  exists p1 p2 p3,
    lookup "price:resolution" validators = Some p1
    /\ lookup "price:currency" validators = Some p2
    /\ lookup "price:type" validators = Some p3
    /\ attrBuilder video (ManyKeys ["price:resolution"; "price:currency"; "price:type"])
       = if negb (is_undefined resolution) && negb (test p1 (ToString resolution))
         then Throw (InvalidAttrValue "price:resolution" resolution p1)
         else if negb (is_undefined currency) && negb (test p2 (ToString currency))
         then Throw (InvalidAttrValue "price:currency" currency p2)
         else if negb (is_undefined type) && negb (test p3 (ToString type))
         then Throw (InvalidAttrValue "price:type" type p3)
         else Ok ((if is_undefined resolution then [] else [("resolution", resolution)])
                  ++ (if is_undefined currency then [] else [("currency", currency)])
                  ++ (if is_undefined type then [] else [("type", type)])).
Proof.
  intros H1 H2 H3. do 3 eexists. do 3 (split; [reflexivity|]).
  unfold attrBuilder. cbn [reduce]. unfold attrStep. rewrite H1, H2, H3.
  cbn [bindR].
  change (split_colon "price:resolution") with ["price"; "resolution"].
  change (split_colon "price:currency") with ["price"; "currency"].
  change (split_colon "price:type") with ["price"; "type"].
  cbn [List.length Nat.eqb negb nth].
  change (lookup "price:resolution" validators)
    with (Some (Alt (Seq AssertStart (Literal "HD"))
                    (Alt (Literal "hd") (Alt (Literal "sd") (Seq (Literal "SD") AssertEnd))))).
  change (lookup "price:currency" validators)
    with (Some (Seq AssertStart (Seq (Count (Range "A" "Z") 3) AssertEnd))).
  change (lookup "price:type" validators)
    with (Some (Alt (Seq AssertStart (Literal "rent"))
                    (Alt (Literal "purchase")
                         (Alt (Literal "RENT") (Seq (Literal "PURCHASE") AssertEnd))))).
  cbv beta iota.
  destruct (is_undefined resolution); cbn [negb andb bindR];
    [|destruct (test _ (ToString resolution)); cbn [negb andb bindR]; [|reflexivity]];
    (destruct (is_undefined currency); cbn [negb andb bindR];
     [|destruct (test _ (ToString currency)); cbn [negb andb bindR]; [|reflexivity]]);
    (destruct (is_undefined type); cbn [negb andb bindR];
     [|destruct (test _ (ToString type)); cbn [negb andb bindR]; [|reflexivity]]);
    reflexivity.
Qed.

(** *** The duration gate on numbers *)

(** X7.  On a finite number [safeDuration] accepts exactly the closed
    interval from 0 to 28800 and throws the invalid-duration error
    outside it; NaN passes both comparisons and is accepted. *)
Theorem safeDuration_interval (q : Q) :
  (0 <= q /\ q <= 28800 -> safeDuration (JNum (Fin q)) = Ok (JNum (Fin q)))%Q
  /\ (q < 0 \/ 28800 < q -> safeDuration (JNum (Fin q)) = Throw InvalidVideoDuration)%Q
  /\ safeDuration (JNum NaN) = Ok (JNum NaN).
Proof.
  unfold safeDuration, js_lt, js_gt, num_gt, num_lt. cbn [ToNumber].
  change (inject_Z 28800) with 28800%Q.
  split; [|split; [|reflexivity]].
  - intros [H0 H1]. apply Qle_bool_iff in H0. apply Qle_bool_iff in H1.
    rewrite H0, H1. reflexivity.
  - intros [H|H].
    + destruct (Qle_bool 0 q) eqn:E; [|reflexivity].
      apply Qle_bool_iff in E. exfalso. exact (Qlt_not_le _ _ H E).
    + destruct (Qle_bool q 28800) eqn:E; [|now rewrite orb_true_r].
      apply Qle_bool_iff in E. exfalso. exact (Qlt_not_le _ _ H E).
Qed.

(** *** More on the constructor *)


(** X9.  With [safe] unset, a truthy change frequency that is not among
    the listed ones (any value that is not a string is such) is refused
    with the invalid-changefreq error, and this before the priority is
    looked at: an invalid priority beside it does not change the
    error. *)
Theorem changefreq_checked_before_priority (options : Props) (lm : JsVal) :
  truthy (prop options "url") = true ->
  lastmodOf options = Ok lm ->
  truthy (prop options "safe") = false ->
  truthy (prop options "changefreq") = true ->
  notInCHANGEFREQ (prop options "changefreq") = true ->
  SitemapItem_constructor options = Throw ChangeFreqInvalidError.
Proof.
  intros Hu Hl Hs Hc Hn. unfold SitemapItem_constructor.
  rewrite Hu, Hl, Hs, Hc, Hn. reflexivity.
Qed.

Lemma js_or_null (v : JsVal) :
  js_or v JNull = JNull \/ truthy (js_or v JNull) = true.
Proof. unfold js_or. destruct (truthy v) eqn:E; auto. Qed.

(** X10.  An item that the constructor returns: its location is truthy,
    its item node is an empty element called [url], each of the eight
    extension fields holds null or a truthy value, and, unless [safe]
    was set, its priority is falsy or a number within [0, 1]. *)
Theorem constructed_item_invariant (options : Props) (it : SitemapItem) :
  SitemapItem_constructor options = Ok it ->
  truthy (loc it) = true
  /\ url it = {| name := "url"; attributes := []; children := [] |}
  /\ Forall (fun v => v = JNull \/ truthy v = true)
            [news it; img it; links it; expires it; androidLink it; mobile it;
             video it; ampLink it]
  /\ (truthy (prop options "safe") = false ->
      truthy (priority it) = false
      \/ (typeof (priority it) = "number"
          /\ js_ge (priority it) (Fin 0) && js_le (priority it) (Fin 1) = true)).
Proof.
  unfold SitemapItem_constructor.
  destruct (truthy (prop options "url")) eqn:Hu; cbn [negb]; [|discriminate].
  destruct (lastmodOf options) as [lm|e]; cbn [bindR]; [|discriminate].
  destruct (_ && _ && _); [discriminate|].
  destruct (priorityChecked options && _) eqn:Hp; [discriminate|].
  intros H. inversion H; subst; clear H. cbn.
  split; [exact Hu|]. split; [reflexivity|]. split.
  - repeat (apply Forall_cons; [apply js_or_null|]). apply Forall_nil.
  - intros Hs. unfold priorityChecked, priorityInvalid in Hp. rewrite Hs in Hp.
    cbn [negb andb] in Hp.
    destruct (truthy (prop options "priority")); [|left; reflexivity].
    right. cbn [andb] in Hp. apply orb_false_iff in Hp. destruct Hp as [Hr Ht].
    apply negb_false_iff in Hr. apply negb_false_iff in Ht.
    apply String.eqb_eq in Ht. auto.
Qed.


(** *** The step for the priority on numbers *)

(** X11.  A numeric priority within [0, 1] is emitted with exactly one
    decimal: the step for the priority succeeds and appends one element
    whose text is one of [0.0], [0.1], ..., [1.0], namely the tenth
    nearest to the value, the upper one when the value lies halfway
    between two tenths. *)
Theorem priority_one_decimal (q : Q) (it : SitemapItem) :
  priority it = JNum (Fin q) -> (0 <= q)%Q -> (q <= 1)%Q ->
  exists (n : nat) (it' : SitemapItem),
    (n <= 10)%nat
    /\ buildProp "priority" it = (Ok tt, it')
    /\ children (url it')
       = children (url it) ++ [Element "priority" [] [Text (JStr (nth n tenths ""))]]
    /\ (inject_Z (Z.of_nat n) - (1 # 2) <= q * inject_Z 10)%Q
    /\ (q * inject_Z 10 < inject_Z (Z.of_nat n) + (1 # 2))%Q.
Proof.
  intros Hp H0 H1.
  destruct (toFixed1_unit_interval H0 H1) as [Hz Ht].
  set (z := Qfloor (q * inject_Z 10 + (1 # 2))) in *.
  exists (Z.to_nat z). eexists. split; [lia|]. split; [|split].
  - rewrite buildProp_priority, Hp.
    unfold js_ge, js_le, num_ge, num_le. cbn [ToNumber parseFloat].
    assert (E0 : Qle_bool 0 q = true) by (apply Qle_bool_iff; exact H0).
    assert (E1 : Qle_bool q 1 = true) by (apply Qle_bool_iff; exact H1).
    rewrite E0, E1. cbn [andb]. rewrite Ht.
    apply onUrl_emits. apply element_plain; [reflexivity|].
    unfold plainContent. cbn [forallb]. rewrite tenths_plain by lia. reflexivity.
  - reflexivity.
  - rewrite Z2Nat.id by lia.
    pose proof (Qfloor_le (q * inject_Z 10 + (1 # 2))) as L.
    pose proof (Qlt_floor (q * inject_Z 10 + (1 # 2))) as U.
    fold z in L, U. rewrite inject_Z_plus in U.
    change (inject_Z 1) with 1%Q in U. split; lra.
Qed.

(** *** The errors of a build *)

Lemma Raises_ret {S A : Type} (P : Error -> Prop) (a : A) : Raises P (@ret S A a).
Proof. intros s e H. discriminate. Qed.

Lemma Raises_throw {S A : Type} (P : Error -> Prop) (e : Error) :
  P e -> Raises P (@throw S A e).
Proof. intros He s e' H. inversion H. subst. exact He. Qed.

Lemma Raises_lift {S A : Type} (P : Error -> Prop) (r : Result A) :
  (forall e, r = Throw e -> P e) -> Raises P (@lift S A r).
Proof. intros Hr s e H. apply Hr. exact H. Qed.

Lemma Raises_modify {S : Type} (P : Error -> Prop) (f : S -> S) : Raises P (modify f).
Proof. intros s e H. discriminate. Qed.

Lemma Raises_bind {S A B : Type} (P : Error -> Prop) (m : Build S A)
      (g : A -> Build S B) :
  Raises P m -> (forall a, Raises P (g a)) -> Raises P (bind m g).
Proof.
  intros Hm Hg s e. unfold bind. specialize (Hm s).
  destruct (m s) as [[a|e'] s1]; cbn [fst] in *.
  - apply Hg.
  - intros H. inversion H. subst. apply Hm. reflexivity.
Qed.

Lemma Raises_state {S B : Type} (P : Error -> Prop) (g : S -> Build S B) :
  (forall s0, Raises P (g s0)) -> Raises P (bind state g).
Proof. intros H s e. unfold bind, state. apply H. Qed.

Lemma Raises_forEach {S : Type} (P : Error -> Prop) (g : JsVal -> Build S unit)
      (l : list JsVal) :
  (forall v, Raises P (g v)) -> Raises P (forEach g l).
Proof.
  intros H. induction l as [|x l IH]; simpl; [apply Raises_ret|].
  apply Raises_bind; auto.
Qed.

Lemma Raises_forEachOf {S : Type} (P : Error -> Prop) (v : JsVal)
      (g : JsVal -> Build S unit) :
  P TypeError -> (forall x, Raises P (g x)) -> Raises P (forEachOf v g).
Proof.
  intros Ht H. destruct v; simpl; try (apply Raises_throw; exact Ht).
  apply Raises_forEach. exact H.
Qed.

Lemma Raises_get {S : Type} (P : Error -> Prop) (v : JsVal) (k : string) :
  P TypeError -> Raises P (@lift S _ (get v k)).
Proof.
  intros Ht. apply Raises_lift. intros e H.
  destruct (get_throw_inv _ _ H) as [_ ->]. exact Ht.
Qed.

Lemma Raises_whenPresent {S : Type} (P : Error -> Prop) (o : JsVal) (k : string)
      (emit : JsVal -> Build S unit) :
  P TypeError -> (forall v, Raises P (emit v)) -> Raises P (whenPresent o k emit).
Proof.
  intros Ht H. unfold whenPresent. apply Raises_bind; [apply Raises_get; exact Ht|].
  intros v. destruct (truthy v); [apply H|apply Raises_ret].
Qed.

Lemma buildError_TypeError : buildError TypeError.
Proof. left. simpl. tauto. Qed.

(** What the builder refuses, it refuses with one of its two errors or
    with an error of the host's part of it. *)
Lemma refusal_buildError (place : Place) (v : JsVal) (e : Error) :
  refusal place v = Some e -> buildError e.
Proof.
  assert (Hh : builderRefusal place v = Some e -> buildError e).
  { intros H. right. right. right. eauto. }
  unfold refusal. destruct (plain v); [discriminate|].
  destruct place, v; try exact Hh;
    try (intros H; inversion H; left; simpl; tauto).
  destruct (hasNul s); [|exact Hh]. intros H. inversion H. left. simpl. tauto.
Qed.

Lemma firstRefusal_buildError {A : Type} (f : A -> option Error) (l : list A)
      (e : Error) :
  (forall x e', f x = Some e' -> buildError e') ->
  firstRefusal f l = Some e -> buildError e.
Proof.
  intros Hf. induction l as [|x l IH]; simpl; [discriminate|].
  destruct (f x) as [e'|] eqn:E; [|exact IH].
  intros H. inversion H. subst. exact (Hf x e E).
Qed.

Lemma contentRefusal_buildError (n : XMLNode) (e : Error) :
  contentRefusal n = Some e -> buildError e.
Proof. destruct n; simpl; try discriminate; apply refusal_buildError. Qed.

Lemma Raises_element (nm : string) (attrs : Props) (content : list XMLNode) :
  Raises buildError (element nm attrs content).
Proof.
  intros s e H.
  destruct (element_run nm attrs content s) as [R|(e' & R & [F|F])];
    rewrite R in H; inversion H; subst.
  - refine (firstRefusal_buildError _ attrs _ F).
    intros x e'. apply refusal_buildError.
  - refine (firstRefusal_buildError _ content _ F).
    exact contentRefusal_buildError.
Qed.

Lemma Raises_elementWith (nm : string) (inner : XMLNode) :
  Raises buildError (elementWith nm inner).
Proof.
  intros s e H.
  destruct (elementWith_run nm inner s) as [R|(e' & R & F)];
    rewrite R in H; inversion H; subst.
  exact (contentRefusal_buildError _ F).
Qed.

Lemma Raises_elementAtts (nm : string) (attrs : Props) :
  Raises buildError (elementAtts nm attrs).
Proof.
  intros s e. rewrite elementAtts_run. cbn [fst].
  destruct (setAttributes attrs []) as [r set] eqn:E. cbn [fst].
  intros ->. destruct (setAttributes_throw _ _ E) as (v & _ & R).
  exact (refusal_buildError _ _ R).
Qed.

Lemma Raises_child {A : Type} (P : Error -> Prop) (nm : string)
      (fill : Build (list XMLNode) A) :
  Raises P fill -> Raises P (child nm fill).
Proof. intros H s e. rewrite child_run. cbn [fst]. apply H. Qed.

Lemma Raises_onUrl {A : Type} (P : Error -> Prop) (call : Build (list XMLNode) A) :
  Raises P call -> Raises P (onUrl call).
Proof. intros H s e. rewrite onUrl_run. cbn [fst]. apply H. Qed.

Lemma Raises_withChild {A : Type} (P : Error -> Prop) (nm : string)
      (fill : Build (list XMLNode) A) :
  Raises P fill -> Raises P (withChild nm fill).
Proof. intros H s e. rewrite withChild_run. cbn [fst]. apply H. Qed.

Lemma asArray_raises (v : JsVal) (e : Error) : asArray v = Throw e -> buildError e.
Proof.
  unfold asArray. destruct (negb _); [discriminate|].
  destruct (get v "length") as [len|e'] eqn:E; cbn [bindR].
  - destruct (is_undefined len); discriminate.
  - intros H. inversion H. subst.
    destruct (get_throw_inv _ _ E) as [_ ->]. apply buildError_TypeError.
Qed.

Lemma safeDuration_raises (v : JsVal) (e : Error) :
  safeDuration v = Throw e -> buildError e.
Proof.
  unfold safeDuration. destruct (_ || _); [|discriminate].
  intros H. inversion H. left. simpl. tauto.
Qed.

(** A key of two segments can fail on its value only. *)
Lemma reduce_raises (conf : JsVal) (keys : list string) :
  Forall (fun key => List.length (split_colon key) = 2%nat) keys ->
  forall attrs e, reduce conf keys attrs = Throw e -> buildError e.
Proof.
  induction 1 as [|key keys Hk _ IH]; intros attrs e; [discriminate|].
  cbn [reduce]. unfold attrStep at 1.
  destruct (get conf key) as [v|e'] eqn:Hg; cbn [bindR].
  - destruct (is_undefined v); cbn [negb].
    + apply IH.
    + rewrite Hk. cbn [Nat.eqb negb].
      destruct (lookup key validators) as [pattern|] eqn:Hl.
      * destruct (test pattern (ToString v)); cbn [negb bindR]; [apply IH|].
        intros H. inversion H. right. left. eauto.
      * cbn [bindR]. apply IH.
  - intros H. inversion H. subst.
    destruct (get_throw_inv _ _ Hg) as [_ ->]. apply buildError_TypeError.
Qed.

Ltac raises_step :=
  lazymatch goal with
  | |- Raises _ (if ?b then _ else _) => destruct b
  | |- Raises _ (match ?v with _ => _ end) => destruct v
  | |- Raises _ (ret _) => apply Raises_ret
  | |- Raises _ (throw _) => apply Raises_throw; left; simpl; tauto
  | |- Raises _ (modify _) => apply Raises_modify
  | |- Raises _ (element _ _ _) => apply Raises_element
  | |- Raises _ (elementWith _ _) => apply Raises_elementWith
  | |- Raises _ (elementAtts _ _) => apply Raises_elementAtts
  | |- Raises _ (child _ _) => apply Raises_child
  | |- Raises _ (onUrl _) => apply Raises_onUrl
  | |- Raises _ (lift (get _ _)) => apply Raises_get; apply buildError_TypeError
  | |- Raises _ (lift (asArray _)) => apply Raises_lift; apply asArray_raises
  | |- Raises _ (lift (safeDuration _)) => apply Raises_lift; apply safeDuration_raises
  | |- Raises _ (lift (attrBuilder _ _)) =>
      apply Raises_lift; unfold attrBuilder; apply reduce_raises;
      repeat (apply Forall_cons; [reflexivity|]); apply Forall_nil
  | |- Raises _ (lift (dateToISOString _)) =>
      apply Raises_lift; intros ? ?; right; right; left; eauto
  | |- Raises _ (bind state _) => apply Raises_state; intros
  | |- Raises _ (bind _ _) => apply Raises_bind; [|intros]
  | |- Raises _ (whenPresent _ _ _) =>
      apply Raises_whenPresent; [apply buildError_TypeError|intros]
  | |- Raises _ (forEachOf _ _) =>
      apply Raises_forEachOf; [apply buildError_TypeError|intros]
  | |- Raises _ (forEach _ _) => apply Raises_forEach; intros
  | |- Raises _ (withChild _ _) => apply Raises_withChild
  | |- Raises _ (imageElement _) => unfold imageElement
  | |- Raises _ (linkElement _) => unfold linkElement
  | |- Raises _ (buildVideoElement _) => unfold buildVideoElement
  | |- Raises _ (buildNewsElement _) => unfold buildNewsElement
  | |- Raises _ (videoElements _) => unfold videoElements
  | |- Raises _ (newsElements _) => unfold newsElements
  end.

Lemma Raises_buildProp (p : string) : Raises buildError (buildProp p).
Proof. unfold buildProp. repeat raises_step. Qed.

Lemma Raises_loop (ps : list string) : Raises buildError (loop ps).
Proof.
  induction ps as [|p ps IH]; simpl; [apply Raises_ret|].
  apply Raises_bind; [apply Raises_buildProp|]. intros _. exact IH.
Qed.

(** X12.  What a build can throw: the errors of the video and news
    checks, the invalid-attribute-value error for a key with a
    registered pattern, a TypeError, the two errors of the tree builder
    (missing attribute value, invalid character), or an error of the
    host's date conversion or of the host's part of the builder.  None
    of the builder's own steps throws the invalid-attribute-key error
    (the keys it extracts all have two segments) or one of the three
    errors of the constructor. *)
Theorem buildXML_errors (it : SitemapItem) (e : Error) :
  fst (buildXML it) = Throw e -> buildError e.
Proof.
  rewrite buildXML_run. cbn [fst].
  destruct (fst (loop props (resetUrl it))) as [[]|e'] eqn:E; [discriminate|].
  intros H. inversion H. subst. exact (@Raises_loop props (resetUrl it) e E).
Qed.

(** *** Items without images, videos, links, expiry and news *)

(** X13.  An item without images, videos, links, expiry date and news
    whose scalar fields hold values that the tree builder takes always
    builds, and the children of the returned node are, in this order:
    location, last modification, change frequency, priority, Android
    link, mobile marker, AMP link, each present exactly when its step
    emits it; the node has no attributes. *)
Theorem plain_item_build (it : SitemapItem) :
  plainItem it = true ->
  exists node it',
    buildXML it = (Ok node, it')
    /\ name node = name (url it) /\ attributes node = []
    /\ children node
       = scalarNodes "loc" it ++ scalarNodes "lastmod" it
         ++ scalarNodes "changefreq" it ++ priorityNodes (priority it)
         ++ androidNodes it ++ mobileNodes it ++ ampNodes it.
Proof. exact (buildXML_plain it). Qed.

(** *** The scalar fields in a node that is returned *)

(** X14.  In every node that [buildXML] returns, each of the fields
    [loc], [lastmod] and [changefreq] whose value is neither an object
    nor a function has exactly one element of its name, holding the
    value as it is, when the field is truthy (an unvalidated change
    frequency of a [safe] item included), and none otherwise.  Such a
    location is the first child, and it is raw markup instead of text
    when the configuration sets [cdata]. *)
Theorem scalar_fields_emitted_once (it it' : SitemapItem) (node : XMLElement) :
  buildXML it = (Ok node, it') ->
  (forall t, In t ["loc"; "lastmod"; "changefreq"] ->
     typeof (this t it) <> "object" -> typeof (this t it) <> "function" ->
     filter (named t) (children node) = scalarNodes t it)
  /\ (typeof (loc it) <> "object" -> typeof (loc it) <> "function" ->
      exists rest,
        children node = scalarNodes "loc" it ++ rest
        /\ Forall (fun n => named "loc" n = false) rest).
Proof.
  intros Hb.
  assert (Hstep : forall t, In t ["loc"; "lastmod"; "changefreq"] ->
                    forall s s', sameFields it s -> buildProp t s = (Ok tt, s') ->
                                 s' = withNodes (scalarNodes t it) s).
  { intros t Ht s s' F Hs. rewrite (@buildProp_scalar_ok t s s' Ht Hs).
    unfold scalarNodes.
    assert (Hv : this t s = this t it).
    { unfold sameFields in F. decompose [and] F.
      simpl in Ht. destruct Ht as [<-|[<-|[<-|[]]]]; cbn; assumption. }
    assert (Hc : conf s = conf it) by (apply F).
    rewrite Hv, Hc. reflexivity. }
  assert (Hin : forall t, In t ["loc"; "lastmod"; "changefreq"] ->
                  In t ["loc"; "lastmod"; "changefreq"; "priority"]).
  { intros t Ht. simpl in Ht |- *. tauto. }
  split.
  - intros t Ht _ _.
    assert (S : exists pre post,
               props = pre ++ t :: post
               /\ (forall p, In p pre \/ In p post -> String.eqb p t = false)).
    { simpl in Ht. destruct Ht as [<-|[<-|[<-|[]]]].
      - exists [], (tl props). split; [reflexivity|].
        intros p [[]|Hp]. simpl in Hp.
        repeat (destruct Hp as [<-|Hp]; [reflexivity|]). destruct Hp.
      - exists ["loc"], (tl (tl props)). split; [reflexivity|].
        intros p [Hp|Hp]; simpl in Hp;
          repeat (destruct Hp as [<-|Hp]; [reflexivity|]); destruct Hp.
      - exists ["loc"; "lastmod"], (tl (tl (tl props))). split; [reflexivity|].
        intros p [Hp|Hp]; simpl in Hp;
          repeat (destruct Hp as [<-|Hp]; [reflexivity|]); destruct Hp. }
    destruct S as (pre & post & Hprops & Hother).
    destruct (@built_children_split t pre post it it' node (scalarNodes t it)
                (Hin t Ht) Hprops Hother (Hstep t Ht) Hb)
      as (before & after & Hc & Pb & Pa & _).
    rewrite Hc, !filter_app, (@filter_unnamed t before Pb), (@filter_unnamed t after Pa).
    rewrite filter_scalarNodes, app_nil_r. reflexivity.
  - intros _ _.
    assert (Hl : In "loc" ["loc"; "lastmod"; "changefreq"]) by (simpl; tauto).
    destruct (@built_children_split "loc" [] (tl props) it it' node (scalarNodes "loc" it)
                (Hin _ Hl) eq_refl) as (before & after & Hc & _ & Pa & Hbf).
    + intros p [[]|Hp]. simpl in Hp.
      repeat (destruct Hp as [<-|Hp]; [reflexivity|]). destruct Hp.
    + exact (Hstep "loc" Hl).
    + exact Hb.
    + exists after. rewrite Hc, (Hbf eq_refl). split; [reflexivity|exact Pa].
Qed.

(** *** Repeated builds and the fields of the item *)

(** X15.  A build can be repeated: run again on the item that a build
    has left, [buildXML] returns what it returned the first time, be it
    a node or an error, and leaves the same item node; nothing
    accumulates from one build to the next. *)
Theorem build_is_repeatable (it : SitemapItem) :
  fst (buildXML (snd (buildXML it))) = fst (buildXML it)
  /\ url (snd (buildXML (snd (buildXML it)))) = url (snd (buildXML it)).
Proof. exact (buildXML_twice it). Qed.

Lemma loop_keeps_img (ps : list string) (s : SitemapItem) :
  (forall p, In p ps -> String.eqb p "img" = false) ->
  img (snd (loop ps s)) = img s.
Proof.
  revert s. induction ps as [|p ps IH]; intros s H; [reflexivity|].
  rewrite loop_cons. unfold bind.
  pose proof (@Keeps_img_buildProp p (H p (or_introl eq_refl)) s) as K.
  destruct (buildProp p s) as [[[]|e] s1]; cbn [snd] in K |- *.
  - rewrite IH; [exact K|]. intros q Hq. apply H. right. exact Hq.
  - exact K.
Qed.

Lemma loop_keeps_video (ps : list string) (s : SitemapItem) :
  (forall p, In p ps -> String.eqb p "video" = false) ->
  video (snd (loop ps s)) = video s.
Proof.
  revert s. induction ps as [|p ps IH]; intros s H; [reflexivity|].
  rewrite loop_cons. unfold bind.
  pose proof (@Keeps_video_buildProp p (H p (or_introl eq_refl)) s) as K.
  destruct (buildProp p s) as [[[]|e] s1]; cbn [snd] in K |- *.
  - rewrite IH; [exact K|]. intros q Hq. apply H. right. exact Hq.
  - exact K.
Qed.

(** Whatever the loop does, the image field holds the value it had or
    the arrayed form of it; likewise the video field. *)
Lemma loop_img_cases (ps : list string) (s : SitemapItem) :
  img (snd (loop ps s)) = img s \/ img (snd (loop ps s)) = arrayed (img s).
Proof.
  revert s. induction ps as [|p ps IH]; intros s; [left; reflexivity|].
  rewrite loop_cons. unfold bind.
  assert (Hp : img (snd (buildProp p s)) = img s
               \/ img (snd (buildProp p s)) = arrayed (img s)).
  { destruct (String.eqb p "img") eqn:E.
    - apply String.eqb_eq in E. subst p. right. apply buildProp_img_arrayed.
    - left. exact (@Keeps_img_buildProp p E s). }
  destruct (buildProp p s) as [[[]|e] s1]; cbn [snd] in Hp |- *; [|exact Hp].
  destruct (IH s1) as [H|H]; rewrite H; destruct Hp as [Hp|Hp]; rewrite Hp; auto.
  right. apply arrayed_idem.
Qed.

Lemma loop_video_cases (ps : list string) (s : SitemapItem) :
  video (snd (loop ps s)) = video s \/ video (snd (loop ps s)) = arrayed (video s).
Proof.
  revert s. induction ps as [|p ps IH]; intros s; [left; reflexivity|].
  rewrite loop_cons. unfold bind.
  assert (Hp : video (snd (buildProp p s)) = video s
               \/ video (snd (buildProp p s)) = arrayed (video s)).
  { destruct (String.eqb p "video") eqn:E.
    - apply String.eqb_eq in E. subst p. right. apply buildProp_video_arrayed.
    - left. exact (@Keeps_video_buildProp p E s). }
  destruct (buildProp p s) as [[[]|e] s1]; cbn [snd] in Hp |- *; [|exact Hp].
  destruct (IH s1) as [H|H]; rewrite H; destruct Hp as [Hp|Hp]; rewrite Hp; auto.
  right. apply arrayed_idem.
Qed.

(** X16.  A build changes the item in two fields only, besides the item
    node.  Whether it returns or throws, [img] and [video] are left
    holding the value they had or its arrayed form, and every other
    field keeps its value; a build that returns a node has left both in
    arrayed form: a truthy value that is not array-like is replaced by
    the one-element array that holds it, an array and a falsy value stay
    as they are. *)
Theorem build_wraps_images_in_place (it : SitemapItem) :
  sameFields it (snd (buildXML it))
  /\ (img (snd (buildXML it)) = img it \/ img (snd (buildXML it)) = arrayed (img it))
  /\ (video (snd (buildXML it)) = video it
      \/ video (snd (buildXML it)) = arrayed (video it))
  /\ (forall node it',
        buildXML it = (Ok node, it') ->
        img it' = arrayed (img it) /\ video it' = arrayed (video it))
  /\ (forall l, arrayed (JArr l) = JArr l)
  /\ (forall v, truthy v = true -> typeof v <> "object" -> arrayed v = JArr [v])
  /\ (forall o, lookup "length" o = None -> arrayed (JObj o) = JArr [JObj o])
  /\ (forall v, truthy v = false -> arrayed v = v).
Proof.
  split; [apply buildXML_sameFields|].
  split; [rewrite buildXML_run; cbn [snd]; exact (loop_img_cases props (resetUrl it))|].
  split; [rewrite buildXML_run; cbn [snd]; exact (loop_video_cases props (resetUrl it))|].
  split; [|split; [|split; [|split]]].
  - intros node it' Hb. destruct (@buildXML_ok it it' node Hb) as [L _]. split.
    + change props with (["loc"; "lastmod"; "changefreq"; "priority"]
                           ++ "img" :: ["video"; "links"; "expires"; "androidLink";
                                        "mobile"; "news"; "ampLink"]) in L.
      destruct (@loop_split_ok _ _ _ _ _ L) as (it1 & it2 & L1 & L2 & L3).
      replace it' with (snd (loop ["video"; "links"; "expires"; "androidLink";
                                   "mobile"; "news"; "ampLink"] it2))
        by (rewrite L3; reflexivity).
      rewrite loop_keeps_img.
      2:{ intros p Hp. simpl in Hp.
          repeat (destruct Hp as [<-|Hp]; [reflexivity|]). destruct Hp. }
      replace it2 with (snd (buildProp "img" it1)) by (rewrite L2; reflexivity).
      rewrite buildProp_img_arrayed.
      replace it1 with (snd (loop ["loc"; "lastmod"; "changefreq"; "priority"]
                               (resetUrl it)))
        by (rewrite L1; reflexivity).
      rewrite loop_keeps_img; [reflexivity|].
      intros p Hp. simpl in Hp.
      repeat (destruct Hp as [<-|Hp]; [reflexivity|]). destruct Hp.
    + change props with (["loc"; "lastmod"; "changefreq"; "priority"; "img"]
                           ++ "video" :: ["links"; "expires"; "androidLink";
                                          "mobile"; "news"; "ampLink"]) in L.
      destruct (@loop_split_ok _ _ _ _ _ L) as (it1 & it2 & L1 & L2 & L3).
      replace it' with (snd (loop ["links"; "expires"; "androidLink";
                                   "mobile"; "news"; "ampLink"] it2))
        by (rewrite L3; reflexivity).
      rewrite loop_keeps_video.
      2:{ intros p Hp. simpl in Hp.
          repeat (destruct Hp as [<-|Hp]; [reflexivity|]). destruct Hp. }
      replace it2 with (snd (buildProp "video" it1)) by (rewrite L2; reflexivity).
      rewrite buildProp_video_arrayed.
      replace it1 with (snd (loop ["loc"; "lastmod"; "changefreq"; "priority"; "img"]
                               (resetUrl it)))
        by (rewrite L1; reflexivity).
      rewrite loop_keeps_video; [reflexivity|].
      intros p Hp. simpl in Hp.
      repeat (destruct Hp as [<-|Hp]; [reflexivity|]). destruct Hp.
  - intros l. reflexivity.
  - intros v Hv Ht. unfold arrayed, asArray. rewrite Hv.
    destruct (String.eqb (typeof v) "object") eqn:E; [|reflexivity].
    apply String.eqb_eq in E. contradiction.
  - intros o Hl. unfold arrayed, asArray, get, prop. cbn [truthy typeof].
    rewrite Hl. reflexivity.
  - intros v Hv. unfold arrayed. rewrite Hv. reflexivity.
Qed.

(** *** The checks at the head of the video builder *)

(** X17.  A video that is not an object, or that is an object without
    a truthy thumbnail, title or description, fails with the
    invalid-video-format error, and the [video:video] child that the
    builder had opened stays in the item node, empty; a [null] entry
    fails with a TypeError instead, its type being [object]. *)
Theorem video_format_failures (video : JsVal) (it : SitemapItem) :
  (typeof video <> "object"
   \/ (typeof video = "object" /\ video <> JNull
       /\ exists k, In k ["thumbnail_loc"; "title"; "description"]
                    /\ truthy (field video k) = false) ->
   exists it',
     buildVideoElement video it = (Throw InvalidVideoFormat, it')
     /\ children (url it') = children (url it) ++ [Element "video:video" [] []])
  /\ (video = JNull -> fst (buildVideoElement video it) = Throw TypeError).
Proof.
  unfold buildVideoElement. rewrite withChild_run. split.
  - intros H. eexists.
    assert (R : videoElements video [] = (Throw InvalidVideoFormat, [])).
    { unfold videoElements. destruct H as [H|(Ht & Hn & k & Hk & Hf)].
      - apply String.eqb_neq in H. rewrite H. reflexivity.
      - rewrite Ht. cbn [String.eqb Ascii.eqb Bool.eqb negb].
        destruct (@get_object video "thumbnail_loc" Ht Hn) as [t Gt].
        destruct (@get_object video "title" Ht Hn) as [ti Gti].
        destruct (@get_object video "description" Ht Hn) as [d Gd].
        unfold field in Hf. simpl in Hk.
        rewrite Gt, bind_lift_Ok. cbv beta.
        destruct (truthy t) eqn:Tt; cbn [negb]; [|reflexivity].
        rewrite Gti, bind_lift_Ok. cbv beta.
        destruct (truthy ti) eqn:Tti; cbn [negb]; [|reflexivity].
        rewrite Gd, bind_lift_Ok. cbv beta.
        destruct (truthy d) eqn:Td; cbn [negb]; [|reflexivity].
        exfalso. destruct Hk as [<-|[<-|[<-|[]]]].
        + rewrite Gt in Hf. congruence.
        + rewrite Gti in Hf. congruence.
        + rewrite Gd in Hf. congruence. }
    rewrite R. split; reflexivity.
  - intros ->. reflexivity.
Qed.

Lemma Qle_bool_inject_Z (a b : Z) : Qle_bool (inject_Z a) (inject_Z b) = (a <=? b)%Z.
Proof.
  destruct (a <=? b)%Z eqn:E.
  - apply Qle_bool_iff. rewrite <- Zle_Qle. apply Z.leb_le. exact E.
  - destruct (Qle_bool (inject_Z a) (inject_Z b)) eqn:F; [|reflexivity].
    apply Qle_bool_iff in F. rewrite <- Zle_Qle in F. apply Z.leb_le in F. congruence.
Qed.

(** X18.  The bound on the description of a video.  For a video with a
    thumbnail, a title and a string as description: a description of
    more than 2048 characters makes the video builder fail with the
    invalid-video-description error; with one of 2048 characters or
    fewer the builder succeeds, when the video holds only values that
    the tree builder takes, its attributes pass the extractor and its
    duration is unset or accepted. *)
Theorem video_description_bound (video thumbnail_loc title : JsVal) (d : string)
        (it : SitemapItem) :
  typeof video = "object" ->
  get video "thumbnail_loc" = Ok thumbnail_loc -> truthy thumbnail_loc = true ->
  get video "title" = Ok title -> truthy title = true ->
  get video "description" = Ok (JStr d) -> d <> "" ->
  ((2048 < String.length d)%nat ->
   fst (buildVideoElement video it) = Throw InvalidVideoDescription)
  /\ ((String.length d <= 2048)%nat ->
      videoTakes video = true -> videoAttrsOk video ->
      truthy (field video "duration") = false
      \/ (exists r, safeDuration (field video "duration") = Ok r) ->
      exists it', buildVideoElement video it = (Ok tt, it')).
Proof.
  intros Hty Gt Tt Gti Tti Gd Hd.
  assert (Td : truthy (JStr d) = true).
  { cbn [truthy]. destruct (String.eqb d "") eqn:E; [|reflexivity].
    apply String.eqb_eq in E. contradiction. }
  assert (L : js_gt (JNum (Fin (inject_Z (Z.of_nat (String.length d)))))
                    (Fin (inject_Z 2048))
              = negb (Z.of_nat (String.length d) <=? 2048)%Z).
  { unfold js_gt, num_gt, num_lt. cbn [ToNumber]. rewrite Qle_bool_inject_Z. reflexivity. }
  split.
  - intros Hlen. unfold buildVideoElement. rewrite withChild_run. cbn [fst].
    unfold videoElements. rewrite Hty. cbn [String.eqb Ascii.eqb Bool.eqb negb].
    rewrite Gt, bind_lift_Ok. cbv beta. rewrite Tt. cbn [negb].
    rewrite Gti, bind_lift_Ok. cbv beta. rewrite Tti. cbn [negb].
    rewrite Gd, !bind_lift_Ok. cbv beta. rewrite Td. cbn [negb].
    rewrite bind_ret. cbv beta iota.
    change (get (JStr d) "length")
      with (Ok (JNum (Fin (inject_Z (Z.of_nat (String.length d)))))).
    rewrite bind_lift_Ok. cbv beta. rewrite L.
    replace (Z.of_nat (String.length d) <=? 2048)%Z with false
      by (symmetry; apply Z.leb_gt; lia).
    reflexivity.
  - intros Hlen Htakes Hattrs Hdur.
    assert (Hf : videoFormatOk video).
    { split; [exact Hty|].
      exists thumbnail_loc, title, (JStr d),
        (JNum (Fin (inject_Z (Z.of_nat (String.length d))))).
      repeat (split; [assumption|]). split; [reflexivity|].
      rewrite L. replace (Z.of_nat (String.length d) <=? 2048)%Z with true
        by (symmetry; apply Z.leb_le; lia).
      reflexivity. }
    destruct (videoElements_run Hf Htakes) as (autoplay & rest & _ & Hs & Hrun).
    cbv zeta in Hrun. destruct (Hs Hattrs) as [l Hl].
    unfold buildVideoElement. rewrite withChild_run, Hrun.
    destruct (truthy (field video "duration")) eqn:Tdur.
    + destruct Hdur as [Hdur|[r Hr]]; [discriminate|].
      rewrite Hr, Hl. eexists. reflexivity.
    + rewrite Hl. eexists. reflexivity.
Qed.

(** *** Videos with a tag *)

Ltac absent H k :=
  let v := fresh "v" in
  let G := fresh "G" in
  let T := fresh "T" in
  destruct (H k) as (v & G & T); [simpl; tauto|].

(** X19.  A video that passes the checks and has none of its optional
    fields set, the tag apart, and whose thumbnail, title, description
    and tags are values that the tree builder takes, builds into a
    [video:video] child that holds the thumbnail as text, the title and
    the description as CDATA, and then the tags: none for a falsy tag,
    one element for a scalar tag, one element for each entry of an
    array, in the order of the array. *)
Theorem video_required_fields_and_tags
        (video thumbnail_loc title description len tag : JsVal) (it : SitemapItem) :
  typeof video = "object" ->
  get video "thumbnail_loc" = Ok thumbnail_loc -> plain thumbnail_loc = true ->
  get video "title" = Ok title -> plain title = true ->
  get video "description" = Ok description -> plain description = true ->
  get description "length" = Ok len -> js_gt len (Fin (inject_Z 2048)) = false ->
  get video "tag" = Ok tag -> plainTags tag = true ->
  (forall k,
      In k [ "content_loc"; "player_loc"; "duration"; "expiration_date"; "rating";
             "view_count"; "publication_date"; "family_friendly"; "category";
             "restriction"; "gallery_loc"; "price"; "requires_subscription";
             "uploader"; "platform"; "live" ] ->
      exists v, get video k = Ok v /\ truthy v = false) ->
  exists it',
    buildVideoElement video it = (Ok tt, it')
    /\ children (url it')
       = children (url it)
         ++ [Element "video:video" []
               ([ Element "video:thumbnail_loc" [] [Text thumbnail_loc];
                  Element "video:title" [] [CData title];
                  Element "video:description" [] [CData description] ]
                ++ tagNodes tag)].
Proof.
  intros Hty Gt Pt Gti Pti Gd Pd Gl Hl Gtag Ptag Hopt.
  assert (Tr : forall v, plain v = true -> truthy v = true).
  { intros v H. unfold plain in H. apply andb_true_iff in H. apply H. }
  pose proof (Tr _ Pt) as Tt. pose proof (Tr _ Pti) as Tti. pose proof (Tr _ Pd) as Td.
  absent Hopt "content_loc". absent Hopt "player_loc". absent Hopt "duration".
  absent Hopt "expiration_date". absent Hopt "rating". absent Hopt "view_count".
  absent Hopt "publication_date". absent Hopt "family_friendly".
  absent Hopt "category". absent Hopt "restriction". absent Hopt "gallery_loc".
  absent Hopt "price". absent Hopt "requires_subscription". absent Hopt "uploader".
  absent Hopt "platform". absent Hopt "live".
  pose proof (field_of_get _ _ Gtag) as Etag.
  assert (E1 : Emits (element "video:thumbnail_loc" [] [Text thumbnail_loc])
                 [Element "video:thumbnail_loc" [] [Text thumbnail_loc]]).
  { apply element_plain; [reflexivity|].
    unfold plainContent. cbn [forallb]. rewrite Pt. reflexivity. }
  assert (E2 : Emits (elementWith "video:title" (CData title))
                 [Element "video:title" [] [CData title]]).
  { apply elementWith_plain. unfold plainContent. cbn [forallb]. rewrite Pti. reflexivity. }
  assert (E3 : Emits (elementWith "video:description" (CData description))
                 [Element "video:description" [] [CData description]]).
  { apply elementWith_plain. unfold plainContent. cbn [forallb]. rewrite Pd. reflexivity. }
  assert (E4 : Emits (whenPresent video "tag" (fun tag =>
                        match tag with
                        | JArr tags =>
                            forEach (fun tag => element "video:tag" [] [Text tag]) tags
                        | _ => element "video:tag" [] [Text tag]
                        end))
                 (tagNodes tag)).
  { rewrite <- Etag. apply Emits_tag; rewrite Etag; assumption. }
  assert (R : videoElements video []
              = (Ok tt,
                 [ Element "video:thumbnail_loc" [] [Text thumbnail_loc];
                   Element "video:title" [] [CData title];
                   Element "video:description" [] [CData description] ]
                 ++ tagNodes tag)).
  { unfold videoElements. exec. step E1. step E2. step E3. exec. step E4. exec.
    (erewrite whenPresent_absent by eassumption). reflexivity. }
  eexists. unfold buildVideoElement. rewrite withChild_run, R.
  split; reflexivity.
Qed.

(** *** News *)

Lemma plain_truthy (v : JsVal) : plain v = true -> truthy v = true.
Proof. unfold plain. intros H. apply andb_true_iff in H. apply H. Qed.

Lemma Emits_textOf (v : JsVal) (nm : string) :
  plain v = true -> Emits (element nm [] [Text v]) [Element nm [] [Text v]].
Proof.
  intros P. apply element_plain; [reflexivity|].
  unfold plainContent. cbn [forallb]. rewrite P. reflexivity.
Qed.

Lemma Emits_cdataOf (v : JsVal) (nm : string) :
  plain v = true -> Emits (elementWith nm (CData v)) [Element nm [] [CData v]].
Proof.
  intros P. apply elementWith_plain.
  unfold plainContent. cbn [forallb]. rewrite P. reflexivity.
Qed.

Lemma Emits_optional (o : JsVal) (k nm : string) (v : JsVal) :
  get o k = Ok v -> falsyOrPlain v = true ->
  Emits (whenPresent o k (fun v => element nm [] [Text v]))
        (whenTruthy v [Element nm [] [Text v]]).
Proof.
  intros G P. eapply Emits_whenPresent; [exact G|]. intros T.
  apply Emits_textOf. exact (falsyOrPlain_truthy _ P T).
Qed.

(** An access value that passes the check is one of the two words. *)
Lemma access_plain (access : JsVal) :
  differs access "Registration" && differs access "Subscription" = false ->
  plain access = true.
Proof.
  destruct access; try discriminate. cbn [differs]. intros H.
  apply andb_false_iff in H. destruct H as [H|H];
    apply negb_false_iff in H; apply String.eqb_eq in H; subst; reflexivity.
Qed.

(** X20.  News with a publication name and language, a date and a
    title, holding values that the tree builder takes: when its access
    value is truthy and is neither [Registration] nor [Subscription],
    the build fails with the invalid-news-access error and the
    [news:news] child is left holding the publication only; otherwise
    the child holds the publication (name as CDATA, then language), the
    access and the genres when truthy, the date, the title as CDATA, and
    the keywords and the stock tickers when truthy, in this order. *)
Theorem news_assembly
        (news publication name language date title access genres keywords tickers : JsVal)
        (it : SitemapItem) :
  get news "publication" = Ok publication -> truthy publication = true ->
  get publication "name" = Ok name -> plain name = true ->
  get publication "language" = Ok language -> plain language = true ->
  get news "publication_date" = Ok date -> plain date = true ->
  get news "title" = Ok title -> plain title = true ->
  get news "access" = Ok access ->
  get news "genres" = Ok genres -> falsyOrPlain genres = true ->
  get news "keywords" = Ok keywords -> falsyOrPlain keywords = true ->
  get news "stock_tickers" = Ok tickers -> falsyOrPlain tickers = true ->
  let publicationNode :=
    Element "news:publication" []
      [ Element "news:name" [] [CData name];
        Element "news:language" [] [Text language] ] in
  exists it',
    buildNewsElement news it
    = (if truthy access && differs access "Registration" && differs access "Subscription"
       then Throw InvalidNewsAccessValue else Ok tt, it')
    /\ children (url it')
       = children (url it)
         ++ [Element "news:news" []
               (if truthy access && differs access "Registration"
                   && differs access "Subscription"
                then [publicationNode]
                else [publicationNode]
                     ++ whenTruthy access [Element "news:access" [] [Text access]]
                     ++ whenTruthy genres [Element "news:genres" [] [Text genres]]
                     ++ [ Element "news:publication_date" [] [Text date];
                          Element "news:title" [] [CData title] ]
                     ++ whenTruthy keywords [Element "news:keywords" [] [Text keywords]]
                     ++ whenTruthy tickers
                          [Element "news:stock_tickers" [] [Text tickers]])].
Proof.
  intros Gp Tp Gn Pn Gl Pl Gd Pd Gt Pt Ga Gg Pg Gk Pk Gs Ps publicationNode.
  pose proof (plain_truthy _ Pn) as Tn. pose proof (plain_truthy _ Pl) as Tl.
  pose proof (plain_truthy _ Pd) as Td. pose proof (plain_truthy _ Pt) as Tt.
  assert (Epub : Emits (child "news:publication"
                          (bind (whenPresent publication "name" (fun name =>
                                   elementWith "news:name" (CData name)))
                                (fun _ =>
                                   whenPresent publication "language" (fun language =>
                                     element "news:language" [] [Text language]))))
                   [publicationNode]).
  { apply Emits_child.
    apply (@Emits_bind _ _ [Element "news:name" [] [CData name]]
             [Element "news:language" [] [Text language]]).
    - intros s. unfold whenPresent. rewrite Gn, bind_lift_Ok. cbv beta. rewrite Tn.
      exact (@Emits_cdataOf name "news:name" Pn s).
    - intros s. unfold whenPresent. rewrite Gl, bind_lift_Ok. cbv beta. rewrite Tl.
      exact (@Emits_textOf language "news:language" Pl s). }
  pose proof (@Emits_optional news "genres" "news:genres" genres Gg Pg) as Egenres.
  pose proof (@Emits_optional news "keywords" "news:keywords" keywords Gk Pk) as Ekeywords.
  pose proof (@Emits_optional news "stock_tickers" "news:stock_tickers" tickers Gs Ps)
    as Etickers.
  pose proof (@Emits_textOf date "news:publication_date" Pd) as Edate.
  pose proof (@Emits_cdataOf title "news:title" Pt) as Etitle.
  assert (R : newsElements news []
              = (if truthy access && differs access "Registration"
                    && differs access "Subscription"
                 then Throw InvalidNewsAccessValue else Ok tt,
                 if truthy access && differs access "Registration"
                    && differs access "Subscription"
                 then [publicationNode]
                 else [publicationNode]
                      ++ whenTruthy access [Element "news:access" [] [Text access]]
                      ++ whenTruthy genres [Element "news:genres" [] [Text genres]]
                      ++ [ Element "news:publication_date" [] [Text date];
                           Element "news:title" [] [CData title] ]
                      ++ whenTruthy keywords [Element "news:keywords" [] [Text keywords]]
                      ++ whenTruthy tickers
                           [Element "news:stock_tickers" [] [Text tickers]])).
  { unfold newsElements. exec. step Epub.
    destruct (truthy access) eqn:Ta; cbn [andb]; exec.
    - destruct (differs access "Registration" && differs access "Subscription") eqn:Da.
      + reflexivity.
      + step (@Emits_textOf access "news:access" (@access_plain access Da)).
        step Egenres. exec. step Edate. exec. step Etitle. step Ekeywords.
        rewrite (Etickers _). unfold whenTruthy. rewrite Ta.
        repeat rewrite <- app_assoc. reflexivity.
    - step Egenres. exec. step Edate. exec. step Etitle. step Ekeywords.
      rewrite (Etickers _). unfold whenTruthy. rewrite Ta.
      repeat rewrite <- app_assoc. reflexivity. }
  eexists. unfold buildNewsElement. rewrite withChild_run, R. split; reflexivity.
Qed.

(** *** Links and images *)

(** A [forEach] whose callback succeeds on each entry and appends one
    node for it. *)
Lemma forEach_nodes (f : JsVal -> Build SitemapItem unit) (node : JsVal -> XMLNode)
      (l : list JsVal) :
  (forall x, In x l -> forall s, f x s = (Ok tt, withNodes [node x] s)) ->
  forall s, forEach f l s = (Ok tt, withNodes (map node l) s).
Proof.
  induction l as [|x l IH]; intros H s.
  - cbn [forEach map]. rewrite withNodes_nil. reflexivity.
  - cbn [forEach map]. unfold bind. rewrite (H x (or_introl eq_refl) s).
    rewrite (IH (fun y Hy => H y (or_intror Hy))), withNodes_app. reflexivity.
Qed.

(** A [forEach] stops at the first entry on which its callback throws. *)
Lemma forEach_abort {S : Type} (f : JsVal -> Build S unit) (l1 : list JsVal) (x : JsVal)
      (l2 : list JsVal) (s s1 s2 : S) (e : Error) :
  forEach f l1 s = (Ok tt, s1) -> f x s1 = (Throw e, s2) ->
  forEach f (l1 ++ x :: l2) s = (Throw e, s2).
Proof.
  revert s. induction l1 as [|y l1 IH]; intros s H1 H2.
  - cbn [forEach] in H1. inversion H1. subst s1.
    cbn [app forEach]. unfold bind. rewrite H2. reflexivity.
  - cbn [app forEach] in H1 |- *. unfold bind in H1 |- *.
    destruct (f y s) as [[[]|e'] s']; [|discriminate].
    exact (IH s' H1 H2).
Qed.

Lemma linkTakes_inv (link : JsVal) :
  linkTakes link = true ->
  link <> JUndefined /\ link <> JNull
  /\ plain (field link "lang") = true /\ plain (field link "url") = true.
Proof.
  unfold linkTakes. intros H. apply andb_true_iff in H. destruct H as [H1 H2].
  repeat split; try assumption; intros ->; discriminate H1.
Qed.

Lemma linkElement_takes (link : JsVal) (s : SitemapItem) :
  linkTakes link = true -> linkElement link s = (Ok tt, withNodes [linkNode link] s).
Proof.
  intros H. destruct (linkTakes_inv link H) as (Hu & Hn & Pl & Pu).
  unfold linkElement, linkNode.
  rewrite (@field_get link "lang" Hu Hn), bind_lift_Ok.
  rewrite (@field_get link "url" Hu Hn), bind_lift_Ok.
  apply onUrl_emits. apply elementAtts_plain.
  unfold plainAttributes. cbn [forallb snd]. rewrite Pl, Pu. reflexivity.
Qed.

(** A link whose language is missing, or whose language is plain and
    whose target is missing, is refused. *)
Lemma linkElement_refused (link : JsVal) (s : SitemapItem) :
  link <> JUndefined -> link <> JNull ->
  field link "lang" = JUndefined \/ field link "lang" = JNull
  \/ (plain (field link "lang") = true
      /\ (field link "url" = JUndefined \/ field link "url" = JNull)) ->
  fst (linkElement link s) = Throw MissingAttributeValue.
Proof.
  intros Hu Hn H. unfold linkElement.
  rewrite (@field_get link "lang" Hu Hn), bind_lift_Ok.
  rewrite (@field_get link "url" Hu Hn), bind_lift_Ok.
  rewrite onUrl_run, elementAtts_run. cbn [fst setAttributes].
  rewrite (@plain_refusal AsAttribute (JStr "alternate") eq_refl).
  destruct H as [H|[H|[Pl [H|H]]]].
  - rewrite H. reflexivity.
  - rewrite H. reflexivity.
  - rewrite (@plain_refusal AsAttribute _ Pl), H. reflexivity.
  - rewrite (@plain_refusal AsAttribute _ Pl), H. reflexivity.
Qed.

Lemma buildProp_links (it : SitemapItem) :
  truthy (links it) = true -> buildProp "links" it = forEachOf (links it) linkElement it.
Proof.
  intros T. unfold buildProp. rewrite bind_state_run. cbv beta zeta.
  cbn [String.eqb Ascii.eqb Bool.eqb this]. rewrite T. reflexivity.
Qed.

(** X21.  The links step.  For an array of links each of which has a
    language and a target that the tree builder takes, it appends one
    [xhtml:link] element for each entry, in the order of the array, with
    [rel] fixed to [alternate] and [hreflang] and [href] read from the
    entry (an empty array adds nothing).  An entry that is an object
    without a language, or with a language and without a target, after
    entries that are taken, makes the step fail with the
    missing-attribute-value error of the tree builder.  A truthy value
    that is not an array makes the step fail with a TypeError. *)
Theorem links_step (it : SitemapItem) :
  (forall ls,
      links it = JArr ls ->
      Forall (fun l => linkTakes l = true) ls ->
      exists it',
        buildProp "links" it = (Ok tt, it')
        /\ children (url it') = children (url it) ++ map linkNode ls)
  /\ (forall ls link rest,
        links it = JArr (ls ++ link :: rest) ->
        Forall (fun l => linkTakes l = true) ls ->
        link <> JUndefined -> link <> JNull ->
        field link "lang" = JUndefined \/ field link "lang" = JNull
        \/ (plain (field link "lang") = true
            /\ (field link "url" = JUndefined \/ field link "url" = JNull)) ->
        fst (buildProp "links" it) = Throw MissingAttributeValue)
  /\ (truthy (links it) = true -> (forall ls, links it <> JArr ls) ->
      buildProp "links" it = (Throw TypeError, it)).
Proof.
  assert (Hrun : forall ls s, Forall (fun l => linkTakes l = true) ls ->
                   forEach linkElement ls s = (Ok tt, withNodes (map linkNode ls) s)).
  { intros ls s Hf. apply forEach_nodes. intros x Hx s'.
    rewrite Forall_forall in Hf. apply linkElement_takes. exact (Hf x Hx). }
  split; [|split].
  - intros ls Hl Hf. rewrite buildProp_links by (rewrite Hl; reflexivity).
    rewrite Hl. cbn [forEachOf]. rewrite (Hrun ls it Hf).
    eexists. split; reflexivity.
  - intros ls link rest Hl Hf Hu Hn Hm.
    rewrite buildProp_links by (rewrite Hl; reflexivity).
    rewrite Hl. cbn [forEachOf].
    pose proof (@linkElement_refused link (withNodes (map linkNode ls) it) Hu Hn Hm) as R.
    destruct (linkElement link (withNodes (map linkNode ls) it)) as [r s2] eqn:E.
    cbn [fst] in R. subst r.
    rewrite (@forEach_abort _ linkElement ls link rest it _ s2 _ (Hrun ls it Hf) E).
    reflexivity.
  - intros Ht Hn. rewrite buildProp_links by exact Ht.
    destruct (links it) eqn:E; try reflexivity.
    exfalso. exact (Hn items eq_refl).
Qed.

Lemma imageTakes_inv (image : JsVal) :
  imageTakes image = true ->
  image <> JUndefined /\ image <> JNull
  /\ (negb (String.eqb (typeof image) "object") = true -> plain image = true)
  /\ (negb (String.eqb (typeof image) "object") = false ->
      falsyOrPlain (field image "url") = true)
  /\ (forall k, In k ["caption"; "geoLocation"; "title"; "license"] ->
                falsyOrPlain (field image k) = true).
Proof.
  unfold imageTakes. intros H. apply andb_true_iff in H. destruct H as [H1 H2].
  split; [|split; [|split; [|split]]].
  - intros ->. discriminate H1.
  - intros ->. discriminate H1.
  - intros E. rewrite E in H1. exact H1.
  - intros E. rewrite E in H1. destruct image; try discriminate H1; exact H1.
  - intros k Hk. rewrite forallb_forall in H2. exact (H2 k Hk).
Qed.

Lemma imageElement_takes (image : JsVal) (s : SitemapItem) :
  imageTakes image = true ->
  imageElement image s = (Ok tt, withNodes [imageNode image] s).
Proof.
  intros H. destruct (imageTakes_inv image H) as (Hu & Hn & Hprim & Hobj & Hrest).
  assert (P : forall k, In k ["caption"; "geoLocation"; "title"; "license"] ->
                truthy (field image k) = true -> plain (field image k) = true).
  { intros k Hk T. apply falsyOrPlain_truthy; [|exact T]. exact (Hrest k Hk). }
  unfold imageElement, imageNode.
  assert (E : bind (if negb (String.eqb (typeof image) "object")
                    then ret (Some image)
                    else bind (lift (get image "url"))
                           (fun u => ret (if truthy u then Some u else None)))
              = fun g : option JsVal -> Build SitemapItem unit =>
                  g (if negb (String.eqb (typeof image) "object")
                     then Some image
                     else if truthy (field image "url")
                          then Some (field image "url") else None)).
  { destruct (negb (String.eqb (typeof image) "object")); [reflexivity|].
    rewrite (@field_get image "url" Hu Hn). reflexivity. }
  rewrite E.
  rewrite (@field_get image "caption" Hu Hn), bind_lift_Ok.
  rewrite (@field_get image "geoLocation" Hu Hn), bind_lift_Ok.
  rewrite (@field_get image "title" Hu Hn), bind_lift_Ok.
  rewrite (@field_get image "license" Hu Hn), bind_lift_Ok.
  apply withChild_emits.
  apply Emits_bind.
  - destruct (negb (String.eqb (typeof image) "object")) eqn:Ety.
    + apply Emits_textOf. exact (Hprim eq_refl).
    + unfold whenTruthy. destruct (truthy (field image "url")) eqn:Tu.
      * apply Emits_textOf. apply falsyOrPlain_truthy; [|exact Tu].
        apply Hobj. reflexivity.
      * apply Emits_ret.
  - apply Emits_bind.
    + apply Emits_when. intros T. apply Emits_cdataOf. apply P; [simpl; tauto|exact T].
    + apply Emits_bind.
      * apply Emits_when. intros T. apply Emits_textOf. apply P; [simpl; tauto|exact T].
      * apply Emits_bind.
        -- apply Emits_when. intros T. apply Emits_cdataOf.
           apply P; [simpl; tauto|exact T].
        -- apply Emits_when. intros T. apply Emits_textOf.
           apply P; [simpl; tauto|exact T].
Qed.

(** X22.  The image step: a truthy [img] whose arrayed form is a list
    of images, each of them a value that the tree builder takes or an
    object, with fields that are unset or such values, builds without
    failure; it leaves that list in the field and appends one
    [image:image] element for each image, in order, holding the
    location (the image itself when it is not an object, else its
    [url] when truthy), then caption as CDATA, geo location, title as
    CDATA and license, each when truthy. *)
Theorem images_step (it : SitemapItem) (images : list JsVal) :
  truthy (img it) = true ->
  arrayed (img it) = JArr images ->
  Forall (fun i => imageTakes i = true) images ->
  exists it',
    buildProp "img" it = (Ok tt, it')
    /\ img it' = JArr images
    /\ children (url it') = children (url it) ++ map imageNode images.
Proof.
  intros Ht Ha Hf. unfold buildProp. rewrite bind_state_run. cbv beta zeta.
  cbn [String.eqb Ascii.eqb Bool.eqb this]. rewrite Ht. cbn [andb].
  rewrite (@arrayed_asArray (img it) Ht), Ha, bind_lift_Ok. cbv beta.
  unfold bind, modify. cbn [forEachOf].
  rewrite (@forEach_nodes imageElement imageNode images).
  - eexists. split; [reflexivity|]. split; reflexivity.
  - intros x Hx s. rewrite Forall_forall in Hf. apply imageElement_takes. exact (Hf x Hx).
Qed.

End Properties.

(* ================================================================== *)
(** ** Concrete runs *)
(* ================================================================== *)

#[local] Existing Instance PlainHost.host.

Lemma attrBuilder_key_shape_and_currency_witness :
  (get (JObj [("bogus", JStr "x"); ("safe", JBool true)]) "bogus" = Ok (JStr "x")
   /\ JStr "x" <> JUndefined /\ hasColon "bogus" = false
   /\ attrBuilder (JObj [("bogus", JStr "x"); ("safe", JBool true)]) (OneKey "bogus")
      = Throw (InvalidAttr "bogus"))
  /\ (get (JObj [("price:currency", JStr "USD")]) "price:currency" = Ok (JStr "USD")
      /\ attrBuilder (JObj [("price:currency", JStr "USD")]) (OneKey "price:currency")
         = Ok [("currency", JStr "USD")]).
Proof.
  split.
  - split; [reflexivity|]. split; [discriminate|]. split; [reflexivity|].
    apply (proj1 (attrBuilder_key_shape_and_currency
                    (JObj [("bogus", JStr "x"); ("safe", JBool true)]))
                 "bogus" (JStr "x") []); [reflexivity|discriminate|reflexivity].
  - split; [reflexivity|].
    apply (proj2 (proj2 (attrBuilder_key_shape_and_currency
                           (JObj [("price:currency", JStr "USD")])))).
    reflexivity.
Defined.

Lemma price_type_spellings_witness :
  get (JObj [("price:type", JStr "Rent")]) "price:type" = Ok (JStr "Rent")
  /\ contains "rent" "Rent" = false /\ contains "purchase" "Rent" = false
  /\ contains "RENT" "Rent" = false /\ contains "PURCHASE" "Rent" = false
  /\ exists pattern,
      lookup "price:type" validators = Some pattern
      /\ attrBuilder (JObj [("price:type", JStr "Rent")]) (OneKey "price:type")
         = Throw (InvalidAttrValue "price:type" (JStr "Rent") pattern).
Proof.
  do 5 (split; [reflexivity|]).
  apply (proj2 (@price_type_spellings _ (JObj [("price:type", JStr "Rent")]) "Rent"
                  eq_refl)); reflexivity.
Defined.

(** Against C5 as stated: [Rent] is [rent] when case is disregarded, and
    the extractor rejects it. *)
Lemma price_type_mixed_case_rejected :
  specPriceType "Rent" = true
  /\ exists pattern,
      attrBuilder (JObj [("price:type", JStr "Rent")]) (OneKey "price:type")
      = Throw (InvalidAttrValue "price:type" (JStr "Rent") pattern).
Proof. split; [reflexivity|]. eexists. reflexivity. Qed.

Lemma constructor_requires_url_witness :
  truthy (prop [("changefreq", JStr "daily"); ("priority", JNum (Fin (1 # 2)))] "url") = false
  /\ SitemapItem_constructor [("changefreq", JStr "daily"); ("priority", JNum (Fin (1 # 2)))]
     = Throw NoURLError.
Proof.
  split; [reflexivity|].
  apply (@constructor_requires_url _
           [("changefreq", JStr "daily"); ("priority", JNum (Fin (1 # 2)))]).
  reflexivity.
Defined.

Lemma priority_zero_is_emitted_witness :
  let options := [("url", JStr "https://example.com/a"); ("priority", JNum (Fin 0))] in
  truthy (prop options "url") = true
  /\ lastmodOf options = Ok JUndefined
  /\ truthy (prop options "changefreq") = false
  /\ truthy (prop options "safe") = false
  /\ prop options "priority" = JNum (Fin 0)
  /\ priorityChecked options = false
  /\ exists it node it',
      SitemapItem_constructor options = Ok it
      /\ plainItem it = true
      /\ buildXML it = (Ok node, it')
      /\ filter (named "priority") (children node)
         = [Element "priority" [] [Text (JStr "0.0")]].
Proof.
  intros options. do 5 (split; [reflexivity|]).
  destruct (@priority_zero_is_emitted _ options JUndefined eq_refl eq_refl
              (or_introl eq_refl) eq_refl eq_refl) as (_ & Hc & it & Hk & Hf & Hs).
  split; [exact Hc|].
  pose proof Hk as Hk'. vm_compute in Hk'. injection Hk' as <-.
  destruct (Hs eq_refl) as (node & it' & Hb).
  eexists. exists node, it'. split; [exact Hk|]. split; [reflexivity|].
  split; [exact Hb|exact (Hf node it' Hb)].
Defined.

Lemma priority_validation_witness :
  let options := [("url", JStr "https://example.com/a"); ("priority", JNum (Fin 5))] in
  truthy (prop options "url") = true
  /\ lastmodOf options = Ok JUndefined
  /\ truthy (prop options "safe") = false
  /\ prop options "priority" = JNum (Fin 5)
  /\ outside01 (Fin 5)
  /\ SitemapItem_constructor options = Throw PriorityInvalidError.
Proof.
  intros options. do 4 (split; [reflexivity|]).
  assert (Ho : outside01 (Fin 5)) by (right; reflexivity).
  split; [exact Ho|].
  exact (proj1 (proj1 (@priority_validation _ options JUndefined eq_refl eq_refl eq_refl)
                  eq_refl) (Fin 5) eq_refl Ho).
Defined.

(** Against C1 as stated: with [safe] unset, the priority NaN, which the
    domain check itself calls invalid, is accepted; with [safe] set, the
    priority 2 is put into the built node. *)
Lemma priority_claim_counterexample :
  (priorityInvalid (JNum NaN) = true
   /\ exists it,
       SitemapItem_constructor [("url", JStr "https://example.com/a"); ("priority", JNum NaN)]
       = Ok it)
  /\ exists it node it',
      SitemapItem_constructor
        [("url", JStr "https://example.com/a"); ("safe", JBool true);
         ("priority", JNum (Fin 2))] = Ok it
      /\ buildXML it = (Ok node, it')
      /\ children node
         = [ Element "loc" [] [Text (JStr "https://example.com/a")];
             Element "priority" [] [Text (JNum (Fin 2))] ].
Proof.
  split.
  - split; [reflexivity|]. eexists. reflexivity.
  - do 3 eexists. split; [reflexivity|]. split; reflexivity.
Qed.

Lemma out_of_range_priority_on_every_build_witness :
  let options :=
    [("url", JStr "https://example.com/a"); ("safe", JBool true);
     ("priority", JNum (Fin (3 # 2)))] in
  truthy (prop options "url") = true
  /\ lastmodOf options = Ok JUndefined
  /\ exists it node it1 it2,
      SitemapItem_constructor options = Ok it
      /\ buildXML it = (Ok node, it1)
      /\ buildXML it1 = (Ok node, it2)
      /\ filter (named "priority") (children node)
         = [Element "priority" [] [Text (JNum (Fin (3 # 2)))]].
Proof.
  intros options. do 2 (split; [reflexivity|]).
  destruct (@out_of_range_priority_on_every_build _ options JUndefined
              eq_refl eq_refl eq_refl eq_refl) as (it & Hk & Hall & _ & Hs).
  pose proof Hk as Hk'. vm_compute in Hk'. injection Hk' as <-.
  destruct (Hs eq_refl) as (node & it1 & Hb).
  destruct (Hall node it1 Hb) as (Hf & it2 & H2).
  eexists. exists node, it1, it2. split; [exact Hk|]. split; [exact Hb|].
  split; [exact H2|exact Hf].
Defined.

(** Against C9 as stated: both builds return a node that holds the
    priority element. *)
Lemma repeated_build_counterexample :
  exists it node1 it1 node2 it2,
    SitemapItem_constructor
      [("url", JStr "https://example.com/a"); ("safe", JBool true);
       ("priority", JNum (Fin (3 # 2)))] = Ok it
    /\ buildXML it = (Ok node1, it1)
    /\ buildXML it1 = (Ok node2, it2)
    /\ In (Element "priority" [] [Text (JNum (Fin (3 # 2)))]) (children node1)
    /\ In (Element "priority" [] [Text (JNum (Fin (3 # 2)))]) (children node2).
Proof.
  do 5 eexists. split; [reflexivity|]. split; [reflexivity|]. split; [reflexivity|].
  split; simpl; auto.
Qed.


Lemma news_requires_language_witness :
  let publication := JObj [("name", JStr "The Example Times")] in
  let it :=
    {| conf := []; loc := JStr "https://example.com/n"; lastmod := JUndefined;
       changefreq := JUndefined; priority := JUndefined;
       news := JObj [("publication", publication);
                     ("publication_date", JStr "2008-12-23");
                     ("title", JStr "Companies A, B in Merger Talks");
                     ("genres", JStr "PressRelease")];
       img := JNull; links := JNull; expires := JNull; androidLink := JNull;
       mobile := JNull; video := JNull; ampLink := JNull;
       url := {| name := "url"; attributes := []; children := [] |} |} in
  truthy (news it) = true
  /\ truthy (field (field (news it) "publication") "language") = false
  /\ plainScalars it = true
  /\ fst (buildProp "news" it) = Throw InvalidNewsFormat
  /\ fst (buildXML it) = Throw InvalidNewsFormat.
Proof.
  intros publication it. do 3 (split; [reflexivity|]).
  destruct (@news_requires_language _ it eq_refl eq_refl) as [H1 H2].
  split; [exact H1|]. apply H2; reflexivity.
Defined.



(** *** What the tree builder refuses *)

(** A video with a gallery location and no title for it: the attribute
    [title] of [video:gallery_loc] has no value, and the build fails in
    the builder. *)
Lemma gallery_without_title_is_refused :
  exists it,
    SitemapItem_constructor
      [("url", JStr "https://example.com/v");
       ("video",
        JObj [("thumbnail_loc", JStr "t.jpg"); ("title", JStr "T");
              ("description", JStr "D");
              ("duration", JNum (Fin (inject_Z 28800)));
              ("gallery_loc", JStr "https://example.com/gallery")])] = Ok it
    /\ fst (buildXML it) = Throw MissingAttributeValue.
Proof. eexists. split; reflexivity. Qed.

(** A link without a target: the attribute [href] has no value. *)
Lemma link_without_url_is_refused :
  exists it,
    SitemapItem_constructor
      [("url", JStr "https://example.com/");
       ("links", JArr [JObj [("lang", JStr "en")]])] = Ok it
    /\ fst (buildXML it) = Throw MissingAttributeValue.
Proof. eexists. split; reflexivity. Qed.

(** A location that holds the character U+0000: the builder refuses the
    text, and the item node stays empty. *)
Lemma nul_in_location_is_refused :
  exists it,
    SitemapItem_constructor [("url", JStr (String zero "a"))] = Ok it
    /\ fst (buildXML it) = Throw InvalidCharacter
    /\ children (url (snd (buildXML it))) = [].
Proof. eexists. split; [reflexivity|]. split; reflexivity. Qed.

(** *** Runs for the further properties *)

Lemma relationship_values_witness :
  get (JObj [("platform:relationship", JStr "allowed")]) "platform:relationship"
  = Ok (JStr "allowed")
  /\ attrBuilder (JObj [("platform:relationship", JStr "allowed")])
       (OneKey "platform:relationship")
     = Ok [("relationship", JStr "allowed")].
Proof.
  split; [reflexivity|].
  exact (@relationship_values _ (JObj [("platform:relationship", JStr "allowed")])
           "platform:relationship" "allowed" (or_introl eq_refl) eq_refl).
Defined.

Lemma currency_values_witness :
  get (JObj [("price:currency", JStr "EUR")]) "price:currency" = Ok (JStr "EUR")
  /\ attrBuilder (JObj [("price:currency", JStr "EUR")]) (OneKey "price:currency")
     = Ok [("currency", JStr "EUR")].
Proof.
  split; [reflexivity|].
  destruct (@currency_values _ (JObj [("price:currency", JStr "EUR")]) "EUR" eq_refl)
    as (pattern & _ & H).
  exact H.
Defined.

Lemma price_type_language_witness :
  get (JObj [("price:type", JStr "rental")]) "price:type" = Ok (JStr "rental")
  /\ attrBuilder (JObj [("price:type", JStr "rental")]) (OneKey "price:type")
     = Ok [("type", JStr "rental")].
Proof.
  split; [reflexivity|].
  destruct (@price_type_language _ (JObj [("price:type", JStr "rental")]) "rental" eq_refl)
    as (pattern & _ & H).
  exact H.
Defined.

Lemma price_resolution_language_witness :
  get (JObj [("price:resolution", JStr "hd")]) "price:resolution" = Ok (JStr "hd")
  /\ attrBuilder (JObj [("price:resolution", JStr "hd")]) (OneKey "price:resolution")
     = Ok [("resolution", JStr "hd")].
Proof.
  split; [reflexivity|].
  destruct (@price_resolution_language _ (JObj [("price:resolution", JStr "hd")]) "hd"
              eq_refl) as (pattern & _ & H).
  exact H.
Defined.

Lemma attrBuilder_absent_and_malformed_witness :
  let conf := JObj [("a:b:c", JStr "x")] in
  (forall k, In k ["player_loc:autoplay"] -> get conf k = Ok JUndefined)
  /\ attrBuilder conf (ManyKeys ["player_loc:autoplay"]) = Ok []
  /\ get conf "a:b:c" = Ok (JStr "x")
  /\ List.length (split_colon "a:b:c") <> 2%nat
  /\ attrBuilder conf (ManyKeys ["player_loc:autoplay"; "a:b:c"; "price:type"])
     = Throw (InvalidAttr "a:b:c").
Proof.
  intros conf.
  assert (H : forall k, In k ["player_loc:autoplay"] -> get conf k = Ok JUndefined).
  { intros k [<-|[]]. reflexivity. }
  split; [exact H|].
  destruct (@attrBuilder_absent_and_malformed _ conf ["player_loc:autoplay"]
              ["price:type"] H) as [H1 H2].
  split; [exact H1|]. split; [reflexivity|]. split; [discriminate|].
  apply (H2 "a:b:c" (JStr "x")); [reflexivity|discriminate|discriminate].
Defined.

Lemma price_attributes_witness :
  let video := JObj [("price:currency", JStr "EUR"); ("price:type", JStr "rent")] in
  get video "price:resolution" = Ok JUndefined
  /\ get video "price:currency" = Ok (JStr "EUR")
  /\ get video "price:type" = Ok (JStr "rent")
  /\ attrBuilder video (ManyKeys ["price:resolution"; "price:currency"; "price:type"])
     = Ok [("currency", JStr "EUR"); ("type", JStr "rent")].
Proof.
  intros video. do 3 (split; [reflexivity|]).
  destruct (@price_attributes _ video JUndefined (JStr "EUR") (JStr "rent")
              eq_refl eq_refl eq_refl) as (p1 & p2 & p3 & L1 & L2 & L3 & H).
  rewrite H. inversion L1. inversion L2. inversion L3. reflexivity.
Defined.

Lemma safeDuration_interval_witness :
  (0 <= 28800 /\ 28800 <= 28800)%Q
  /\ safeDuration (JNum (Fin 28800)) = Ok (JNum (Fin 28800)).
Proof.
  assert (H : (0 <= 28800 /\ 28800 <= 28800)%Q).
  { split; unfold Qle; simpl; lia. }
  split; [exact H|].
  exact (proj1 (@safeDuration_interval _ 28800%Q) H).
Defined.


Lemma changefreq_checked_before_priority_witness :
  let options :=
    [("url", JStr "https://example.com/a"); ("changefreq", JStr "sometimes");
     ("priority", JNum (Fin 7))] in
  truthy (prop options "url") = true
  /\ lastmodOf options = Ok JUndefined
  /\ truthy (prop options "safe") = false
  /\ truthy (prop options "changefreq") = true
  /\ notInCHANGEFREQ (prop options "changefreq") = true
  /\ SitemapItem_constructor options = Throw ChangeFreqInvalidError.
Proof.
  intros options. do 5 (split; [reflexivity|]).
  exact (@changefreq_checked_before_priority _ options JUndefined
           eq_refl eq_refl eq_refl eq_refl eq_refl).
Defined.

Lemma constructed_item_invariant_witness :
  let options :=
    [("url", JStr "https://example.com/a"); ("priority", JNum (Fin (1 # 2)));
     ("mobile", JBool false)] in
  exists it,
    SitemapItem_constructor options = Ok it
    /\ truthy (loc it) = true
    /\ url it = {| name := "url"; attributes := []; children := [] |}.
Proof.
  intros options. eexists. split; [reflexivity|].
  destruct (@constructed_item_invariant _ options _ eq_refl) as (H1 & H2 & _).
  split; [exact H1|exact H2].
Defined.

Lemma priority_one_decimal_witness :
  let it :=
    {| conf := []; loc := JStr "https://example.com/a"; lastmod := JUndefined;
       changefreq := JUndefined; priority := JNum (Fin (1 # 4)); news := JNull;
       img := JNull; links := JNull; expires := JNull; androidLink := JNull;
       mobile := JNull; video := JNull; ampLink := JNull;
       url := {| name := "url"; attributes := []; children := [] |} |} in
  (0 <= 1 # 4)%Q /\ (1 # 4 <= 1)%Q
  /\ exists (n : nat) (it' : SitemapItem),
      (n <= 10)%nat
      /\ buildProp "priority" it = (Ok tt, it')
      /\ children (url it') = [Element "priority" [] [Text (JStr (nth n tenths ""))]].
Proof.
  intros it.
  assert (H0 : (0 <= 1 # 4)%Q) by (unfold Qle; simpl; lia).
  assert (H1 : (1 # 4 <= 1)%Q) by (unfold Qle; simpl; lia).
  split; [exact H0|]. split; [exact H1|].
  destruct (@priority_one_decimal _ (1 # 4) it eq_refl H0 H1)
    as (n & it' & Hn & Hp & Hc & _).
  exists n, it'. split; [exact Hn|]. split; [exact Hp|exact Hc].
Defined.

Lemma buildXML_errors_witness :
  let it :=
    {| conf := []; loc := JStr "https://example.com/v"; lastmod := JUndefined;
       changefreq := JUndefined; priority := JUndefined; news := JNull;
       img := JNull; links := JNull; expires := JNull; androidLink := JNull;
       mobile := JNull;
       video := JObj [("thumbnail_loc", JStr "t.jpg"); ("title", JStr "T");
                      ("description", JStr "D"); ("price", JStr "1");
                      ("price:currency", JStr "eur")];
       ampLink := JNull;
       url := {| name := "url"; attributes := []; children := [] |} |} in
  exists e, fst (buildXML it) = Throw e /\ buildError e.
Proof.
  intros it. eexists. split; [reflexivity|].
  apply (@buildXML_errors _ it). reflexivity.
Defined.

Lemma plain_item_build_witness :
  let it :=
    {| conf := [("cdata", JBool true)]; loc := JStr "https://example.com/a";
       lastmod := JStr "2019-05-01"; changefreq := JStr "daily";
       priority := JNum (Fin (1 # 2)); news := JNull; img := JNull; links := JNull;
       expires := JNull; androidLink := JStr "android-app://com.example/a";
       mobile := JBool true; video := JNull; ampLink := JStr "https://amp.example.com/a";
       url := {| name := "url"; attributes := []; children := [] |} |} in
  plainItem it = true
  /\ exists node it',
      buildXML it = (Ok node, it')
      /\ children node
         = [ Element "loc" [] [Raw (JStr "https://example.com/a")];
             Element "lastmod" [] [Text (JStr "2019-05-01")];
             Element "changefreq" [] [Text (JStr "daily")];
             Element "priority" [] [Text (JStr "0.5")];
             Element "xhtml:link"
               [("rel", JStr "alternate"); ("href", JStr "android-app://com.example/a")] [];
             Element "mobile:mobile" [] [];
             Element "xhtml:link"
               [("rel", JStr "amphtml"); ("href", JStr "https://amp.example.com/a")] [] ].
Proof.
  intros it. split; [reflexivity|].
  destruct (@plain_item_build _ it eq_refl) as (node & it' & Hb & _ & _ & Hc).
  exists node, it'. split; [exact Hb|exact Hc].
Defined.

Lemma scalar_fields_emitted_once_witness :
  let it :=
    {| conf := []; loc := JStr "https://example.com/a"; lastmod := JUndefined;
       changefreq := JStr "sometimes"; priority := JUndefined; news := JNull;
       img := JStr "a.jpg"; links := JNull; expires := JNull; androidLink := JNull;
       mobile := JNull; video := JNull; ampLink := JNull;
       url := {| name := "url"; attributes := []; children := [] |} |} in
  In "changefreq" ["loc"; "lastmod"; "changefreq"]
  /\ exists node it',
      buildXML it = (Ok node, it')
      /\ filter (named "changefreq") (children node)
         = [Element "changefreq" [] [Text (JStr "sometimes")]].
Proof.
  intros it.
  assert (H : In "changefreq" ["loc"; "lastmod"; "changefreq"]) by (simpl; tauto).
  split; [exact H|].
  assert (Hb : exists node it', buildXML it = (Ok node, it')).
  { do 2 eexists. reflexivity. }
  destruct Hb as (node & it' & Hb). exists node, it'. split; [exact Hb|].
  refine (proj1 (@scalar_fields_emitted_once _ it it' node Hb) "changefreq" H _ _);
    discriminate.
Defined.

Lemma build_wraps_images_in_place_witness :
  let it :=
    {| conf := []; loc := JStr "https://example.com/a"; lastmod := JUndefined;
       changefreq := JUndefined; priority := JUndefined; news := JNull;
       img := JStr "a.jpg"; links := JNull; expires := JNull; androidLink := JNull;
       mobile := JNull; video := JNull; ampLink := JNull;
       url := {| name := "url"; attributes := []; children := [] |} |} in
  exists node it',
    buildXML it = (Ok node, it') /\ img it' = JArr [JStr "a.jpg"].
Proof.
  intros it.
  assert (Hb : exists node it', buildXML it = (Ok node, it')).
  { do 2 eexists. reflexivity. }
  destruct Hb as (node & it' & Hb). exists node, it'. split; [exact Hb|].
  exact (proj1 (proj1 (proj2 (proj2 (proj2 (@build_wraps_images_in_place _ it))))
                  node it' Hb)).
Defined.

Lemma video_format_failures_witness :
  let video := JObj [("thumbnail_loc", JStr "t.jpg"); ("description", JStr "D")] in
  let it :=
    {| conf := []; loc := JStr "https://example.com/v"; lastmod := JUndefined;
       changefreq := JUndefined; priority := JUndefined; news := JNull;
       img := JNull; links := JNull; expires := JNull; androidLink := JNull;
       mobile := JNull; video := video; ampLink := JNull;
       url := {| name := "url"; attributes := []; children := [] |} |} in
  typeof video = "object" /\ video <> JNull
  /\ truthy (field video "title") = false
  /\ exists it',
      buildVideoElement video it = (Throw InvalidVideoFormat, it')
      /\ children (url it') = children (url it) ++ [Element "video:video" [] []].
Proof.
  intros video it. split; [reflexivity|]. split; [discriminate|].
  split; [reflexivity|].
  apply (proj1 (@video_format_failures _ video it)).
  right. split; [reflexivity|]. split; [discriminate|].
  exists "title". split; [simpl; tauto|reflexivity].
Defined.

Lemma video_description_bound_witness :
  let video :=
    JObj [("thumbnail_loc", JStr "t.jpg"); ("title", JStr "T"); ("description", JStr "D")] in
  let it :=
    {| conf := []; loc := JStr "https://example.com/v"; lastmod := JUndefined;
       changefreq := JUndefined; priority := JUndefined; news := JNull;
       img := JNull; links := JNull; expires := JNull; androidLink := JNull;
       mobile := JNull; video := video; ampLink := JNull;
       url := {| name := "url"; attributes := []; children := [] |} |} in
  typeof video = "object"
  /\ get video "description" = Ok (JStr "D")
  /\ (String.length "D" <= 2048)%nat
  /\ videoTakes video = true
  /\ videoAttrsOk video
  /\ truthy (field video "duration") = false
  /\ exists it', buildVideoElement video it = (Ok tt, it').
Proof.
  intros video it. split; [reflexivity|]. split; [reflexivity|].
  assert (L : (String.length "D" <= 2048)%nat) by (simpl; lia).
  assert (A : videoAttrsOk video) by (repeat split; eexists; reflexivity).
  split; [exact L|]. split; [reflexivity|]. split; [exact A|]. split; [reflexivity|].
  refine (proj2 (@video_description_bound _ video (JStr "t.jpg") (JStr "T") "D" it
                   eq_refl eq_refl eq_refl eq_refl eq_refl eq_refl _)
            L eq_refl A (or_introl eq_refl)).
  discriminate.
Defined.

Lemma video_required_fields_and_tags_witness :
  let video :=
    JObj [("thumbnail_loc", JStr "t.jpg"); ("title", JStr "T"); ("description", JStr "D");
          ("tag", JArr [JStr "cats"; JStr "dogs"])] in
  let it :=
    {| conf := []; loc := JStr "https://example.com/v"; lastmod := JUndefined;
       changefreq := JUndefined; priority := JUndefined; news := JNull;
       img := JNull; links := JNull; expires := JNull; androidLink := JNull;
       mobile := JNull; video := video; ampLink := JNull;
       url := {| name := "url"; attributes := []; children := [] |} |} in
  typeof video = "object"
  /\ get video "tag" = Ok (JArr [JStr "cats"; JStr "dogs"])
  /\ plainTags (JArr [JStr "cats"; JStr "dogs"]) = true
  /\ exists it',
      buildVideoElement video it = (Ok tt, it')
      /\ children (url it')
         = [Element "video:video" []
              [ Element "video:thumbnail_loc" [] [Text (JStr "t.jpg")];
                Element "video:title" [] [CData (JStr "T")];
                Element "video:description" [] [CData (JStr "D")];
                Element "video:tag" [] [Text (JStr "cats")];
                Element "video:tag" [] [Text (JStr "dogs")] ]].
Proof.
  intros video it. split; [reflexivity|]. split; [reflexivity|]. split; [reflexivity|].
  apply (@video_required_fields_and_tags _ video (JStr "t.jpg") (JStr "T") (JStr "D")
           (JNum (Fin 1)) (JArr [JStr "cats"; JStr "dogs"]) it);
    try reflexivity.
  intros k Hk. simpl in Hk.
  repeat (destruct Hk as [<-|Hk]; [eexists; split; reflexivity|]). destruct Hk.
Defined.

Lemma news_assembly_witness :
  let publication := JObj [("name", JStr "The Example Times"); ("language", JStr "en")] in
  let news :=
    JObj [("publication", publication); ("publication_date", JStr "2008-12-23");
          ("title", JStr "Companies A, B in Merger Talks"); ("access", JStr "Paid")] in
  let it :=
    {| conf := []; loc := JStr "https://example.com/n"; lastmod := JUndefined;
       changefreq := JUndefined; priority := JUndefined; news := news;
       img := JNull; links := JNull; expires := JNull; androidLink := JNull;
       mobile := JNull; video := JNull; ampLink := JNull;
       url := {| name := "url"; attributes := []; children := [] |} |} in
  get news "publication" = Ok publication
  /\ get news "access" = Ok (JStr "Paid")
  /\ plain (JStr "The Example Times") = true
  /\ plain (JStr "Companies A, B in Merger Talks") = true
  /\ exists it',
      buildNewsElement news it = (Throw InvalidNewsAccessValue, it')
      /\ children (url it')
         = [Element "news:news" []
              [Element "news:publication" []
                 [ Element "news:name" [] [CData (JStr "The Example Times")];
                   Element "news:language" [] [Text (JStr "en")] ]]].
Proof.
  intros publication news it. do 4 (split; [reflexivity|]).
  exact (@news_assembly _ news publication (JStr "The Example Times") (JStr "en")
           (JStr "2008-12-23") (JStr "Companies A, B in Merger Talks") (JStr "Paid")
           JUndefined JUndefined JUndefined it
           eq_refl eq_refl eq_refl eq_refl eq_refl eq_refl eq_refl eq_refl
           eq_refl eq_refl eq_refl eq_refl eq_refl eq_refl eq_refl eq_refl eq_refl).
Defined.

Lemma links_step_witness :
  let ls :=
    [ JObj [("lang", JStr "en"); ("url", JStr "https://example.com/en")];
      JObj [("lang", JStr "ja"); ("url", JStr "https://example.com/ja")] ] in
  let it :=
    {| conf := []; loc := JStr "https://example.com/"; lastmod := JUndefined;
       changefreq := JUndefined; priority := JUndefined; news := JNull;
       img := JNull; links := JArr ls; expires := JNull; androidLink := JNull;
       mobile := JNull; video := JNull; ampLink := JNull;
       url := {| name := "url"; attributes := []; children := [] |} |} in
  links it = JArr ls
  /\ Forall (fun l => linkTakes l = true) ls
  /\ exists it',
      buildProp "links" it = (Ok tt, it')
      /\ children (url it')
         = [ Element "xhtml:link"
               [("rel", JStr "alternate"); ("hreflang", JStr "en");
                ("href", JStr "https://example.com/en")] [];
             Element "xhtml:link"
               [("rel", JStr "alternate"); ("hreflang", JStr "ja");
                ("href", JStr "https://example.com/ja")] [] ].
Proof.
  intros ls it.
  assert (F : Forall (fun l => linkTakes l = true) ls).
  { repeat (apply Forall_cons; [reflexivity|]). apply Forall_nil. }
  split; [reflexivity|]. split; [exact F|].
  exact (proj1 (@links_step _ it) ls eq_refl F).
Defined.

Lemma images_step_witness :
  let it :=
    {| conf := []; loc := JStr "https://example.com/"; lastmod := JUndefined;
       changefreq := JUndefined; priority := JUndefined; news := JNull;
       img := JObj [("url", JStr "a.jpg"); ("caption", JStr "A")];
       links := JNull; expires := JNull; androidLink := JNull;
       mobile := JNull; video := JNull; ampLink := JNull;
       url := {| name := "url"; attributes := []; children := [] |} |} in
  truthy (img it) = true
  /\ arrayed (img it) = JArr [JObj [("url", JStr "a.jpg"); ("caption", JStr "A")]]
  /\ imageTakes (JObj [("url", JStr "a.jpg"); ("caption", JStr "A")]) = true
  /\ exists it',
      buildProp "img" it = (Ok tt, it')
      /\ img it' = JArr [JObj [("url", JStr "a.jpg"); ("caption", JStr "A")]]
      /\ children (url it')
         = [Element "image:image" []
              [ Element "image:loc" [] [Text (JStr "a.jpg")];
                Element "image:caption" [] [CData (JStr "A")] ]].
Proof.
  intros it. split; [reflexivity|]. split; [reflexivity|]. split; [reflexivity|].
  refine (@images_step _ it [JObj [("url", JStr "a.jpg"); ("caption", JStr "A")]]
            eq_refl eq_refl _).
  apply Forall_cons; [reflexivity|apply Forall_nil].
Defined.
